(** * Buzz: the room coordination engine of [src/context/RoomContext.tsx]

    A shallow embedding of the buzzer room logic: the room record that the
    realtime database replicates, the client-side context every function of
    [RoomProvider] closes over, and the functions [handleBuzz],
    [handleResetBuzz], the adjudication functions, [setGameMode],
    [enableBuzz]/[disableBuzz], [startCountdown]/[stopCountdown] and the
    turn rotation of the audio player's [play] listener.

    Every function of the source is an [async] function whose only outputs
    are database writes, service calls, timers and window events.  It is
    embedded as a pure function from the caller's context (and the value of
    [Date.now()]) to the list of effects it issues, in program order; a
    separate interpreter applies the effects to the shared room record.
    Keeping the caller's snapshot ([roomData]) apart from the shared record
    is what makes the read-then-write structure of the source visible.

    Numbers are integers ([Z]).  An [update] resolves unless the database
    client refuses the object it is given, which it does for an object
    holding a key the database cannot store ([validKey]); a call that
    throws issues none of the effects that would follow.  Toasts, console
    output and the setters of local React state are not effects of the
    model.  The functions of [services/firebase] are not among the sources:
    a call to one of them is an effect whose meaning is a parameter of the
    interpreter. *)

From stdpp Require Import base numbers strings list gmap.
From Stdlib Require Import Ascii QArith Qminmax.

Local Open Scope string_scope.
Local Open Scope Z_scope.
Local Open Scope list_scope.

(** ** JavaScript truthiness of the optional fields the source tests *)

(** [!!s] for a string that may be [null]/[undefined]. *)
Definition truthyS (o : option string) : bool :=
  match o with
  | Some s => negb (String.eqb s EmptyString)
  | None => false
  end.

(** [!!b] for an optional boolean. *)
Definition truthyB (o : option bool) : bool :=
  match o with
  | Some b => b
  | None => false
  end.

(** [!!o] for an optional object. *)
Definition truthyO {A : Type} (o : option A) : bool :=
  match o with
  | Some _ => true
  | None => false
  end.

(** [a || b] on optional strings. *)
Definition orS (a b : option string) : option string :=
  if truthyS a then a else b.

(** [x || d] on an optional number: [undefined] and [0] both give [d]. *)
Definition orZ (o : option Z) (d : Z) : Z :=
  match o with
  | Some z => if Z.eqb z 0 then d else z
  | None => d
  end.

(** ** Data model (the interfaces at the top of RoomContext.tsx) *)

Module Player.
Record t := mk {
  name : string;
  isHost : bool;
  joinedAt : Z;
  points : option Z;
  currentStreak : option Z;
  bestStreak : option Z;
  correctAnswers : option Z;
  wrongAnswers : option Z;
  lastAnswerTime : option Z
}.
End Player.

Module WinnerInfo.
Record t := mk {
  playerId : string;
  playerName : string;
  timestamp : Z;
  answer : option string
}.
End WinnerInfo.

Inductive GameModeType :=
| classic | speed | turnBased | teams | easy | expert.

Definition GameModeType_eqb (a b : GameModeType) : bool :=
  match a, b with
  | classic, classic | speed, speed | turnBased, turnBased
  | teams, teams | easy, easy | expert, expert => true
  | _, _ => false
  end.

Record GameModeSettings := mkSettings {
  timeLimit : option Z;
  autoNext : option bool;
  teamsEnabled : option bool;
  pointsCorrect : option Z;
  pointsWrong : option Z;
  buzzDelaySeconds : option Z;
  oneAttemptPerSong : option bool;
  turnBasedEnabled : option bool;
  turnAdvantageSeconds : option Z
}.

Module GameMode.
Record t := mk {
  type : GameModeType;
  name : string;
  settings : GameModeSettings
}.
End GameMode.

(** [rooms/{code}/countdown]. *)
Module Countdown.
Record t := mk {
  isActive : option bool;
  value : option Z;
  startTime : option Z
}.
Definition empty : t := mk None None None.
End Countdown.

(** [rooms/{code}/currentTurn]. *)
Module Turn.
Record t := mk {
  playerId : string;
  playerName : string;
  turnNumber : Z;
  startTime : option Z;
  advantagePhase : bool;
  turnOrder : list (string * string);
  nextPlayerIndex : option Z
}.
(** What a reader sees of a node none of whose fields was written yet:
    every field is falsy. *)
Definition empty : t := mk EmptyString EmptyString 0 None false [] None.
End Turn.

(** The room record, as the database holds it and as [listenToRoom] hands
    it to every client.  [players] is an association list in the order in
    which the snapshot enumerates its keys ([Object.keys],
    [Object.entries]); [songAttempts] maps a song name to the player ids
    that tried it, an absent map being the empty one.  [hostName],
    [createdAt], [playedSongs] and [gameTimer] are read or written by none
    of the functions below and are left out. *)
Record RoomData := mkRoom {
  winnerInfo : option WinnerInfo.t;
  players : list (string * Player.t);
  gameMode : option GameMode.t;
  currentSong : option string;
  buzzEnabled : option bool;
  songAttempts : gmap string (list string);
  currentTurn : option Turn.t;
  countdown : option Countdown.t;
  lastBuzzActivity : option Z;
  backgroundMusicControl : option (string * Z);
  currentTeamTurn : option string
}.

(** The React state a call of a [RoomProvider] function closes over. *)
Record Ctx := mkCtx {
  roomCode : option string;
  playerId : option string;
  playerName : option string;
  roomData : option RoomData;
  currentGameMode : option GameMode.t
}.

(** The record the players object holds under a key of its own.  This is
    [obj[key]] wherever the source reads a field of the result behind
    [?.] ([isHost], the names of the turn order): a member inherited from
    [Object.prototype] has none of those fields.  Where the source tests the
    result itself, the read is [playersGet] below. *)
Fixpoint lookupPlayer (pid : string) (ps : list (string * Player.t)) : option Player.t :=
  match ps with
  | [] => None
  | (k, p) :: rest => if String.eqb k pid then Some p else lookupPlayer pid rest
  end.

(** A player node none of whose fields was written yet: every optional
    field reads [undefined]. *)
Definition blankPlayer : Player.t :=
  Player.mk EmptyString false 0 None None None None None None.

(** ** Keys of JavaScript objects and of the database *)

(** The names every object inherits from [Object.prototype]: [obj[key]]
    finds a value (a function, or the prototype itself) under each of
    them on an object that holds no such key of its own. *)
Definition inheritedKey (k : string) : bool :=
  existsb (String.eqb k)
    [ "constructor"; "hasOwnProperty"; "isPrototypeOf"; "propertyIsEnumerable";
      "toLocaleString"; "toString"; "valueOf";
      "__defineGetter__"; "__defineSetter__"; "__lookupGetter__"; "__lookupSetter__";
      "__proto__" ].

(** [roomData.players[playerId]] as the adjudication functions read it
    (lines 547, 584 and 621): the record of the snapshot, or, for a key
    the snapshot does not hold, what the prototype chain gives.  An
    inherited member is truthy and none of the fields read on it
    ([points], [currentStreak], [bestStreak], [correctAnswers],
    [wrongAnswers]) is defined.  A room without players has no [players]
    object at all: the read throws inside the [try] and the function
    stops, as it does on a falsy result. *)
Definition playersGet (pid : string) (ps : list (string * Player.t)) : option Player.t :=
  match lookupPlayer pid ps with
  | Some p => Some p
  | None =>
      match ps with
      | [] => None
      | _ :: _ => if inheritedKey pid then Some blankPlayer else None
      end
  end.

(** The characters the database client refuses in a key: [. # $ / [ ]]
    and the control characters. *)
Definition forbiddenInKey (a : ascii) : bool :=
  (N_of_ascii a <? 32)%N || (N_of_ascii a =? 127)%N ||
  existsb (Ascii.eqb a) [ "."; "#"; "$"; "/"; "["; "]" ]%char.

(** The check [update] of [firebase/database] runs on every key of the
    object it is given, before anything is sent: a key is a non-empty
    string without any of those characters.  On a key that fails the
    check, [update] throws.  The client's limits on the size of a path and
    of a value are not part of the model. *)
Definition validKey (k : string) : bool :=
  negb (String.eqb k EmptyString) &&
  forallb (fun a => negb (forbiddenInKey a)) (String.list_ascii_of_string k).

(** [const isHost = !!playerId && !!roomData?.players &&
    !!roomData.players[playerId]?.isHost]. *)
Definition isHost (c : Ctx) : bool :=
  truthyS (playerId c) &&
  match playerId c, roomData c with
  | Some pid, Some r =>
      match lookupPlayer pid (players r) with
      | Some p => Player.isHost p
      | None => false
      end
  | _, _ => false
  end.

(** ** Effects *)

(** The fields an [update(ref(database, `rooms/${roomCode}`), {...})]
    call of the source can carry. *)
Inductive RoomField :=
| FWinnerInfo (w : WinnerInfo.t)
| FBuzzEnabled (b : bool)
| FSongAttempts (m : gmap string (list string))
| FLastBuzzActivity (t : Z)
| FGameMode (m : GameMode.t)
| FCurrentTeamTurn (s : string)
| FCurrentTurn (t : Turn.t)
| FCurrentSong (s : string).

Inductive PlayerField :=
| PPoints (z : Z)
| PCurrentStreak (z : Z)
| PBestStreak (z : Z)
| PCorrectAnswers (z : Z)
| PWrongAnswers (z : Z)
| PLastAnswerTime (z : Z).

Inductive CountdownField :=
| CIsActive (b : bool)
| CValue (z : Z)
| CStartTime (t : option Z).

Inductive TurnField :=
| TPlayerId (s : string)
| TPlayerName (s : string)
| TTurnNumber (z : Z)
| TStartTime (t : option Z)
| TAdvantagePhase (b : bool).

(** One [update] call: the path it addresses and the object literal it
    merges there. *)
Inductive Write :=
| UpdRoom (fs : list RoomField)
| UpdPlayer (pid : string) (fs : list PlayerField)
| UpdCountdown (fs : list CountdownField)
| UpdTurn (fs : list TurnField)
| UpdBackgroundMusic (action : string) (ts : Z).

(** The functions imported from [services/firebase], whose bodies are not
    part of the sources at hand. *)
Inductive ServiceCall :=
| ResetBuzz
| UpdateBuzzActivity
| RejectPlayerAnswer
| AssignPoints (pid : string) (amount : Z)
| SubtractPoints (pid : string) (amount : Z).

Inductive Effect :=
| Store (w : Write)                (* await update(...) *)
| Call (c : ServiceCall)           (* await service(roomCode, ...) *)
| Sleep (ms : Z)                   (* await new Promise(r => setTimeout(r, ms)) *)
| After (ms : Z) (ws : list Write) (* setTimeout(() => { update(...) }, ms) *)
| Emit (ev : string).              (* window.dispatchEvent(new CustomEvent(ev)) *)

(** ** handleBuzz (RoomContext.tsx, lines 427-509) *)

(** [attemptedPlayers.includes(id)]. *)
Definition includes (id : string) (l : list string) : bool :=
  existsb (String.eqb id) l.

(** Lines 446-458: the turn-based advantage check.  [true] means the
    function returns here. *)
Definition turnDenies (c : Ctx) (r : RoomData) (buzzPlayerId : string) : bool :=
  match currentGameMode c with
  | Some m =>
      GameModeType_eqb (GameMode.type m) turnBased &&
      truthyB (turnBasedEnabled (GameMode.settings m)) &&
      match currentTurn r with
      | Some t => Turn.advantagePhase t && negb (String.eqb (Turn.playerId t) buzzPlayerId)
      | None => false
      end
  | None => false
  end.

(** Line 461: the condition that opens the expert-mode block; it yields
    the current song when the block is entered. *)
Definition expertSong (c : Ctx) (r : RoomData) : option string :=
  match currentGameMode c with
  | Some m =>
      if GameModeType_eqb (GameMode.type m) expert &&
         truthyB (oneAttemptPerSong (GameMode.settings m)) &&
         truthyS (currentSong r)
      then currentSong r else None
  | None => None
  end.

(** Lines 485-503: the winner update, the background-music update and the
    window event. *)
Definition winnerWrites (buzzPlayerId buzzPlayerName : string) (now : Z) : list Effect :=
  [ Store (UpdRoom [ FWinnerInfo (WinnerInfo.mk buzzPlayerId buzzPlayerName now None);
                     FBuzzEnabled false ]);
    Store (UpdBackgroundMusic "resume" now);
    Emit "mainPlayerPause" ].

(** Lines 462-463: [(roomData.songAttempts || {})[roomData.currentSong]
    || []].  Under a song name the map does not hold, the read gives the
    empty list, unless the name is one every object inherits: what it gives
    then is no array, and [attemptedPlayers.includes] of line 465 throws
    ([None]). *)
Definition attemptedPlayersOf (r : RoomData) (song : string) : option (list string) :=
  match songAttempts r !! song with
  | Some l => Some l
  | None => if inheritedKey song then None else Some []
  end.

(** The expert block (lines 461-481) stands before the [try]: when line
    465 throws, or when the [update] of lines 478-480 refuses the song
    name as a key, the exception leaves [handleBuzz] and the winner update
    is not reached.  The keys of the snapshot's own [songAttempts] come
    from the database and pass the check. *)
Definition handleBuzz (c : Ctx) (inputPlayerId inputPlayerName : option string)
    (now : Z) : list Effect :=
  let buzzPlayerId := orS inputPlayerId (playerId c) in
  let buzzPlayerName := orS inputPlayerName (playerName c) in
  match roomData c, buzzPlayerId, buzzPlayerName with
  | Some r, Some pid, Some pname =>
      if negb (truthyS (roomCode c)) || negb (truthyS buzzPlayerId)
         || negb (truthyS buzzPlayerName) then []
      else if negb (truthyB (buzzEnabled r)) then []
      else if truthyO (winnerInfo r) then []
      else if turnDenies c r pid then []
      else
        match expertSong c r with
        | Some song =>
            match attemptedPlayersOf r song with
            | Some attemptedPlayers =>
                if includes pid attemptedPlayers then []
                else if validKey song then
                  Store (UpdRoom [ FSongAttempts
                                     (<[song := attemptedPlayers ++ [pid]]> (songAttempts r)) ])
                  :: winnerWrites pid pname now
                else []
            | None => []
            end
        | None => winnerWrites pid pname now
        end
  | _, _, _ => []
  end.

(** ** enableBuzz / disableBuzz and the window listeners (lines 282-303, 958-986) *)

Definition enableBuzzWrites (c : Ctx) (now : Z) : list Write :=
  if negb (truthyS (roomCode c)) || negb (isHost c) then []
  else [ UpdRoom [ FBuzzEnabled true; FLastBuzzActivity now ] ].

Definition disableBuzzWrites (c : Ctx) (now : Z) : list Write :=
  if negb (truthyS (roomCode c)) || negb (isHost c) then []
  else [ UpdRoom [ FBuzzEnabled false; FLastBuzzActivity now ] ].

Definition enableBuzz (c : Ctx) (now : Z) : list Effect :=
  map Store (enableBuzzWrites c now).

Definition disableBuzz (c : Ctx) (now : Z) : list Effect :=
  map Store (disableBuzzWrites c now).

(** [handleEnableBuzzForSong]: [if (isHost && roomCode) enableBuzz()]. *)
Definition onEnableBuzzForSong (c : Ctx) (now : Z) : list Write :=
  if isHost c && truthyS (roomCode c) then enableBuzzWrites c now else [].

Definition onDisableBuzzForSong (c : Ctx) (now : Z) : list Write :=
  if isHost c && truthyS (roomCode c) then disableBuzzWrites c now else [].

(** [window.dispatchEvent(new CustomEvent('enableBuzzForSong'))]: the
    listener runs synchronously and issues its write before the
    dispatching function goes on. *)
Definition dispatchEnableBuzzForSong (c : Ctx) (now : Z) : list Effect :=
  Emit "enableBuzzForSong" :: map Store (onEnableBuzzForSong c now).

Definition dispatchDisableBuzzForSong (c : Ctx) (now : Z) : list Effect :=
  Emit "disableBuzzForSong" :: map Store (onDisableBuzzForSong c now).

(** ** handleResetBuzz (lines 511-535) *)

Definition handleResetBuzz (c : Ctx) : list Effect :=
  if negb (truthyS (roomCode c)) || negb (isHost c) then []
  else
    [ Call ResetBuzz; Call UpdateBuzzActivity ] ++
    match currentGameMode c, roomData c with
    | Some m, Some r =>
        if GameModeType_eqb (GameMode.type m) expert && truthyS (currentSong r) then
          match currentSong r with
          | Some song => [ Store (UpdRoom [ FSongAttempts (delete song (songAttempts r)) ]) ]
          | None => []
          end
        else []
    | _, _ => []
    end.

(** ** Adjudication (lines 538-702) *)

(** The guard shared by every adjudication function:
    [if (!roomCode || !isHost || !roomData?.winnerInfo) return;]
    It yields the snapshot and its winner when the function goes on. *)
Definition adjudicationTarget (c : Ctx) : option (RoomData * WinnerInfo.t) :=
  if negb (truthyS (roomCode c)) || negb (isHost c) then None
  else
    match roomData c with
    | Some r =>
        match winnerInfo r with
        | Some w => Some (r, w)
        | None => None
        end
    | None => None
    end.

(** [currentGameMode?.settings?.pointsCorrect]. *)
Definition modePointsCorrect (c : Ctx) : option Z :=
  match currentGameMode c with
  | Some m => pointsCorrect (GameMode.settings m)
  | None => None
  end.

Definition modePointsWrong (c : Ctx) : option Z :=
  match currentGameMode c with
  | Some m => pointsWrong (GameMode.settings m)
  | None => None
  end.

(** The object literal of lines 555-561 (and 629-635, with [superPoints]). *)
Definition correctFields (p : Player.t) (award now : Z) : list PlayerField :=
  let currentScore := orZ (Player.points p) 0 in
  let currentStreak := orZ (Player.currentStreak p) 0 + 1 in
  let bestStreak := Z.max currentStreak (orZ (Player.bestStreak p) 0) in
  [ PPoints (currentScore + award);
    PCurrentStreak currentStreak;
    PBestStreak bestStreak;
    PCorrectAnswers (orZ (Player.correctAnswers p) 0 + 1);
    PLastAnswerTime now ].

(** The object literal of lines 592-597. *)
Definition wrongFields (p : Player.t) (penaltyPoints now : Z) : list PlayerField :=
  let currentScore := orZ (Player.points p) 0 in
  let newScore := Z.max 0 (currentScore - penaltyPoints) in
  [ PPoints newScore;
    PCurrentStreak 0;
    PWrongAnswers (orZ (Player.wrongAnswers p) 0 + 1);
    PLastAnswerTime now ].

Definition awardCorrectAnswer (c : Ctx) (now : Z) : list Effect :=
  match adjudicationTarget c with
  | Some (r, w) =>
      let pid := WinnerInfo.playerId w in
      match playersGet pid (players r) with
      | Some currentPlayer =>
          let basePoints := orZ (modePointsCorrect c) 10 in
          Store (UpdPlayer pid (correctFields currentPlayer basePoints now))
          :: Call RejectPlayerAnswer
          :: disableBuzz c now
      | None => []
      end
  | None => []
  end.

Definition awardWrongAnswer (c : Ctx) (now : Z) : list Effect :=
  match adjudicationTarget c with
  | Some (r, w) =>
      let pid := WinnerInfo.playerId w in
      match playersGet pid (players r) with
      | Some currentPlayer =>
          let penaltyPoints := orZ (modePointsWrong c) 5 in
          Store (UpdPlayer pid (wrongFields currentPlayer penaltyPoints now))
          :: Call RejectPlayerAnswer
          :: disableBuzz c now
      | None => []
      end
  | None => []
  end.

Definition awardSuperAnswer (c : Ctx) (now : Z) : list Effect :=
  match adjudicationTarget c with
  | Some (r, w) =>
      let pid := WinnerInfo.playerId w in
      match playersGet pid (players r) with
      | Some currentPlayer =>
          let superPoints := 20 in
          Store (UpdPlayer pid (correctFields currentPlayer superPoints now))
          :: Call RejectPlayerAnswer
          :: disableBuzz c now
      | None => []
      end
  | None => []
  end.

(** [awardPoints(amount = 10)]: the legacy path through [assignPoints]. *)
Definition awardPoints (c : Ctx) (amount : option Z) (now : Z) : list Effect :=
  match adjudicationTarget c with
  | Some (r, w) =>
      Call (AssignPoints (WinnerInfo.playerId w) (default 10 amount)) :: disableBuzz c now
  | None => []
  end.

Definition subtractPlayerPoints (c : Ctx) (amount : option Z) (now : Z) : list Effect :=
  match adjudicationTarget c with
  | Some (r, w) =>
      Call (SubtractPoints (WinnerInfo.playerId w) (default 5 amount)) :: disableBuzz c now
  | None => []
  end.

Definition rejectAnswer (c : Ctx) (now : Z) : list Effect :=
  match adjudicationTarget c with
  | Some _ => Call RejectPlayerAnswer :: disableBuzz c now
  | None => []
  end.

(** ** setGameMode (lines 745-787) *)

(** [roomData?.players[id]?.name || 'Unknown']. *)
Definition nameOrUnknown (ps : list (string * Player.t)) (id : string) : string :=
  match lookupPlayer id ps with
  | Some p => if String.eqb (Player.name p) EmptyString then "Unknown" else Player.name p
  | None => "Unknown"
  end.

(** [Object.keys(roomData?.players || {})]. *)
Definition playerIdsOf (c : Ctx) : list string :=
  match roomData c with
  | Some r => map fst (players r)
  | None => []
  end.

Definition playersOf (c : Ctx) : list (string * Player.t) :=
  match roomData c with
  | Some r => players r
  | None => []
  end.

(** Lines 760-777.  [playerIds[0]] is [undefined] on an empty room; the
    database client refuses an [undefined] value, so the whole [update]
    throws and the [catch] block only reports it: [None]. *)
Definition initialTurn (c : Ctx) (now : Z) : option Turn.t :=
  let playerIds := playerIdsOf c in
  let turnOrder := map (fun id => (id, nameOrUnknown (playersOf c) id)) playerIds in
  match playerIds with
  | first :: _ =>
      Some (Turn.mk first (nameOrUnknown (playersOf c) first) 1 (Some now) true
                    turnOrder (Some 1))
  | [] => None
  end.

Definition setGameMode (c : Ctx) (mode : GameMode.t) (now : Z) : list Effect :=
  if negb (truthyS (roomCode c)) || negb (truthyS (playerId c)) || negb (isHost c) then []
  else
    let teamPart :=
      if GameModeType_eqb (GameMode.type mode) teams then [ FCurrentTeamTurn "A" ] else [] in
    if GameModeType_eqb (GameMode.type mode) turnBased then
      match initialTurn c now with
      | Some t => [ Store (UpdRoom (FGameMode mode :: teamPart ++ [ FCurrentTurn t ])) ]
      | None => []
      end
    else [ Store (UpdRoom (FGameMode mode :: teamPart)) ].

(** ** startCountdown / stopCountdown (lines 1017-1088) *)

(** [for (let i = 3; i > 0; i--) { await update(...); await sleep(1000) }],
    with [t] the clock at the head of the iteration. *)
Fixpoint countdownLoop (i : nat) (t : Z) : list Effect :=
  match i with
  | O => []
  | S k =>
      Store (UpdCountdown [ CIsActive true; CValue (Z.of_nat i); CStartTime (Some t) ])
      :: Sleep 1000
      :: countdownLoop k (t + 1000)
  end.

Definition startCountdown (c : Ctx) (now : Z) : list Effect :=
  if negb (truthyS (roomCode c)) || negb (isHost c) then []
  else
    dispatchDisableBuzzForSong c now ++
    [ Store (UpdCountdown [ CIsActive true; CValue 3; CStartTime (Some now) ]) ] ++
    countdownLoop 3 now ++
    [ Store (UpdCountdown [ CIsActive false; CValue 0 ]) ] ++
    dispatchEnableBuzzForSong c (now + 3000).

(** [stopCountdown] issues one write.  What the host's audio player, which
    listens to the countdown node, makes of that write is [hear] below. *)
Definition stopCountdown (c : Ctx) : list Effect :=
  if negb (truthyS (roomCode c)) || negb (isHost c) then []
  else [ Store (UpdCountdown [ CIsActive false; CValue 0; CStartTime None ]) ].

(** ** The files of the audio player (AudioPlayer, lines 542-543) *)

(** Lower case of an ASCII letter (the [i] flag of the filter). *)
Definition lowerAscii (a : ascii) : ascii :=
  if (65 <=? N_of_ascii a)%N && (N_of_ascii a <=? 90)%N
  then ascii_of_N (N_of_ascii a + 32) else a.

(** The last four characters of a name, in lower case. *)
Definition extensionOf (fileName : string) : list ascii :=
  let l := String.list_ascii_of_string fileName in
  map lowerAscii (drop (length l - 4) l).

(** [/\.(mp3|wav|ogg)$/i.test(file.name)]: the files a column of the
    player holds, hence the names [play] can write as current song. *)
Definition hasAudioExtension (fileName : string) : bool :=
  existsb (fun e => bool_decide (extensionOf fileName = String.list_ascii_of_string e))
    [ ".mp3"; ".wav"; ".ogg" ].

(** ** The [play] listener of the audio player (AudioPlayer, lines 218-304) *)

Inductive Column := left | right.

(** [playersList.filter(p => !p.isHost)]. *)
Definition nonHostPlayers (c : Ctx) : list (string * Player.t) :=
  List.filter (fun e => negb (Player.isHost (snd e))) (playersOf c).

(** [roomData?.currentTurn?.turnNumber || 0]. *)
Definition turnNumberOf (c : Ctx) : Z :=
  match roomData c with
  | Some r =>
      match currentTurn r with
      | Some t => Turn.turnNumber t
      | None => 0
      end
  | None => 0
  end.

(** Lines 244-285: the rotation step taken when a song starts under the
    turn-based mode.  The advantage timer is the literal [15000]. *)
Definition advanceTurn (c : Ctx) (now : Z) : list Effect :=
  if truthyS (roomCode c) then
    let nonHost := nonHostPlayers c in
    if 0 <? Z.of_nat (length nonHost) then
      let currentTurnNumber := Z.rem (turnNumberOf c) (Z.of_nat (length nonHost)) in
      if currentTurnNumber <? 0 then []
      else
        match nonHost !! Z.to_nat currentTurnNumber with
        | Some (id, p) =>
            Store (UpdTurn [ TPlayerId id; TPlayerName (Player.name p);
                             TTurnNumber (currentTurnNumber + 1);
                             TStartTime (Some now); TAdvantagePhase true ])
            :: dispatchEnableBuzzForSong c now
            ++ [ After 15000 [ UpdTurn [ TAdvantagePhase false ] ] ]
        | None => []
        end
    else []
  else [].

Definition onPlay (c : Ctx) (column : Column) (fileName : string) (now : Z) : list Effect :=
  Emit "mainPlayerPlay" ::
  (if truthyS (roomCode c) && match column with left => true | right => false end
   then [ Store (UpdRoom [ FCurrentSong fileName ]) ] else []) ++
  match column with
  | right => dispatchDisableBuzzForSong c now
  | left =>
      match currentGameMode c with
      | Some m =>
          if GameModeType_eqb (GameMode.type m) turnBased &&
             truthyB (turnBasedEnabled (GameMode.settings m)) then
            dispatchDisableBuzzForSong c now ++ advanceTurn c now
          else if GameModeType_eqb (GameMode.type m) easy &&
                  negb (orZ (buzzDelaySeconds (GameMode.settings m)) 0 =? 0) then
            let delay := orZ (buzzDelaySeconds (GameMode.settings m)) 0 * 1000 in
            dispatchDisableBuzzForSong c now ++
            [ After delay (onEnableBuzzForSong c (now + delay)) ]
          else dispatchEnableBuzzForSong c now
      | None => dispatchEnableBuzzForSong c now
      end
  end.

(** ** The shared room record under the effects *)

Definition applyRoomField (s : RoomData) (f : RoomField) : RoomData :=
  match f with
  | FWinnerInfo w =>
      mkRoom (Some w) (players s) (gameMode s) (currentSong s) (buzzEnabled s)
             (songAttempts s) (currentTurn s) (countdown s) (lastBuzzActivity s)
             (backgroundMusicControl s) (currentTeamTurn s)
  | FBuzzEnabled b =>
      mkRoom (winnerInfo s) (players s) (gameMode s) (currentSong s) (Some b)
             (songAttempts s) (currentTurn s) (countdown s) (lastBuzzActivity s)
             (backgroundMusicControl s) (currentTeamTurn s)
  | FSongAttempts m =>
      mkRoom (winnerInfo s) (players s) (gameMode s) (currentSong s) (buzzEnabled s)
             m (currentTurn s) (countdown s) (lastBuzzActivity s)
             (backgroundMusicControl s) (currentTeamTurn s)
  | FLastBuzzActivity t =>
      mkRoom (winnerInfo s) (players s) (gameMode s) (currentSong s) (buzzEnabled s)
             (songAttempts s) (currentTurn s) (countdown s) (Some t)
             (backgroundMusicControl s) (currentTeamTurn s)
  | FGameMode m =>
      mkRoom (winnerInfo s) (players s) (Some m) (currentSong s) (buzzEnabled s)
             (songAttempts s) (currentTurn s) (countdown s) (lastBuzzActivity s)
             (backgroundMusicControl s) (currentTeamTurn s)
  | FCurrentTeamTurn a =>
      mkRoom (winnerInfo s) (players s) (gameMode s) (currentSong s) (buzzEnabled s)
             (songAttempts s) (currentTurn s) (countdown s) (lastBuzzActivity s)
             (backgroundMusicControl s) (Some a)
  | FCurrentTurn t =>
      mkRoom (winnerInfo s) (players s) (gameMode s) (currentSong s) (buzzEnabled s)
             (songAttempts s) (Some t) (countdown s) (lastBuzzActivity s)
             (backgroundMusicControl s) (currentTeamTurn s)
  | FCurrentSong n =>
      mkRoom (winnerInfo s) (players s) (gameMode s) (Some n) (buzzEnabled s)
             (songAttempts s) (currentTurn s) (countdown s) (lastBuzzActivity s)
             (backgroundMusicControl s) (currentTeamTurn s)
  end.

Definition applyPlayerField (p : Player.t) (f : PlayerField) : Player.t :=
  match f with
  | PPoints z =>
      Player.mk (Player.name p) (Player.isHost p) (Player.joinedAt p) (Some z)
                (Player.currentStreak p) (Player.bestStreak p) (Player.correctAnswers p)
                (Player.wrongAnswers p) (Player.lastAnswerTime p)
  | PCurrentStreak z =>
      Player.mk (Player.name p) (Player.isHost p) (Player.joinedAt p) (Player.points p)
                (Some z) (Player.bestStreak p) (Player.correctAnswers p)
                (Player.wrongAnswers p) (Player.lastAnswerTime p)
  | PBestStreak z =>
      Player.mk (Player.name p) (Player.isHost p) (Player.joinedAt p) (Player.points p)
                (Player.currentStreak p) (Some z) (Player.correctAnswers p)
                (Player.wrongAnswers p) (Player.lastAnswerTime p)
  | PCorrectAnswers z =>
      Player.mk (Player.name p) (Player.isHost p) (Player.joinedAt p) (Player.points p)
                (Player.currentStreak p) (Player.bestStreak p) (Some z)
                (Player.wrongAnswers p) (Player.lastAnswerTime p)
  | PWrongAnswers z =>
      Player.mk (Player.name p) (Player.isHost p) (Player.joinedAt p) (Player.points p)
                (Player.currentStreak p) (Player.bestStreak p) (Player.correctAnswers p)
                (Some z) (Player.lastAnswerTime p)
  | PLastAnswerTime z =>
      Player.mk (Player.name p) (Player.isHost p) (Player.joinedAt p) (Player.points p)
                (Player.currentStreak p) (Player.bestStreak p) (Player.correctAnswers p)
                (Player.wrongAnswers p) (Some z)
  end.

Definition applyCountdownField (k : Countdown.t) (f : CountdownField) : Countdown.t :=
  match f with
  | CIsActive b => Countdown.mk (Some b) (Countdown.value k) (Countdown.startTime k)
  | CValue z => Countdown.mk (Countdown.isActive k) (Some z) (Countdown.startTime k)
  | CStartTime t => Countdown.mk (Countdown.isActive k) (Countdown.value k) t
  end.

Definition applyTurnField (t : Turn.t) (f : TurnField) : Turn.t :=
  match f with
  | TPlayerId s =>
      Turn.mk s (Turn.playerName t) (Turn.turnNumber t) (Turn.startTime t)
              (Turn.advantagePhase t) (Turn.turnOrder t) (Turn.nextPlayerIndex t)
  | TPlayerName s =>
      Turn.mk (Turn.playerId t) s (Turn.turnNumber t) (Turn.startTime t)
              (Turn.advantagePhase t) (Turn.turnOrder t) (Turn.nextPlayerIndex t)
  | TTurnNumber z =>
      Turn.mk (Turn.playerId t) (Turn.playerName t) z (Turn.startTime t)
              (Turn.advantagePhase t) (Turn.turnOrder t) (Turn.nextPlayerIndex t)
  | TStartTime x =>
      Turn.mk (Turn.playerId t) (Turn.playerName t) (Turn.turnNumber t) x
              (Turn.advantagePhase t) (Turn.turnOrder t) (Turn.nextPlayerIndex t)
  | TAdvantagePhase b =>
      Turn.mk (Turn.playerId t) (Turn.playerName t) (Turn.turnNumber t) (Turn.startTime t)
              b (Turn.turnOrder t) (Turn.nextPlayerIndex t)
  end.

(** [update] on [rooms/{code}/players/{pid}]: the fields are merged into
    the node of that key; on a key the room does not hold, the write
    creates the node with the written fields only. *)
Fixpoint updatePlayer (pid : string) (fs : list PlayerField)
    (ps : list (string * Player.t)) : list (string * Player.t) :=
  match ps with
  | [] => [ (pid, fold_left applyPlayerField fs blankPlayer) ]
  | (k, p) :: rest =>
      if String.eqb k pid then (k, fold_left applyPlayerField fs p) :: rest
      else (k, p) :: updatePlayer pid fs rest
  end.

Definition withPlayers (s : RoomData) (ps : list (string * Player.t)) : RoomData :=
  mkRoom (winnerInfo s) ps (gameMode s) (currentSong s) (buzzEnabled s)
         (songAttempts s) (currentTurn s) (countdown s) (lastBuzzActivity s)
         (backgroundMusicControl s) (currentTeamTurn s).

Definition withCountdown (s : RoomData) (k : Countdown.t) : RoomData :=
  mkRoom (winnerInfo s) (players s) (gameMode s) (currentSong s) (buzzEnabled s)
         (songAttempts s) (currentTurn s) (Some k) (lastBuzzActivity s)
         (backgroundMusicControl s) (currentTeamTurn s).

Definition withBackgroundMusic (s : RoomData) (a : string) (ts : Z) : RoomData :=
  mkRoom (winnerInfo s) (players s) (gameMode s) (currentSong s) (buzzEnabled s)
         (songAttempts s) (currentTurn s) (countdown s) (lastBuzzActivity s)
         (Some (a, ts)) (currentTeamTurn s).

(** The database's [update]: a merge of the written keys at the path. *)
Definition applyWrite (w : Write) (s : RoomData) : RoomData :=
  match w with
  | UpdRoom fs => fold_left applyRoomField fs s
  | UpdPlayer pid fs => withPlayers s (updatePlayer pid fs (players s))
  | UpdCountdown fs =>
      withCountdown s (fold_left applyCountdownField fs (default Countdown.empty (countdown s)))
  | UpdTurn fs =>
      applyRoomField s
        (FCurrentTurn (fold_left applyTurnField fs (default Turn.empty (currentTurn s))))
  | UpdBackgroundMusic a ts => withBackgroundMusic s a ts
  end.

(** What the effects of one call do to the room by the time the call
    returns.  Every write a call issues is applied.  [services] stands for
    the functions of [services/firebase]; timers ([After]) fire later and
    are accounted for by [roomAt] below; listeners of other components are
    accounted for by [hear]. *)
Section Interpreter.

Variable services : ServiceCall -> RoomData -> RoomData.

Definition step (s : RoomData) (e : Effect) : RoomData :=
  match e with
  | Store w => applyWrite w s
  | Call k => services k s
  | Sleep _ | After _ _ | Emit _ => s
  end.

Definition run (es : list Effect) (s : RoomData) : RoomData :=
  fold_left step es s.

End Interpreter.

(** ** Wall-clock view of one call *)

(** When each effect of a call takes place, in milliseconds from the
    start of the call: [Sleep] moves the clock, [After] posts its writes
    at a later instant, a write itself takes no time. *)
Fixpoint schedule (t : Z) (es : list Effect) : list (Z * Effect) :=
  match es with
  | [] => []
  | Sleep ms :: rest => schedule (t + ms) rest
  | After ms ws :: rest => map (fun w => (t + ms, Store w)) ws ++ schedule t rest
  | e :: rest => (t, e) :: schedule t rest
  end.

Fixpoint insertTimed (x : Z * Effect) (l : list (Z * Effect)) : list (Z * Effect) :=
  match l with
  | [] => [ x ]
  | y :: rest => if fst x <=? fst y then x :: y :: rest else y :: insertTimed x rest
  end.

(** The effects in the order in which they happen (a stable sort of
    [schedule] by time). *)
Definition timeline (es : list Effect) : list (Z * Effect) :=
  fold_right insertTimed [] (schedule 0 es).

(** The room [t] milliseconds after the call started. *)
Definition roomAt (services : ServiceCall -> RoomData -> RoomData)
    (t : Z) (es : list Effect) (s : RoomData) : RoomData :=
  run services (map snd (List.filter (fun x => fst x <=? t) (timeline es))) s.

(** What one [update] of the countdown node says, read off the written
    object alone. *)
Definition countdownWritten (fs : list CountdownField) : Countdown.t :=
  fold_left applyCountdownField fs Countdown.empty.

(** The countdown writes of a call: instant, [isActive], [value]. *)
Definition countdownTicks (es : list Effect) : list (Z * option bool * option Z) :=
  omap (fun x =>
          match snd x with
          | Store (UpdCountdown fs) =>
              Some (fst x, Countdown.isActive (countdownWritten fs),
                    Countdown.value (countdownWritten fs))
          | _ => None
          end) (timeline es).

(** What a reader of the room sees of the countdown: [isActive], [value]. *)
Definition countdownSeen (s : RoomData) : option bool * option Z :=
  match countdown s with
  | Some k => (Countdown.isActive k, Countdown.value k)
  | None => (None, None)
  end.

(** The values the countdown writes of a call carry, in order. *)
Definition countdownValues (es : list Effect) : list (option Z) :=
  map snd (countdownTicks es).

(** ** Observations on a call *)

Definition isWinnerField (f : RoomField) : bool :=
  match f with
  | FWinnerInfo _ => true
  | _ => false
  end.

Definition isWinnerWrite (e : Effect) : bool :=
  match e with
  | Store (UpdRoom fs) => existsb isWinnerField fs
  | _ => false
  end.

(** A call of [handleBuzz] is accepted when it gets as far as the winner
    update. *)
Definition accepted (es : list Effect) : bool := existsb isWinnerWrite es.

(** The expert-mode refusal of lines 461-469. *)
Definition expertDenies (c : Ctx) (r : RoomData) (buzzPlayerId : string) : bool :=
  match expertSong c r with
  | Some song => includes buzzPlayerId (default [] (songAttempts r !! song))
  | None => false
  end.

Definition countdownActive (s : RoomData) : bool :=
  match countdown s with
  | Some k => truthyB (Countdown.isActive k)
  | None => false
  end.

(** A call that writes nothing and leaves every room as it is. *)
Definition silent (es : list Effect) : Prop :=
  es = [] /\ forall services s, run services es s = s.

(** ** The predefined modes (lines 218-279) *)

Definition classicMode : GameMode.t :=
  GameMode.mk classic "Classica"
    (mkSettings None None None (Some 10) (Some 5) None None None None).

Definition easyMode : GameMode.t :=
  GameMode.mk easy "Facile"
    (mkSettings None None None (Some 10) (Some 5) (Some 10) None None None).

Definition expertMode : GameMode.t :=
  GameMode.mk expert "Esperto"
    (mkSettings None None None (Some 10) (Some 5) None (Some true) None None).

Definition speedMode : GameMode.t :=
  GameMode.mk speed "Velocità"
    (mkSettings (Some 20) None None (Some 15) (Some 5) None None None None).

Definition turnBasedMode : GameMode.t :=
  GameMode.mk turnBased "A Turni"
    (mkSettings None None None (Some 10) (Some 5) None None (Some true) (Some 10)).

Definition teamsMode : GameMode.t :=
  GameMode.mk teams "Squadre"
    (mkSettings None None (Some true) (Some 12) (Some 4) None None None None).

Definition gameModes : list GameMode.t :=
  [ classicMode; easyMode; expertMode; speedMode; turnBasedMode; teamsMode ].

(** ** Several participants buzzing on one room *)

(** The context of a participant's client: its identity and the snapshot
    of the room its [handleBuzz] closure holds. *)
Definition clientCtx (code : string) (mode : option GameMode.t) (snapshot : RoomData)
    (who : string * string) : Ctx :=
  mkCtx (Some code) (Some (fst who)) (Some (snd who)) (Some snapshot) mode.

(** The participants of [callers] call [handleBuzz] one after the other
    on the shared room; [view] says which snapshot a caller's closure
    holds when the room is [store].  The result lists, per caller,
    whether the call got to the winner update, and the final room. *)
Fixpoint buzzRun (view : RoomData -> RoomData) (code : string) (mode : option GameMode.t)
    (callers : list (string * string)) (now : Z) (store : RoomData) : list bool * RoomData :=
  match callers with
  | [] => ([], store)
  | who :: rest =>
      let es := handleBuzz (clientCtx code mode (view store) who) None None now in
      let res := buzzRun view code mode rest now (run (fun _ s => s) es store) in
      (accepted es :: fst res, snd res)
  end.

(** Calls that overlap: none of the callers has received the others'
    writes yet, every closure still holds the room as it was. *)
Definition concurrentBuzz (code : string) (mode : option GameMode.t)
    (callers : list (string * string)) (now : Z) (s0 : RoomData) : list bool * RoomData :=
  buzzRun (fun _ => s0) code mode callers now s0.

(** Calls that do not overlap: every caller has received the writes of
    the calls before its own. *)
Definition serialBuzz (code : string) (mode : option GameMode.t)
    (callers : list (string * string)) (now : Z) (s0 : RoomData) : list bool * RoomData :=
  buzzRun (fun s => s) code mode callers now s0.

Definition validCaller (who : string * string) : bool :=
  truthyS (Some (fst who)) && truthyS (Some (snd who)).

(** A mode under which [handleBuzz] runs neither the turn-based nor the
    expert block. *)
Definition plainMode (mode : option GameMode.t) : bool :=
  match mode with
  | Some m =>
      match GameMode.type m with
      | turnBased | expert => false
      | _ => true
      end
  | None => true
  end.

(** ** A room to run the scenarios on *)

Module Scenario.

Definition host : Player.t := Player.mk "Host" true 0 None None None None None None.
Definition guest (n : string) (joined : Z) : Player.t :=
  Player.mk n false joined None None None None None None.

Definition roster : list (string * Player.t) :=
  [ ("h", host); ("a", guest "A" 1); ("b", guest "B" 2); ("c", guest "C" 3) ].

(** A room right after creation and three joins. *)
Definition lobby : RoomData :=
  mkRoom None roster None None None ∅ None None None None None.

(** The same room with the buzz open. *)
Definition openRoom (mode : GameMode.t) : RoomData :=
  mkRoom None roster (Some mode) None (Some true) ∅ None None None None None.

Definition hostCtx (mode : option GameMode.t) (snapshot : RoomData) : Ctx :=
  mkCtx (Some "ROOM") (Some "h") (Some "Host") (Some snapshot) mode.

Definition guestCtx (id name : string) (mode : option GameMode.t) (snapshot : RoomData) : Ctx :=
  mkCtx (Some "ROOM") (Some id) (Some name) (Some snapshot) mode.

(** Modelled from the spec: [rejectPlayerAnswer] and [resetBuzz] are
    functions of [services/firebase], which is not among the sources.
    Section 4.5 says of the rejection that it "clears WinnerRecord and
    expert-mode attempt restriction state without altering points", and of
    the reset that it is what "re-arms signalEnabled"; section 3 that the
    winner record "is cleared only by an explicit adjudication or reset".
    So [rejectPlayerAnswer] clears [winnerInfo] and [songAttempts], and
    [resetBuzz] clears [winnerInfo] and sets [buzzEnabled].  The spec says
    nothing of what [updateBuzzActivity], [assignPoints] and
    [subtractPoints] write; they are left without effect here, and every
    statement below that meets a service call holds for all behaviours of
    the services. *)
Definition services (k : ServiceCall) (s : RoomData) : RoomData :=
  match k with
  | RejectPlayerAnswer =>
      mkRoom None (players s) (gameMode s) (currentSong s) (buzzEnabled s)
             ∅ (currentTurn s) (countdown s) (lastBuzzActivity s)
             (backgroundMusicControl s) (currentTeamTurn s)
  | ResetBuzz =>
      mkRoom None (players s) (gameMode s) (currentSong s) (Some true)
             (songAttempts s) (currentTurn s) (countdown s) (lastBuzzActivity s)
             (backgroundMusicControl s) (currentTeamTurn s)
  | UpdateBuzzActivity | AssignPoints _ _ | SubtractPoints _ _ => s
  end.

(** Turn-based mode, guest A holds the turn and its advantage phase is
    running, the buzz is open and nobody has won. *)
Definition advantageRoom : RoomData :=
  mkRoom None roster (Some turnBasedMode) None (Some true) ∅
         (Some (Turn.mk "a" "A" 1 (Some 0) true [] None)) None None None None.

(** Two rounds on a classic room: guest A buzzes and is judged correct,
    the host reopens the buzz, A buzzes again and is judged wrong. *)
Definition wonRoom : RoomData :=
  run services (handleBuzz (guestCtx "a" "A" (Some classicMode) (openRoom classicMode))
                  None None 5) (openRoom classicMode).

Definition afterCorrect : RoomData :=
  run services (awardCorrectAnswer (hostCtx (Some classicMode) wonRoom) 9) wonRoom.

(** The classic room after a buzz made, from the host's client, for an id
    no player of the room has. *)
Definition ghostWon : RoomData :=
  run services (handleBuzz (hostCtx (Some classicMode) (openRoom classicMode))
                  (Some "ghost") (Some "Ghost") 5) (openRoom classicMode).

Definition reopened : RoomData :=
  run services (enableBuzz (hostCtx (Some classicMode) afterCorrect) 10) afterCorrect.

Definition wonAgain : RoomData :=
  run services (handleBuzz (guestCtx "a" "A" (Some classicMode) reopened) None None 12)
      reopened.

Definition afterWrong : RoomData :=
  run services (awardWrongAnswer (hostCtx (Some classicMode) wonAgain) 15) wonAgain.

(** The host picks the turn-based mode in the lobby, then starts three
    songs on the left player, one per turn. *)
Definition turnRoom : RoomData :=
  run services (setGameMode (hostCtx None lobby) turnBasedMode 7) lobby.

Definition firstSong : list Effect :=
  onPlay (hostCtx (Some turnBasedMode) turnRoom) left "one.mp3" 1000.

Definition turn1 : RoomData := run services firstSong turnRoom.

Definition turn2 : RoomData :=
  run services (onPlay (hostCtx (Some turnBasedMode) turn1) left "two.mp3" 60000) turn1.

Definition turn3 : RoomData :=
  run services (onPlay (hostCtx (Some turnBasedMode) turn2) left "three.mp3" 120000) turn2.

(** The room [ms] milliseconds after the first song started. *)
Definition duringFirstSong (ms : Z) : RoomData :=
  roomAt services ms firstSong turnRoom.

(** An expert room whose current song goes by the name "one", a name
    the database takes as a key: guest A buzzes and wins; the host then
    reopens the buzz while A's answer is still awaiting judgement. *)
Definition expertOpen : RoomData :=
  mkRoom None roster (Some expertMode) (Some "one") (Some true) ∅
         None None None None None.

Definition expertWon : RoomData :=
  run services (handleBuzz (guestCtx "a" "A" (Some expertMode) expertOpen) None None 5)
      expertOpen.

Definition expertReopened : RoomData :=
  run services (enableBuzz (hostCtx (Some expertMode) expertWon) 6) expertWon.

(** An expert room as the audio player leaves it: the host has started
    the file "one.mp3" on the left player. *)
Definition expertFile : RoomData :=
  run services (onPlay (hostCtx (Some expertMode) (openRoom expertMode)) left "one.mp3" 50)
      (openRoom expertMode).

(** A classic room in the middle of a countdown (the tick of value 2 has
    been written), and the same room after the host called [enableBuzz]. *)
Definition midCountdown : RoomData :=
  run services
      (take 6 (startCountdown (hostCtx (Some classicMode) (openRoom classicMode)) 100))
      (openRoom classicMode).

Definition midCountdownReopened : RoomData :=
  run services (enableBuzz (hostCtx (Some classicMode) midCountdown) 1500) midCountdown.

(** The expert room of above, later: the next song, "two", plays, the
    buzz is open again and A's attempt on "one" is still on record. *)
Definition expertNextSong : RoomData :=
  mkRoom None roster (Some expertMode) (Some "two") (Some true)
         (songAttempts expertWon) None None None None None.

(** The expert room after A's buzz on "one", with an attempt of guest B
    on an earlier song still on record. *)
Definition expertHistory : RoomData :=
  mkRoom (winnerInfo expertWon) roster (Some expertMode) (Some "one")
         (buzzEnabled expertWon) (<["zero" := [ "b" ]]> (songAttempts expertWon))
         None None None None None.

End Scenario.

(** ** startNewTurn / nextTurn (lines 1105-1179) *)

(** The turn update sits between the two window events; the local
    [setRoomData] is not an effect on the room. *)
Definition startNewTurn (c : Ctx) (now : Z) : list Effect :=
  if negb (truthyS (roomCode c)) || negb (isHost c) then []
  else
    dispatchDisableBuzzForSong c now ++
    [ Store (UpdTurn [ TPlayerId EmptyString; TPlayerName EmptyString;
                       TTurnNumber (turnNumberOf c + 1);
                       TStartTime (Some now); TAdvantagePhase false ]) ] ++
    dispatchEnableBuzzForSong c now.

(** [nextTurn] sets [advantagePhase: true] in the local copy of the room
    only; what reaches the database is what the two listeners write. *)
Definition nextTurn (c : Ctx) (now : Z) : list Effect :=
  if negb (truthyS (roomCode c)) || negb (isHost c) then []
  else dispatchDisableBuzzForSong c now ++ dispatchEnableBuzzForSong c now.

(** ** The turn display (TurnDisplay, lines 18-21) *)

(** [roomData?.currentTurn?.turnOrder || []]. *)
Definition turnOrderOf (s : RoomData) : list (string * string) :=
  match currentTurn s with
  | Some t => Turn.turnOrder t
  | None => []
  end.

(** [roomData?.currentTurn?.nextPlayerIndex || 0]. *)
Definition nextPlayerIndexOf (s : RoomData) : Z :=
  match currentTurn s with
  | Some t => orZ (Turn.nextPlayerIndex t) 0
  | None => 0
  end.

(** [turnOrder.length > 0 ? turnOrder[nextPlayerIndex] : null]. *)
Definition nextTurnPlayer (s : RoomData) : option (string * string) :=
  if 0 <? Z.of_nat (length (turnOrderOf s)) then
    if nextPlayerIndexOf s <? 0 then None
    else turnOrderOf s !! Z.to_nat (nextPlayerIndexOf s)
  else None.

(** ** The buzz button (BuzzButton, lines 43-79 and 241-247) *)

(** The component's own state: the [disabled] prop and [isBuzzing]. *)
Record ButtonState := mkButton {
  disabledProp : bool;
  isBuzzing : bool
}.

(** [isBuzzEnabled: !!roomData?.buzzEnabled] (RoomContext, line 1239). *)
Definition isBuzzEnabled (c : Ctx) : bool :=
  match roomData c with
  | Some r => truthyB (buzzEnabled r)
  | None => false
  end.

(** [winnerName = roomData?.winnerInfo?.playerName || null]; the button
    is rendered when it is null. *)
Definition winnerName (c : Ctx) : option string :=
  match roomData c with
  | Some r =>
      match winnerInfo r with
      | Some w => if truthyS (Some (WinnerInfo.playerName w))
                  then Some (WinnerInfo.playerName w) else None
      | None => None
      end
  | None => None
  end.

(** Lines 47-51. *)
Definition hasAlreadyAttempted (c : Ctx) : bool :=
  match currentGameMode c, roomData c, playerId c with
  | Some m, Some r, Some pid =>
      GameModeType_eqb (GameMode.type m) expert &&
      truthyB (oneAttemptPerSong (GameMode.settings m)) &&
      truthyS (currentSong r) &&
      truthyS (Some pid) &&
      match currentSong r with
      | Some song => includes pid (default [] (songAttempts r !! song))
      | None => false
      end
  | _, _, _ => false
  end.

(** [isCurrentPlayerTurn] (RoomContext, lines 1189-1192). *)
Definition isCurrentPlayerTurn (c : Ctx) : bool :=
  match roomData c with
  | Some r =>
      match currentTurn r, playerId c with
      | Some t, Some pid => String.eqb (Turn.playerId t) pid
      | _, _ => false
      end
  | None => false
  end.

(** [turnAdvantageTimeLeft] (RoomContext, lines 1194-1203), in seconds,
    as an exact fraction of the millisecond clock. *)
Definition turnAdvantageTimeLeft (c : Ctx) (now : Z) : Q :=
  match roomData c with
  | Some r =>
      match currentTurn r, currentGameMode c with
      | Some t, Some m =>
          let advantageSeconds := orZ (turnAdvantageSeconds (GameMode.settings m)) 0 in
          if advantageSeconds =? 0 then 0%Q
          else
            let turnStartTime := orZ (Turn.startTime t) 0 in
            let turnDuration := Qdiv (inject_Z (now - turnStartTime)) (inject_Z 1000) in
            let remainingTime := Qminus (inject_Z advantageSeconds) turnDuration in
            Qmax 0%Q remainingTime
      | _, _ => 0%Q
      end
  | None => 0%Q
  end.

(** Lines 57-59: [advantageTimeLeft > 0] is read at render time. *)
Definition isAdvantagePhase (c : Ctx) (now : Z) : bool :=
  match currentGameMode c, roomData c with
  | Some m, Some r =>
      GameModeType_eqb (GameMode.type m) turnBased &&
      match currentTurn r with
      | Some t => Turn.advantagePhase t
      | None => false
      end &&
      negb (Qle_bool (turnAdvantageTimeLeft c now) 0%Q)
  | _, _ => false
  end.

(** [currentGameMode?.type === 'turnBased']. *)
Definition isTurnBased (c : Ctx) : bool :=
  match currentGameMode c with
  | Some m => GameModeType_eqb (GameMode.type m) turnBased
  | None => false
  end.

(** The [disabled] attribute of the button (lines 243-247). *)
Definition buttonDisabled (b : ButtonState) (c : Ctx) (now : Z) : bool :=
  disabledProp b || isBuzzing b ||
  (negb (isBuzzEnabled c) && negb (isTurnBased c)) ||
  hasAlreadyAttempted c ||
  (isTurnBased c && isAdvantagePhase c now && negb (isCurrentPlayerTurn c)).

(** [onBuzz] (lines 61-79): the guard, then [handleBuzz()] without
    arguments. *)
Definition onBuzz (b : ButtonState) (c : Ctx) (now : Z) : list Effect :=
  if disabledProp b || isBuzzing b || negb (isBuzzEnabled c) || hasAlreadyAttempted c
  then []
  else handleBuzz c None None now.

(** ** Several calls on one clock *)

(** The effects of calls started at different instants, in the order in
    which they happen. *)
Definition timelineOf (calls : list (Z * list Effect)) : list (Z * Effect) :=
  fold_right insertTimed [] (flat_map (fun call => schedule (fst call) (snd call)) calls).

Definition roomAtOf (services : ServiceCall -> RoomData -> RoomData)
    (t : Z) (calls : list (Z * list Effect)) (s : RoomData) : RoomData :=
  run services (map snd (List.filter (fun x => fst x <=? t) (timelineOf calls))) s.

(** The host starts one song after the other on the left player; each
    [play] listener closes over the room as the start before left it. *)
Fixpoint songStarts (services : ServiceCall -> RoomData -> RoomData)
    (view : RoomData -> Ctx) (starts : list (string * Z)) (s : RoomData) : RoomData :=
  match starts with
  | [] => s
  | (file, now) :: rest =>
      songStarts services view rest (run services (onPlay (view s) left file now) s)
  end.

(** The context of one client on the room [s]. *)
Definition viewOf (code pid name : string) (mode : option GameMode.t)
    (s : RoomData) : Ctx :=
  mkCtx (Some code) (Some pid) (Some name) (Some s) mode.

(** An effect that cannot change the turn order or the next-player index
    of the room: anything but a room update carrying [currentTurn], or a
    service call. *)
Definition isCurrentTurnField (f : RoomField) : bool :=
  match f with
  | FCurrentTurn _ => true
  | _ => false
  end.

Definition keepsTurnOrder (e : Effect) : bool :=
  match e with
  | Store (UpdRoom fs) => negb (existsb isCurrentTurnField fs)
  | After _ ws =>
      forallb (fun w => match w with
                        | UpdRoom fs => negb (existsb isCurrentTurnField fs)
                        | _ => true
                        end) ws
  | Call _ => false
  | _ => true
  end.

(** ** The host's countdown listener (AudioPlayer, lines 161-176) *)

(** On the host's client the audio player listens to the countdown node
    and turns what it reads into the window events of the buzz: a node
    active at value 3 closes the buzz, a node inactive at value 0 opens
    it.  The events are handled as in [dispatchDisableBuzzForSong] and
    [dispatchEnableBuzzForSong]; [now] is the clock when the listener
    runs. *)
Definition onCountdownValue (c : Ctx) (countdownData : option Countdown.t) (now : Z)
    : list Write :=
  if truthyS (roomCode c) && isHost c then
    match countdownData with
    | Some k =>
        if truthyB (Countdown.isActive k) &&
           match Countdown.value k with Some v => v =? 3 | None => false end
        then onDisableBuzzForSong c now
        else if negb (truthyB (Countdown.isActive k)) &&
                match Countdown.value k with Some v => v =? 0 | None => false end
        then onEnableBuzzForSong c now
        else []
    | None => []
    end
  else [].

Definition sameFlag (a b : option bool) : bool :=
  match a, b with
  | Some x, Some y => Bool.eqb x y
  | None, None => true
  | _, _ => false
  end.

Definition sameNumber (a b : option Z) : bool :=
  match a, b with
  | Some x, Some y => x =? y
  | None, None => true
  | _, _ => false
  end.

(** The database calls a listener of a node when the value of the node
    changes, not on a write that leaves it as it is. *)
Definition countdownChanged (before after : option Countdown.t) : bool :=
  match before, after with
  | Some a, Some b =>
      negb (sameFlag (Countdown.isActive a) (Countdown.isActive b) &&
            sameNumber (Countdown.value a) (Countdown.value b) &&
            sameNumber (Countdown.startTime a) (Countdown.startTime b))
  | None, None => false
  | _, _ => true
  end.

(** One effect on a room the host's audio player listens to: the effect,
    then, when the countdown node changed, the writes of the listener. *)
Definition hear (services : ServiceCall -> RoomData -> RoomData) (c : Ctx) (now : Z)
    (s : RoomData) (e : Effect) : RoomData :=
  let s' := step services s e in
  if countdownChanged (countdown s) (countdown s')
  then fold_left (fun a w => applyWrite w a) (onCountdownValue c (countdown s') now) s'
  else s'.

(** The effects of one call, none of which waits, under the listener of
    the host [c]. *)
Definition runHeard (services : ServiceCall -> RoomData -> RoomData) (c : Ctx) (now : Z)
    (es : list Effect) (s : RoomData) : RoomData :=
  fold_left (hear services c now) es s.

(** The room [t] milliseconds after the clock showed [base], under the
    listener of the host [c]; the calls start at the given instants after
    [base]. *)
Definition roomAtHeard (services : ServiceCall -> RoomData -> RoomData) (c : Ctx)
    (base t : Z) (calls : list (Z * list Effect)) (s : RoomData) : RoomData :=
  fold_left (fun a x => hear services c (base + fst x) a (snd x))
            (List.filter (fun x => fst x <=? t) (timelineOf calls)) s.

(** * Properties *)

(** ** Basic facts about the interpreter and the guards *)

Lemma run_nil (services : ServiceCall -> RoomData -> RoomData) (s : RoomData) :
  run services [] s = s.
Proof. reflexivity. Qed.

Lemma plainMode_turnDenies (c : Ctx) (r : RoomData) (pid : string) :
  plainMode (currentGameMode c) = true -> turnDenies c r pid = false.
Proof.
  unfold plainMode, turnDenies.
  destruct (currentGameMode c) as [m|]; [|reflexivity].
  destruct (GameMode.type m); simpl; congruence.
Qed.

Lemma plainMode_expertSong (c : Ctx) (r : RoomData) :
  plainMode (currentGameMode c) = true -> expertSong c r = None.
Proof.
  unfold plainMode, expertSong.
  destruct (currentGameMode c) as [m|]; [|reflexivity].
  destruct (GameMode.type m); simpl; congruence.
Qed.

(** [obj[key]] finds the record the snapshot holds. *)
Lemma playersGet_own (pid : string) (ps : list (string * Player.t)) (p : Player.t) :
  lookupPlayer pid ps = Some p -> playersGet pid ps = Some p.
Proof. intros H. unfold playersGet. rewrite H. reflexivity. Qed.

(** Under a name no object inherits, the attempts read for a song are the
    list the map holds, or the empty list. *)
Lemma attemptedPlayersOf_plain (r : RoomData) (song : string) :
  inheritedKey song = false ->
  attemptedPlayersOf r song = Some (default [] (songAttempts r !! song)).
Proof.
  intros H. unfold attemptedPlayersOf. rewrite H.
  destruct (songAttempts r !! song); reflexivity.
Qed.

(** A participant the map lists for a song is found by the read. *)
Lemma attemptedPlayersOf_listed (r : RoomData) (song pid : string) :
  includes pid (default [] (songAttempts r !! song)) = true ->
  attemptedPlayersOf r song = Some (default [] (songAttempts r !! song)).
Proof.
  unfold attemptedPlayersOf.
  destruct (songAttempts r !! song); [reflexivity | discriminate].
Qed.

(** The shape of [handleBuzz] once the caller is identified: the four
    guards in program order, then the expert block and the writes. *)
Lemma handleBuzz_identified (c : Ctx) (r : RoomData) (pid pname : string)
    (inputPlayerId inputPlayerName : option string) (now : Z) :
  truthyS (roomCode c) = true ->
  roomData c = Some r ->
  orS inputPlayerId (playerId c) = Some pid ->
  orS inputPlayerName (playerName c) = Some pname ->
  truthyS (Some pid) = true ->
  truthyS (Some pname) = true ->
  handleBuzz c inputPlayerId inputPlayerName now =
    if negb (truthyB (buzzEnabled r)) then []
    else if truthyO (winnerInfo r) then []
    else if turnDenies c r pid then []
    else
      match expertSong c r with
      | Some song =>
          match attemptedPlayersOf r song with
          | Some attemptedPlayers =>
              if includes pid attemptedPlayers then []
              else if validKey song then
                Store (UpdRoom [ FSongAttempts
                                   (<[song := attemptedPlayers ++ [pid]]> (songAttempts r)) ])
                :: winnerWrites pid pname now
              else []
          | None => []
          end
      | None => winnerWrites pid pname now
      end.
Proof.
  intros Hcode Hroom Hid Hname Hpid Hpname.
  unfold handleBuzz. rewrite Hroom, Hid, Hname, Hcode, Hpid, Hpname. reflexivity.
Qed.

(** The expert block on a song whose name the database takes as a key
    and no object inherits. *)
Lemma handleBuzz_storable (c : Ctx) (r : RoomData) (pid pname : string)
    (inputPlayerId inputPlayerName : option string) (now : Z) :
  truthyS (roomCode c) = true ->
  roomData c = Some r ->
  orS inputPlayerId (playerId c) = Some pid ->
  orS inputPlayerName (playerName c) = Some pname ->
  truthyS (Some pid) = true ->
  truthyS (Some pname) = true ->
  (forall song, expertSong c r = Some song ->
     validKey song = true /\ inheritedKey song = false) ->
  handleBuzz c inputPlayerId inputPlayerName now =
    if negb (truthyB (buzzEnabled r)) then []
    else if truthyO (winnerInfo r) then []
    else if turnDenies c r pid then []
    else
      match expertSong c r with
      | Some song =>
          if includes pid (default [] (songAttempts r !! song)) then []
          else
            Store (UpdRoom [ FSongAttempts
                               (<[song := default [] (songAttempts r !! song) ++ [pid]]>
                                  (songAttempts r)) ])
            :: winnerWrites pid pname now
      | None => winnerWrites pid pname now
      end.
Proof.
  intros Hcode Hroom Hid Hname Hpid Hpname Hkey.
  rewrite (handleBuzz_identified c r pid pname _ _ now Hcode Hroom Hid Hname Hpid Hpname).
  destruct (expertSong c r) as [song|]; [|reflexivity].
  destruct (Hkey song eq_refl) as [Hvalid Hown].
  rewrite (attemptedPlayersOf_plain r song Hown), Hvalid. reflexivity.
Qed.

(** ** C2: the gate of [handleBuzz] *)

(** C2 (as amended).  For a call of [handleBuzz] made with a room code, a
    room snapshot and a non-empty caller id and name: when the expert
    block, if the call enters it, meets a current song whose name the
    database takes as a key (and that is no name every object inherits),
    the call is accepted if and only if, in the caller's snapshot,
    [buzzEnabled] is true, there is no [winnerInfo], the turn-based block
    does not turn the caller away and the expert block does not either;
    under a mode that is neither turn-based nor expert a call is accepted
    if and only if [buzzEnabled] is true and there is no [winnerInfo].
    An accepted call issues one update carrying the winner record
    [{playerId, playerName, timestamp}] together with [buzzEnabled: false];
    a call that is not accepted issues nothing and leaves the room as it
    is. *)
Theorem handleBuzz_gate (c : Ctx) (r : RoomData) (pid pname : string)
    (inputPlayerId inputPlayerName : option string) (now : Z) :
  truthyS (roomCode c) = true ->
  roomData c = Some r ->
  orS inputPlayerId (playerId c) = Some pid ->
  orS inputPlayerName (playerName c) = Some pname ->
  truthyS (Some pid) = true ->
  truthyS (Some pname) = true ->
  let es := handleBuzz c inputPlayerId inputPlayerName now in
  ((forall song, expertSong c r = Some song ->
      validKey song = true /\ inheritedKey song = false) ->
   (accepted es = true <->
      buzzEnabled r = Some true /\ winnerInfo r = None /\
      turnDenies c r pid = false /\ expertDenies c r pid = false)) /\
  (plainMode (currentGameMode c) = true ->
     (accepted es = true <-> buzzEnabled r = Some true /\ winnerInfo r = None)) /\
  (accepted es = true ->
     In (Store (UpdRoom [ FWinnerInfo (WinnerInfo.mk pid pname now None);
                          FBuzzEnabled false ])) es) /\
  (accepted es = false ->
     es = [] /\ forall services s, run services es s = s).
Proof.
  intros Hcode Hroom Hid Hname Hpid Hpname es.
  assert (Hes : es = _) by (exact (handleBuzz_identified c r pid pname _ _ now
                                     Hcode Hroom Hid Hname Hpid Hpname)).
  assert (Hmain : (forall song, expertSong c r = Some song ->
                     validKey song = true /\ inheritedKey song = false) ->
     (accepted es = true <->
        buzzEnabled r = Some true /\ winnerInfo r = None /\
        turnDenies c r pid = false /\ expertDenies c r pid = false)).
  { intros Hkey.
    assert (Hes' : es = _) by (exact (handleBuzz_storable c r pid pname _ _ now
                                        Hcode Hroom Hid Hname Hpid Hpname Hkey)).
    clear Hes. clearbody es. subst es. unfold expertDenies.
    destruct (buzzEnabled r) as [[|]|]; simpl;
      try (split; [discriminate | intros (? & _); discriminate]).
    destruct (winnerInfo r); simpl;
      try (split; [discriminate | intros (_ & ? & _); discriminate]).
    destruct (turnDenies c r pid); simpl;
      try (split; [discriminate | intros (_ & _ & ? & _); discriminate]).
    destruct (expertSong c r) as [song|]; simpl.
    - destruct (includes pid (default [] (songAttempts r !! song))); simpl.
      + split; [discriminate | intros (_ & _ & _ & ?); discriminate].
      + split; auto.
    - split; auto. }
  clearbody es.
  split; [exact Hmain|].
  split.
  { intros Hplain.
    pose proof (plainMode_turnDenies c r pid Hplain) as Ht.
    pose proof (plainMode_expertSong c r Hplain) as He.
    rewrite Hmain by (intros song Hsong; congruence).
    unfold expertDenies. rewrite Ht, He. tauto. }
  split.
  { subst es.
    destruct (buzzEnabled r) as [[|]|]; simpl; try discriminate.
    destruct (winnerInfo r); simpl; try discriminate.
    destruct (turnDenies c r pid); simpl; try discriminate.
    destruct (expertSong c r) as [song|]; simpl; [|auto].
    destruct (attemptedPlayersOf r song) as [attempted|]; simpl; [|discriminate].
    destruct (includes pid attempted); simpl; [discriminate|].
    destruct (validKey song); simpl; [auto | discriminate]. }
  { intros Hrej.
    assert (es = []) as ->; [|split; [reflexivity | intros; apply run_nil]].
    subst es.
    destruct (buzzEnabled r) as [[|]|]; simpl in *; try reflexivity.
    destruct (winnerInfo r); simpl in *; try reflexivity.
    destruct (turnDenies c r pid); simpl in *; try reflexivity.
    destruct (expertSong c r) as [song|]; simpl in *; [|discriminate].
    destruct (attemptedPlayersOf r song) as [attempted|]; simpl in *; [|reflexivity].
    destruct (includes pid attempted); simpl in *; [reflexivity|].
    destruct (validKey song); simpl in *; [discriminate | reflexivity]. }
Qed.

(** C2, witness: a guest of a classic room whose buzz is open, and a
    guest of the expert room whose current song is "one". *)
Lemma handleBuzz_gate_witness :
  truthyS (roomCode (Scenario.guestCtx "a" "A" (Some classicMode)
                       (Scenario.openRoom classicMode))) = true /\
  (accepted (handleBuzz (Scenario.guestCtx "a" "A" (Some classicMode)
                           (Scenario.openRoom classicMode)) None None 5) = true <->
   buzzEnabled (Scenario.openRoom classicMode) = Some true /\
   winnerInfo (Scenario.openRoom classicMode) = None) /\
  validKey "one" = true /\
  (accepted (handleBuzz (Scenario.guestCtx "a" "A" (Some expertMode) Scenario.expertOpen)
               None None 5) = true <->
   buzzEnabled Scenario.expertOpen = Some true /\ winnerInfo Scenario.expertOpen = None /\
   turnDenies (Scenario.guestCtx "a" "A" (Some expertMode) Scenario.expertOpen)
     Scenario.expertOpen "a" = false /\
   expertDenies (Scenario.guestCtx "a" "A" (Some expertMode) Scenario.expertOpen)
     Scenario.expertOpen "a" = false).
Proof.
  split; [reflexivity|].
  split.
  { refine (proj1 (proj2 (handleBuzz_gate
              (Scenario.guestCtx "a" "A" (Some classicMode) (Scenario.openRoom classicMode))
              (Scenario.openRoom classicMode) "a" "A" None None 5
              eq_refl eq_refl eq_refl eq_refl eq_refl eq_refl)) eq_refl). }
  split; [reflexivity|].
  refine (proj1 (handleBuzz_gate
            (Scenario.guestCtx "a" "A" (Some expertMode) Scenario.expertOpen)
            Scenario.expertOpen "a" "A" None None 5
            eq_refl eq_refl eq_refl eq_refl eq_refl eq_refl) _).
  intros song [= <-]. split; reflexivity.
Defined.

(** C2 as stated fails: in [Scenario.advantageRoom] guest B calls with
    [buzzEnabled] true and no [winnerInfo], and is turned away. *)
Lemma handleBuzz_gate_counterexample :
  buzzEnabled Scenario.advantageRoom = Some true /\
  winnerInfo Scenario.advantageRoom = None /\
  accepted (handleBuzz (Scenario.guestCtx "b" "B" (Some turnBasedMode)
                          Scenario.advantageRoom) None None 5) = false.
Proof. repeat split. Qed.

(** Of the predefined modes, classic, easy, speed and teams run neither
    block. *)
Example predefined_plain_modes :
  map (fun m => plainMode (Some m)) gameModes = [ true; true; false; true; false; true ].
Proof. reflexivity. Qed.

(** ** C1: several callers *)

Lemma clientCtx_open (code : string) (mode : option GameMode.t) (snap : RoomData)
    (who : string * string) (now : Z) :
  truthyS (Some code) = true ->
  plainMode mode = true ->
  validCaller who = true ->
  buzzEnabled snap = Some true ->
  winnerInfo snap = None ->
  handleBuzz (clientCtx code mode snap who) None None now =
    winnerWrites (fst who) (snd who) now.
Proof.
  intros Hcode Hplain Hwho Hen Hwin.
  unfold validCaller in Hwho. apply andb_true_iff in Hwho as [Hid Hname].
  rewrite (handleBuzz_identified (clientCtx code mode snap who) snap (fst who) (snd who)
             None None now Hcode eq_refl eq_refl eq_refl Hid Hname).
  rewrite Hen, Hwin. simpl.
  rewrite (plainMode_turnDenies (clientCtx code mode snap who) snap (fst who) Hplain).
  rewrite (plainMode_expertSong (clientCtx code mode snap who) snap Hplain).
  reflexivity.
Qed.

Lemma clientCtx_closed (code : string) (mode : option GameMode.t) (snap : RoomData)
    (who : string * string) (now : Z) :
  buzzEnabled snap = Some false ->
  handleBuzz (clientCtx code mode snap who) None None now = [].
Proof.
  intros Hen. unfold handleBuzz, clientCtx. simpl.
  match goal with
  | |- (if ?b then _ else _) = _ => destruct b; [reflexivity|]
  end.
  rewrite Hen. reflexivity.
Qed.

Lemma serialBuzz_closed (code : string) (mode : option GameMode.t)
    (callers : list (string * string)) (now : Z) (store : RoomData) :
  buzzEnabled store = Some false ->
  buzzRun (fun s => s) code mode callers now store =
    (repeat false (length callers), store).
Proof.
  intros Hen. induction callers as [|who rest IH]; [reflexivity|].
  simpl. rewrite (clientCtx_closed code mode store who now Hen). simpl.
  rewrite IH. reflexivity.
Qed.

Section Overlap.

Variables (code : string) (mode : option GameMode.t) (now : Z) (s0 : RoomData).
Hypothesis Hcode : truthyS (Some code) = true.
Hypothesis Hplain : plainMode mode = true.
Hypothesis Hen : buzzEnabled s0 = Some true.
Hypothesis Hwin : winnerInfo s0 = None.

Lemma overlap_flags (callers : list (string * string)) (store : RoomData) :
  Forall (fun who => validCaller who = true) callers ->
  fst (buzzRun (fun _ => s0) code mode callers now store) = repeat true (length callers).
Proof.
  intros Hall. revert store.
  induction Hall as [|who rest Hwho _ IH]; intros store; [reflexivity|].
  simpl. rewrite (clientCtx_open code mode s0 who now Hcode Hplain Hwho Hen Hwin).
  rewrite IH. reflexivity.
Qed.

Lemma overlap_last (callers : list (string * string)) (who : string * string)
    (store : RoomData) :
  Forall (fun w => validCaller w = true) callers ->
  last callers = Some who ->
  winnerInfo (snd (buzzRun (fun _ => s0) code mode callers now store)) =
    Some (WinnerInfo.mk (fst who) (snd who) now None).
Proof.
  intros Hall. revert store.
  induction Hall as [|w rest Hw Hrest IH]; intros store Hlast; [discriminate|].
  simpl. rewrite (clientCtx_open code mode s0 w now Hcode Hplain Hw Hen Hwin).
  destruct rest as [|w2 rest'].
  - simpl in Hlast. injection Hlast as <-. reflexivity.
  - apply IH. exact Hlast.
Qed.

End Overlap.

(** C1 (as amended).  On a room whose buzz is open and that has no
    winner, under a mode without turn-based or expert block, with
    identified callers: when the calls do not overlap (each caller's
    snapshot shows the writes of the calls before), exactly the first call
    records a winner and every other one is rejected; when the calls
    overlap (every caller's snapshot is still the room without winner),
    every call passes the check of its own snapshot and issues the winner
    update, and the room keeps the record of the last one.  The winner
    write is an unconditional update issued after a check of the caller's
    snapshot. *)
Theorem buzz_race (code : string) (mode : option GameMode.t) (now : Z) (s0 : RoomData)
    (who : string * string) (rest : list (string * string)) :
  truthyS (Some code) = true ->
  plainMode mode = true ->
  buzzEnabled s0 = Some true ->
  winnerInfo s0 = None ->
  Forall (fun w => validCaller w = true) (who :: rest) ->
  fst (serialBuzz code mode (who :: rest) now s0) = true :: repeat false (length rest) /\
  winnerInfo (snd (serialBuzz code mode (who :: rest) now s0)) =
    Some (WinnerInfo.mk (fst who) (snd who) now None) /\
  fst (concurrentBuzz code mode (who :: rest) now s0) = repeat true (S (length rest)) /\
  (forall final, last (who :: rest) = Some final ->
     winnerInfo (snd (concurrentBuzz code mode (who :: rest) now s0)) =
       Some (WinnerInfo.mk (fst final) (snd final) now None)).
Proof.
  intros Hcode Hplain Hen Hwin Hall.
  assert (Hser : serialBuzz code mode (who :: rest) now s0 =
            (true :: repeat false (length rest),
             run (fun _ s => s) (winnerWrites (fst who) (snd who) now) s0)).
  { unfold serialBuzz. simpl.
    rewrite (clientCtx_open code mode s0 who now Hcode Hplain
               (Forall_inv Hall) Hen Hwin).
    rewrite serialBuzz_closed by reflexivity. reflexivity. }
  rewrite Hser. simpl.
  split; [reflexivity|]. split; [reflexivity|].
  unfold concurrentBuzz. split.
  - exact (overlap_flags code mode now s0 Hcode Hplain Hen Hwin (who :: rest) s0 Hall).
  - intros final Hlast.
    exact (overlap_last code mode now s0 Hcode Hplain Hen Hwin (who :: rest) final s0
             Hall Hlast).
Qed.

(** C1, witness: guests A, B and C on a classic room. *)
Lemma buzz_race_witness :
  plainMode (Some classicMode) = true /\
  fst (serialBuzz "ROOM" (Some classicMode) [("a", "A"); ("b", "B"); ("c", "C")] 5
         (Scenario.openRoom classicMode)) = [true; false; false] /\
  fst (concurrentBuzz "ROOM" (Some classicMode) [("a", "A"); ("b", "B"); ("c", "C")] 5
         (Scenario.openRoom classicMode)) = [true; true; true].
Proof.
  split; [reflexivity|].
  pose proof (buzz_race "ROOM" (Some classicMode) 5 (Scenario.openRoom classicMode)
                ("a", "A") [("b", "B"); ("c", "C")]
                eq_refl eq_refl eq_refl eq_refl
                ltac:(repeat constructor)) as H.
  exact (conj (proj1 H) (proj1 (proj2 (proj2 H)))).
Defined.

(** C1 as stated fails: guests A and B call at the same time on an open
    classic room; both calls issue the winner update, none is rejected,
    and B's record replaces A's. *)
Lemma buzz_race_counterexample :
  buzzEnabled (Scenario.openRoom classicMode) = Some true /\
  winnerInfo (Scenario.openRoom classicMode) = None /\
  fst (concurrentBuzz "ROOM" (Some classicMode) [("a", "A"); ("b", "B")] 5
         (Scenario.openRoom classicMode)) = [true; true] /\
  winnerInfo (snd (concurrentBuzz "ROOM" (Some classicMode) [("a", "A"); ("b", "B")] 5
                     (Scenario.openRoom classicMode))) =
    Some (WinnerInfo.mk "b" "B" 5 None).
Proof. repeat split. Qed.

(** ** C3: adjudication *)

Lemma lookupPlayer_updatePlayer (pid : string) (fs : list PlayerField)
    (ps : list (string * Player.t)) (p : Player.t) :
  lookupPlayer pid ps = Some p ->
  lookupPlayer pid (updatePlayer pid fs ps) = Some (fold_left applyPlayerField fs p).
Proof.
  induction ps as [|[k q] rest IH]; simpl; [discriminate|].
  destruct (String.eqb k pid) eqn:Hk; simpl; rewrite Hk.
  - intros [= ->]. reflexivity.
  - exact IH.
Qed.

Lemma players_applyRoomFields (fs : list RoomField) (s : RoomData) :
  players (fold_left applyRoomField fs s) = players s.
Proof.
  revert s. induction fs as [|f fs IH]; intros s; [reflexivity|].
  simpl. rewrite IH. destruct f; reflexivity.
Qed.

Lemma players_disableBuzz (services : ServiceCall -> RoomData -> RoomData)
    (c : Ctx) (now : Z) (s : RoomData) :
  players (run services (disableBuzz c now) s) = players s.
Proof.
  unfold disableBuzz, disableBuzzWrites.
  destruct (negb (truthyS (roomCode c)) || negb (isHost c)); reflexivity.
Qed.

Lemma adjudicationTarget_host (c : Ctx) (r : RoomData) (w : WinnerInfo.t) :
  truthyS (roomCode c) = true ->
  isHost c = true ->
  roomData c = Some r ->
  winnerInfo r = Some w ->
  adjudicationTarget c = Some (r, w).
Proof.
  intros Hcode Hhost Hroom Hwin. unfold adjudicationTarget.
  rewrite Hcode, Hhost, Hroom, Hwin. reflexivity.
Qed.

Section Adjudication.

Variable services : ServiceCall -> RoomData -> RoomData.
Hypothesis reject_keeps_players :
  forall s, players (services RejectPlayerAnswer s) = players s.

Variables (c : Ctx) (r : RoomData) (w : WinnerInfo.t) (p : Player.t) (now : Z).
Hypothesis Hcode : truthyS (roomCode c) = true.
Hypothesis Hhost : isHost c = true.
Hypothesis Hroom : roomData c = Some r.
Hypothesis Hwin : winnerInfo r = Some w.
Hypothesis Hplayer : lookupPlayer (WinnerInfo.playerId w) (players r) = Some p.

Lemma awardCorrectAnswer_player :
  lookupPlayer (WinnerInfo.playerId w)
      (players (run services (awardCorrectAnswer c now) r)) =
    Some (fold_left applyPlayerField
            (correctFields p (orZ (modePointsCorrect c) 10) now) p).
Proof.
  unfold awardCorrectAnswer.
  rewrite (adjudicationTarget_host c r w Hcode Hhost Hroom Hwin),
    (playersGet_own _ _ _ Hplayer).
  change (run services (?a :: ?b :: ?l) r)
    with (run services l (services RejectPlayerAnswer (step services r a))).
  rewrite players_disableBuzz, reject_keeps_players.
  exact (lookupPlayer_updatePlayer _ _ _ _ Hplayer).
Qed.

Lemma awardWrongAnswer_player :
  lookupPlayer (WinnerInfo.playerId w)
      (players (run services (awardWrongAnswer c now) r)) =
    Some (fold_left applyPlayerField
            (wrongFields p (orZ (modePointsWrong c) 5) now) p).
Proof.
  unfold awardWrongAnswer.
  rewrite (adjudicationTarget_host c r w Hcode Hhost Hroom Hwin),
    (playersGet_own _ _ _ Hplayer).
  change (run services (?a :: ?b :: ?l) r)
    with (run services l (services RejectPlayerAnswer (step services r a))).
  rewrite players_disableBuzz, reject_keeps_players.
  exact (lookupPlayer_updatePlayer _ _ _ _ Hplayer).
Qed.

End Adjudication.

Lemma orZ_Some_0 (z : Z) : orZ (Some z) 0 = z.
Proof. unfold orZ. destruct (Z.eqb_spec z 0); congruence. Qed.

(** C3.  The host adjudicates the winner [w] of its snapshot [r], whose
    player record is [p]; [award] is the mode's [pointsCorrect] or 10,
    [penalty] the mode's [pointsWrong] or 5 ([orZ] is the source's [||]).
    Correct leaves the player at [points + award], streak raised by one,
    best streak the maximum of the old best and the new streak, one more
    correct answer.  Wrong leaves the player at [max 0 (points - penalty)],
    streak 0, one more wrong answer.  Correct followed, on the next round,
    by Wrong leaves [max 0 (points + award - penalty)] and streak 0: from 0
    points with 10 and 5, that is 10 points and streak 1, then 5 points and
    streak 0.  Points stay non-negative.  [services] is any behaviour of the
    service functions under which [rejectPlayerAnswer] leaves the players
    alone. *)
Theorem adjudication_scores (services : ServiceCall -> RoomData -> RoomData)
    (c : Ctx) (r : RoomData) (w : WinnerInfo.t) (p : Player.t) (now : Z) :
  (forall s, players (services RejectPlayerAnswer s) = players s) ->
  truthyS (roomCode c) = true ->
  isHost c = true ->
  roomData c = Some r ->
  winnerInfo r = Some w ->
  lookupPlayer (WinnerInfo.playerId w) (players r) = Some p ->
  let pid := WinnerInfo.playerId w in
  let award := orZ (modePointsCorrect c) 10 in
  let penalty := orZ (modePointsWrong c) 5 in
  let score := orZ (Player.points p) 0 in
  let streak := orZ (Player.currentStreak p) 0 in
  (exists pc,
     lookupPlayer pid (players (run services (awardCorrectAnswer c now) r)) = Some pc /\
     Player.points pc = Some (score + award) /\
     Player.currentStreak pc = Some (streak + 1) /\
     Player.bestStreak pc = Some (Z.max (orZ (Player.bestStreak p) 0) (streak + 1)) /\
     Player.correctAnswers pc = Some (orZ (Player.correctAnswers p) 0 + 1) /\
     (0 <= score -> 0 <= award -> forall v, Player.points pc = Some v -> 0 <= v) /\
     (forall c2 r2 w2 now2,
        truthyS (roomCode c2) = true ->
        isHost c2 = true ->
        roomData c2 = Some r2 ->
        winnerInfo r2 = Some w2 ->
        WinnerInfo.playerId w2 = pid ->
        lookupPlayer pid (players r2) = Some pc ->
        modePointsWrong c2 = modePointsWrong c ->
        exists pw,
          lookupPlayer pid (players (run services (awardWrongAnswer c2 now2) r2)) = Some pw /\
          Player.points pw = Some (Z.max 0 (score + award - penalty)) /\
          Player.currentStreak pw = Some 0)) /\
  (exists pw,
     lookupPlayer pid (players (run services (awardWrongAnswer c now) r)) = Some pw /\
     Player.points pw = Some (Z.max 0 (score - penalty)) /\
     Player.currentStreak pw = Some 0 /\
     Player.wrongAnswers pw = Some (orZ (Player.wrongAnswers p) 0 + 1) /\
     (forall v, Player.points pw = Some v -> 0 <= v)).
Proof.
  intros Hsvc Hcode Hhost Hroom Hwin Hplayer pid award penalty score streak.
  split.
  - eexists. split.
    { exact (awardCorrectAnswer_player services Hsvc c r w p now
               Hcode Hhost Hroom Hwin Hplayer). }
    split; [reflexivity|]. split; [reflexivity|].
    split; [simpl; f_equal; apply Z.max_comm|].
    split; [reflexivity|].
    split; [intros Hs Ha v [= <-]; lia|].
    intros c2 r2 w2 now2 Hcode2 Hhost2 Hroom2 Hwin2 Hpid2 Hplayer2 Hmode2.
    rewrite <- Hpid2 in Hplayer2.
    eexists. split.
    { rewrite <- Hpid2.
      exact (awardWrongAnswer_player services Hsvc c2 r2 w2 _ now2
               Hcode2 Hhost2 Hroom2 Hwin2 Hplayer2). }
    split; [|reflexivity].
    change (Some (Z.max 0 (orZ (Some (score + award)) 0 - orZ (modePointsWrong c2) 5)) =
            Some (Z.max 0 (score + award - penalty))).
    rewrite Hmode2, orZ_Some_0. reflexivity.
  - eexists. split.
    { exact (awardWrongAnswer_player services Hsvc c r w p now
               Hcode Hhost Hroom Hwin Hplayer). }
    split; [reflexivity|]. split; [reflexivity|]. split; [reflexivity|].
    intros v [= <-]. apply Z.le_max_l.
Qed.

(** C3, witness: the two rounds of [Scenario]; guest A starts without
    points, has 10 points and streak 1 after Correct, then 5 points and
    streak 0 after Wrong. *)
Lemma adjudication_scores_witness :
  isHost (Scenario.hostCtx (Some classicMode) Scenario.wonRoom) = true /\
  winnerInfo Scenario.wonRoom = Some (WinnerInfo.mk "a" "A" 5 None) /\
  lookupPlayer "a" (players Scenario.wonRoom) = Some (Scenario.guest "A" 1) /\
  exists pc pw,
    lookupPlayer "a" (players Scenario.afterCorrect) = Some pc /\
    Player.points pc = Some 10 /\
    Player.currentStreak pc = Some 1 /\
    lookupPlayer "a" (players Scenario.afterWrong) = Some pw /\
    Player.points pw = Some 5 /\
    Player.currentStreak pw = Some 0.
Proof.
  split; [reflexivity|]. split; [reflexivity|]. split; [reflexivity|].
  destruct (adjudication_scores Scenario.services
              (Scenario.hostCtx (Some classicMode) Scenario.wonRoom) Scenario.wonRoom
              (WinnerInfo.mk "a" "A" 5 None) (Scenario.guest "A" 1) 9
              (fun s => eq_refl) eq_refl eq_refl eq_refl eq_refl eq_refl)
    as [(pc & Hpc & Hpoints & Hstreak & _ & _ & _ & Hnext) _].
  destruct (Hnext (Scenario.hostCtx (Some classicMode) Scenario.wonAgain) Scenario.wonAgain
              (WinnerInfo.mk "a" "A" 12 None) 15
              eq_refl eq_refl eq_refl eq_refl eq_refl Hpc eq_refl)
    as (pw & Hpw & Hpoints' & Hstreak').
  exists pc, pw. repeat split; assumption.
Defined.

(** The same two rounds, run: the records guest A ends up with. *)
Example scenario_correct_then_wrong :
  lookupPlayer "a" (players Scenario.afterCorrect) =
    Some (Player.mk "A" false 1 (Some 10) (Some 1) (Some 1) (Some 1) None (Some 9)) /\
  winnerInfo Scenario.afterCorrect = None /\
  lookupPlayer "a" (players Scenario.afterWrong) =
    Some (Player.mk "A" false 1 (Some 5) (Some 0) (Some 1) (Some 1) (Some 1) (Some 15)).
Proof. repeat split. Qed.

(** ** C4: the countdown *)

Lemma host_disableBuzzWrites (c : Ctx) (now : Z) :
  truthyS (roomCode c) = true ->
  isHost c = true ->
  disableBuzzWrites c now = [ UpdRoom [ FBuzzEnabled false; FLastBuzzActivity now ] ].
Proof. intros Hcode Hhost. unfold disableBuzzWrites. rewrite Hcode, Hhost. reflexivity. Qed.

Lemma host_enableBuzzWrites (c : Ctx) (now : Z) :
  truthyS (roomCode c) = true ->
  isHost c = true ->
  enableBuzzWrites c now = [ UpdRoom [ FBuzzEnabled true; FLastBuzzActivity now ] ].
Proof. intros Hcode Hhost. unfold enableBuzzWrites. rewrite Hcode, Hhost. reflexivity. Qed.

(** The effects of the host's [startCountdown], in program order. *)
Lemma startCountdown_host (c : Ctx) (now : Z) :
  truthyS (roomCode c) = true ->
  isHost c = true ->
  startCountdown c now =
    [ Emit "disableBuzzForSong";
      Store (UpdRoom [ FBuzzEnabled false; FLastBuzzActivity now ]);
      Store (UpdCountdown [ CIsActive true; CValue 3; CStartTime (Some now) ]);
      Store (UpdCountdown [ CIsActive true; CValue 3; CStartTime (Some now) ]);
      Sleep 1000;
      Store (UpdCountdown [ CIsActive true; CValue 2; CStartTime (Some (now + 1000)) ]);
      Sleep 1000;
      Store (UpdCountdown [ CIsActive true; CValue 1;
                            CStartTime (Some (now + 1000 + 1000)) ]);
      Sleep 1000;
      Store (UpdCountdown [ CIsActive false; CValue 0 ]);
      Emit "enableBuzzForSong";
      Store (UpdRoom [ FBuzzEnabled true; FLastBuzzActivity (now + 3000) ]) ].
Proof.
  intros Hcode Hhost.
  unfold startCountdown, dispatchDisableBuzzForSong, dispatchEnableBuzzForSong,
    onDisableBuzzForSong, onEnableBuzzForSong.
  rewrite host_disableBuzzWrites, host_enableBuzzWrites by assumption.
  rewrite Hcode, Hhost. reflexivity.
Qed.

(** C4 (as amended).  A countdown run of the host writes the countdown
    node five times: [{isActive: true, value: 3}] twice at the start (the
    initial write, then the first tick of the loop), [{isActive: true,
    value: 2}] one second later, [{isActive: true, value: 1}] one second
    after that, and the terminal [{isActive: false, value: 0}] one second
    after the last tick.  Values [3,3,2,1,0], flags
    [true,true,true,true,false]; from the first tick on the value goes
    down by one per second, and a reader of the room sees 3, 2, 1 (active)
    and 0 (inactive) at 0, 1, 2 and 3 seconds. *)
Theorem startCountdown_ticks (c : Ctx) (now : Z) :
  truthyS (roomCode c) = true ->
  isHost c = true ->
  countdownTicks (startCountdown c now) =
    [ (0, Some true, Some 3);
      (0, Some true, Some 3);
      (1000, Some true, Some 2);
      (2000, Some true, Some 1);
      (3000, Some false, Some 0) ] /\
  forall services s,
    map (fun t => countdownSeen (roomAt services t (startCountdown c now) s))
        [ 0; 1000; 2000; 3000 ] =
      [ (Some true, Some 3); (Some true, Some 2); (Some true, Some 1);
        (Some false, Some 0) ].
Proof.
  intros Hcode Hhost. rewrite startCountdown_host by assumption.
  split; [reflexivity | intros services s; reflexivity].
Qed.

(** C4, witness: the host of the scenario room. *)
Lemma startCountdown_ticks_witness :
  isHost (Scenario.hostCtx (Some classicMode) (Scenario.openRoom classicMode)) = true /\
  countdownTicks (startCountdown (Scenario.hostCtx (Some classicMode)
                                    (Scenario.openRoom classicMode)) 100) =
    [ (0, Some true, Some 3);
      (0, Some true, Some 3);
      (1000, Some true, Some 2);
      (2000, Some true, Some 1);
      (3000, Some false, Some 0) ].
Proof.
  split; [reflexivity|].
  exact (proj1 (startCountdown_ticks
                  (Scenario.hostCtx (Some classicMode) (Scenario.openRoom classicMode)) 100
                  eq_refl eq_refl)).
Defined.

(** C4 as stated fails: the values written are not [3,2,1,0]; the value
    3 is written twice and does not go down between the first two
    writes. *)
Lemma startCountdown_ticks_counterexample :
  countdownValues (startCountdown (Scenario.hostCtx (Some classicMode)
                                     (Scenario.openRoom classicMode)) 100) =
    [ Some 3; Some 3; Some 2; Some 1; Some 0 ] /\
  countdownValues (startCountdown (Scenario.hostCtx (Some classicMode)
                                     (Scenario.openRoom classicMode)) 100) <>
    [ Some 3; Some 2; Some 1; Some 0 ].
Proof. split; [reflexivity | discriminate]. Qed.

(** ** C5: the advantage phase of a turn *)

(** C5, on the scenario room.  The turn-based mode sets
    [turnAdvantageSeconds] to 10.  The song starts guest B's turn; 12
    seconds later the room still has [advantagePhase] true, the buzz is
    open, nobody has won, and guest C is turned away.  The phase ends 15
    seconds after the start, when the timer of the [play] listener fires;
    from then on C is let in. *)
Theorem advantage_phase_ends_after_15_seconds :
  turnAdvantageSeconds (GameMode.settings turnBasedMode) = Some 10 /\
  (Turn.playerId <$> currentTurn (Scenario.duringFirstSong 12000)) = Some "b" /\
  (Turn.startTime <$> currentTurn (Scenario.duringFirstSong 12000)) = Some (Some 1000) /\
  (Turn.advantagePhase <$> currentTurn (Scenario.duringFirstSong 12000)) = Some true /\
  buzzEnabled (Scenario.duringFirstSong 12000) = Some true /\
  winnerInfo (Scenario.duringFirstSong 12000) = None /\
  handleBuzz (Scenario.guestCtx "c" "C" (Some turnBasedMode)
                (Scenario.duringFirstSong 12000)) None None 13000 = [] /\
  (Turn.advantagePhase <$> currentTurn (Scenario.duringFirstSong 14999)) = Some true /\
  (Turn.advantagePhase <$> currentTurn (Scenario.duringFirstSong 15000)) = Some false /\
  accepted (handleBuzz (Scenario.guestCtx "c" "C" (Some turnBasedMode)
                          (Scenario.duringFirstSong 15000)) None None 16000) = true.
Proof. repeat split. Qed.

(** ** C6: the rotation set up by [setGameMode] *)

Lemma lookupPlayer_In (pid : string) (ps : list (string * Player.t)) (p : Player.t) :
  lookupPlayer pid ps = Some p -> In pid (map fst ps).
Proof.
  induction ps as [|[k q] rest IH]; simpl; [discriminate|].
  destruct (String.eqb_spec k pid) as [->|_]; [left; reflexivity|].
  intros H. right. exact (IH H).
Qed.

(** Whenever [setGameMode] writes the turn-based mode, the turn order it
    writes holds the caller, who is the host. *)
Lemma setGameMode_turnOrder_holds_host (c : Ctx) (mode : GameMode.t) (now : Z)
    (pid : string) :
  truthyS (roomCode c) = true ->
  isHost c = true ->
  playerId c = Some pid ->
  GameMode.type mode = turnBased ->
  exists t p,
    setGameMode c mode now = [ Store (UpdRoom [ FGameMode mode; FCurrentTurn t ]) ] /\
    In pid (map fst (Turn.turnOrder t)) /\
    lookupPlayer pid (playersOf c) = Some p /\
    Player.isHost p = true.
Proof.
  intros Hcode Hhost Hpid Htype.
  unfold setGameMode, initialTurn. rewrite Hcode, Hhost, Htype.
  assert (Hid : truthyS (playerId c) = true).
  { unfold isHost in Hhost. apply andb_true_iff in Hhost as [H _]. exact H. }
  rewrite Hid. simpl.
  unfold isHost in Hhost. rewrite Hid, Hpid in Hhost. simpl in Hhost.
  unfold playerIdsOf, playersOf.
  destruct (roomData c) as [r|]; [|discriminate].
  destruct (lookupPlayer pid (players r)) as [p|] eqn:Hp; [|discriminate].
  pose proof (lookupPlayer_In pid (players r) p Hp) as Hin.
  destruct (map fst (players r)) as [|first ids] eqn:Hids; [destruct Hin|].
  eexists _, p. split; [reflexivity|]. split; [|split; [reflexivity | exact Hhost]].
  cbn [Turn.turnOrder]. rewrite map_map. cbn [fst]. rewrite map_id. exact Hin.
Qed.

(** C6, on the scenario room (host h, then guests a, b, c).  The rotation
    [setGameMode] writes holds all four players, the host first, and names
    the host as current player; the three song starts that follow give
    the turn to b, then c, then a. *)
Theorem setGameMode_rotation_includes_host :
  playerIdsOf (Scenario.hostCtx None Scenario.lobby) = [ "h"; "a"; "b"; "c" ] /\
  map fst (nonHostPlayers (Scenario.hostCtx None Scenario.lobby)) = [ "a"; "b"; "c" ] /\
  currentTurn Scenario.turnRoom =
    Some (Turn.mk "h" "Host" 1 (Some 7) true
            [ ("h", "Host"); ("a", "A"); ("b", "B"); ("c", "C") ] (Some 1)) /\
  (Turn.playerId <$> currentTurn Scenario.turn1) = Some "b" /\
  (Turn.playerId <$> currentTurn Scenario.turn2) = Some "c" /\
  (Turn.playerId <$> currentTurn Scenario.turn3) = Some "a".
Proof. repeat split. Qed.

(** ** C7: one attempt per song *)

Lemma expertSong_expert (c : Ctx) (r : RoomData) (m : GameMode.t) (song : string) :
  currentGameMode c = Some m ->
  GameMode.type m = expert ->
  oneAttemptPerSong (GameMode.settings m) = Some true ->
  currentSong r = Some song ->
  truthyS (Some song) = true ->
  expertSong c r = Some song.
Proof.
  intros Hm Ht Hone Hsong Htruthy. unfold expertSong.
  rewrite Hm, Ht, Hone, Hsong, Htruthy. reflexivity.
Qed.

Lemma expert_not_turnBased (c : Ctx) (r : RoomData) (m : GameMode.t) (pid : string) :
  currentGameMode c = Some m ->
  GameMode.type m = expert ->
  turnDenies c r pid = false.
Proof. intros Hm Ht. unfold turnDenies. rewrite Hm, Ht. reflexivity. Qed.

Lemma includes_snoc (pid : string) (l : list string) : includes pid (l ++ [pid]) = true.
Proof.
  unfold includes. rewrite existsb_app. simpl.
  rewrite String.eqb_refl. apply orb_true_iff. right. reflexivity.
Qed.

(** A participant already listed for the current song is turned away,
    whoever else the call may be. *)
Lemma expert_denied (c : Ctx) (r : RoomData) (m : GameMode.t) (song pid : string)
    (inputPlayerId inputPlayerName : option string) (now : Z) :
  roomData c = Some r ->
  orS inputPlayerId (playerId c) = Some pid ->
  currentGameMode c = Some m ->
  GameMode.type m = expert ->
  oneAttemptPerSong (GameMode.settings m) = Some true ->
  currentSong r = Some song ->
  truthyS (Some song) = true ->
  includes pid (default [] (songAttempts r !! song)) = true ->
  handleBuzz c inputPlayerId inputPlayerName now = [].
Proof.
  intros Hroom Hid Hm Ht Hone Hsong Htruthy Hinc.
  unfold handleBuzz. rewrite Hroom, Hid.
  destruct (orS inputPlayerName (playerName c)) as [pname|]; [|reflexivity].
  repeat match goal with
         | |- (if ?b then [] else _) = [] => destruct b; [reflexivity|]
         end.
  rewrite (expertSong_expert c r m song Hm Ht Hone Hsong Htruthy).
  rewrite (attemptedPlayersOf_listed r song pid Hinc), Hinc.
  reflexivity.
Qed.

(** C7 (as amended).  Under expert mode with [oneAttemptPerSong] and a
    current song, for an identified caller:
    - a caller already listed in [songAttempts] for the current song is
      turned away and nothing is written; being listed for other songs
      plays no part;
    - a caller who meets a closed buzz or an existing winner is turned
      away before the expert block: no attempt is recorded;
    - otherwise, when the name of the current song is one the database
      takes as a key (and no name every object inherits), the call first
      writes [songAttempts] with the caller appended to the list of the
      current song, then issues the winner update; the lists of the other
      songs are as in the snapshot; and a later call of the same
      participant for the same song, on a snapshot showing that write, is
      turned away without a second insertion. *)
Theorem expert_attempts (c : Ctx) (r : RoomData) (m : GameMode.t)
    (song pid pname : string) (inputPlayerId inputPlayerName : option string) (now : Z) :
  truthyS (roomCode c) = true ->
  roomData c = Some r ->
  orS inputPlayerId (playerId c) = Some pid ->
  orS inputPlayerName (playerName c) = Some pname ->
  truthyS (Some pid) = true ->
  truthyS (Some pname) = true ->
  currentGameMode c = Some m ->
  GameMode.type m = expert ->
  oneAttemptPerSong (GameMode.settings m) = Some true ->
  currentSong r = Some song ->
  truthyS (Some song) = true ->
  let es := handleBuzz c inputPlayerId inputPlayerName now in
  let attempted := default [] (songAttempts r !! song) in
  (includes pid attempted = true -> es = []) /\
  (buzzEnabled r <> Some true \/ winnerInfo r <> None -> es = []) /\
  (validKey song = true -> inheritedKey song = false ->
   includes pid attempted = false -> buzzEnabled r = Some true -> winnerInfo r = None ->
     es = Store (UpdRoom [ FSongAttempts (<[song := attempted ++ [pid]]> (songAttempts r)) ])
          :: winnerWrites pid pname now /\
     forall services,
       songAttempts (run services es r) !! song = Some (attempted ++ [pid]) /\
       (forall other, other <> song ->
          songAttempts (run services es r) !! other = songAttempts r !! other) /\
       (forall c2 r2 in2 name2 now2,
          roomData c2 = Some r2 ->
          orS in2 (playerId c2) = Some pid ->
          currentGameMode c2 = Some m ->
          currentSong r2 = Some song ->
          songAttempts r2 = songAttempts (run services es r) ->
          handleBuzz c2 in2 name2 now2 = [])).
Proof.
  intros Hcode Hroom Hid Hname Hpid Hpname Hm Ht Hone Hsong Htruthy es attempted.
  assert (Hes : es = _) by (exact (handleBuzz_identified c r pid pname _ _ now
                                     Hcode Hroom Hid Hname Hpid Hpname)).
  rewrite (expert_not_turnBased c r m pid Hm Ht) in Hes.
  rewrite (expertSong_expert c r m song Hm Ht Hone Hsong Htruthy) in Hes.
  clearbody es.
  split; [|split].
  - intros Hinc. rewrite Hes, (attemptedPlayersOf_listed r song pid Hinc).
    fold attempted. rewrite Hinc.
    destruct (negb (truthyB (buzzEnabled r))), (truthyO (winnerInfo r)); reflexivity.
  - intros Hclosed. rewrite Hes.
    destruct (buzzEnabled r) as [[|]|]; simpl; try reflexivity.
    destruct (winnerInfo r); simpl; [reflexivity|].
    destruct Hclosed as [H|H]; congruence.
  - intros Hvalid Hown Hinc Hen Hwin.
    rewrite (attemptedPlayersOf_plain r song Hown) in Hes. fold attempted in Hes.
    rewrite Hen, Hwin, Hinc, Hvalid in Hes. simpl in Hes.
    split; [exact Hes|]. intros services.
    assert (Hatt : songAttempts (run services es r) =
                   <[song := attempted ++ [pid]]> (songAttempts r))
      by (rewrite Hes; reflexivity).
    split; [rewrite Hatt; apply lookup_insert_eq|].
    split; [intros other Hne; rewrite Hatt; apply lookup_insert_ne; congruence|].
    intros c2 r2 in2 name2 now2 Hroom2 Hid2 Hm2 Hsong2 Hatt2.
    apply (expert_denied c2 r2 m song pid in2 name2 now2
             Hroom2 Hid2 Hm2 Ht Hone Hsong2 Htruthy).
    rewrite Hatt2, Hatt, lookup_insert_eq. apply includes_snoc.
Qed.

(** C7, witness: guest A's first buzz on the song "one". *)
Lemma expert_attempts_witness :
  GameMode.type expertMode = expert /\
  validKey "one" = true /\
  includes "a" (default [] (songAttempts Scenario.expertOpen !! "one")) = false /\
  songAttempts Scenario.expertWon !! "one" = Some [ "a" ] /\
  handleBuzz (Scenario.guestCtx "a" "A" (Some expertMode) Scenario.expertWon)
    None None 7 = [].
Proof.
  split; [reflexivity|]. split; [reflexivity|]. split; [reflexivity|].
  destruct (expert_attempts
              (Scenario.guestCtx "a" "A" (Some expertMode) Scenario.expertOpen)
              Scenario.expertOpen expertMode "one" "a" "A" None None 5
              eq_refl eq_refl eq_refl eq_refl eq_refl eq_refl
              eq_refl eq_refl eq_refl eq_refl eq_refl) as (_ & _ & H).
  destruct (H eq_refl eq_refl eq_refl eq_refl eq_refl) as (_ & Hrun).
  destruct (Hrun Scenario.services) as (Hsong & _ & Hagain).
  split; [exact Hsong|].
  exact (Hagain (Scenario.guestCtx "a" "A" (Some expertMode) Scenario.expertWon)
           Scenario.expertWon None None 7 eq_refl eq_refl eq_refl eq_refl eq_refl).
Defined.

(** C7 as stated fails: the insertion does not come before the winner
    check.  Guest B, who has not tried the song "one", calls while the
    buzz is open and A's win is still standing; the call stops at the
    winner check and B is not recorded. *)
Lemma expert_attempts_counterexample :
  buzzEnabled Scenario.expertReopened = Some true /\
  winnerInfo Scenario.expertReopened = Some (WinnerInfo.mk "a" "A" 5 None) /\
  songAttempts Scenario.expertReopened !! "one" = Some [ "a" ] /\
  handleBuzz (Scenario.guestCtx "b" "B" (Some expertMode) Scenario.expertReopened)
    None None 7 = [] /\
  songAttempts
    (run Scenario.services
       (handleBuzz (Scenario.guestCtx "b" "B" (Some expertMode) Scenario.expertReopened)
          None None 7) Scenario.expertReopened) !! "one" = Some [ "a" ].
Proof. repeat split. Qed.

(** Listed for the song "one", guest A is let in on the song "two". *)
Example expert_other_song :
  songAttempts Scenario.expertNextSong !! "one" = Some [ "a" ] /\
  accepted (handleBuzz (Scenario.guestCtx "a" "A" (Some expertMode) Scenario.expertNextSong)
              None None 9) = true.
Proof. repeat split. Qed.

(** ** C8: the buzz during a countdown *)

Lemma handleBuzz_disabled (c : Ctx) (r : RoomData)
    (inputPlayerId inputPlayerName : option string) (now : Z) :
  roomData c = Some r ->
  truthyB (buzzEnabled r) = false ->
  handleBuzz c inputPlayerId inputPlayerName now = [].
Proof.
  intros Hroom Hen. unfold handleBuzz. rewrite Hroom.
  destruct (orS inputPlayerId (playerId c)) as [pid|]; [|reflexivity].
  destruct (orS inputPlayerName (playerName c)) as [pname|]; [|reflexivity].
  match goal with
  | |- (if ?b then [] else _) = [] => destruct b; [reflexivity|]
  end.
  rewrite Hen. reflexivity.
Qed.

(** C8 (as amended).  [handleBuzz] does not read the countdown node; what
    keeps the buzz closed during a countdown is the [buzzEnabled: false]
    write [startCountdown] issues before its first countdown write.  At
    every point of a countdown run past that write at which the room shows
    the countdown active, [buzzEnabled] is false and every call of
    [handleBuzz] on that room, whatever the caller and the mode, is turned
    away. *)
Theorem countdown_keeps_buzz_closed (services : ServiceCall -> RoomData -> RoomData)
    (c : Ctx) (now : Z) (s : RoomData) (n : nat) :
  truthyS (roomCode c) = true ->
  isHost c = true ->
  In (Store (UpdRoom [ FBuzzEnabled false; FLastBuzzActivity now ]))
     (take n (startCountdown c now)) ->
  countdownActive (run services (take n (startCountdown c now)) s) = true ->
  buzzEnabled (run services (take n (startCountdown c now)) s) = Some false /\
  forall c2 in2 name2 now2,
    roomData c2 = Some (run services (take n (startCountdown c now)) s) ->
    handleBuzz c2 in2 name2 now2 = [].
Proof.
  intros Hcode Hhost. rewrite (startCountdown_host c now Hcode Hhost).
  intros Hin Hact.
  assert (Hclosed : buzzEnabled
            (run services
               (take n
                  [ Emit "disableBuzzForSong";
                    Store (UpdRoom [ FBuzzEnabled false; FLastBuzzActivity now ]);
                    Store (UpdCountdown [ CIsActive true; CValue 3; CStartTime (Some now) ]);
                    Store (UpdCountdown [ CIsActive true; CValue 3; CStartTime (Some now) ]);
                    Sleep 1000;
                    Store (UpdCountdown [ CIsActive true; CValue 2;
                                          CStartTime (Some (now + 1000)) ]);
                    Sleep 1000;
                    Store (UpdCountdown [ CIsActive true; CValue 1;
                                          CStartTime (Some (now + 1000 + 1000)) ]);
                    Sleep 1000;
                    Store (UpdCountdown [ CIsActive false; CValue 0 ]);
                    Emit "enableBuzzForSong";
                    Store (UpdRoom [ FBuzzEnabled true; FLastBuzzActivity (now + 3000) ]) ])
               s) = Some false).
  { do 13 (destruct n as [|n];
           [ first [ discriminate Hact
                   | solve [ cbn in Hin; intuition discriminate ]
                   | reflexivity ] |]).
    discriminate Hact. }
  split; [exact Hclosed|].
  intros c2 in2 name2 now2 Hroom2.
  apply (handleBuzz_disabled c2 _ in2 name2 now2 Hroom2).
  rewrite Hclosed. reflexivity.
Qed.

(** C8, witness: the scenario room after the tick of value 2. *)
Lemma countdown_keeps_buzz_closed_witness :
  countdownActive Scenario.midCountdown = true /\
  buzzEnabled Scenario.midCountdown = Some false /\
  handleBuzz (Scenario.guestCtx "a" "A" (Some classicMode) Scenario.midCountdown)
    None None 1200 = [].
Proof.
  split; [reflexivity|].
  destruct (countdown_keeps_buzz_closed Scenario.services
              (Scenario.hostCtx (Some classicMode) (Scenario.openRoom classicMode)) 100
              (Scenario.openRoom classicMode) 6 eq_refl eq_refl
              ltac:(simpl; tauto) eq_refl) as [Hclosed Hdenied].
  split; [exact Hclosed|].
  exact (Hdenied (Scenario.guestCtx "a" "A" (Some classicMode) Scenario.midCountdown)
           None None 1200 eq_refl).
Defined.

(** C8 as stated fails: the host calls [enableBuzz] in the middle of a
    countdown; the room shows the countdown active, and guest A's signal
    is accepted. *)
Lemma countdown_keeps_buzz_closed_counterexample :
  countdownActive Scenario.midCountdownReopened = true /\
  (Countdown.value <$> countdown Scenario.midCountdownReopened) = Some (Some 2) /\
  accepted (handleBuzz (Scenario.guestCtx "a" "A" (Some classicMode)
                          Scenario.midCountdownReopened) None None 1600) = true.
Proof. repeat split. Qed.

(** ** C9: host-only functions *)

Lemma guard_not_host (c : Ctx) :
  isHost c = false -> negb (truthyS (roomCode c)) || negb (isHost c) = true.
Proof. intros ->. apply orb_true_r. Qed.

Lemma adjudicationTarget_not_host (c : Ctx) :
  isHost c = false -> adjudicationTarget c = None.
Proof. intros H. unfold adjudicationTarget. rewrite (guard_not_host c H). reflexivity. Qed.

(** C9.  Called by a client whose player record is not marked [isHost]
    (or that has no player record), [setGameMode], [enableBuzz],
    [disableBuzz], [startCountdown], [stopCountdown], [handleResetBuzz]
    and the adjudication functions [awardCorrectAnswer], [awardWrongAnswer],
    [awardSuperAnswer], [awardPoints], [subtractPlayerPoints] and
    [rejectAnswer] issue no effect at all: no write, no service call, and
    the room stays as it is. *)
Theorem host_only_functions (c : Ctx) (mode : GameMode.t) (amount : option Z) (now : Z) :
  isHost c = false ->
  silent (setGameMode c mode now) /\
  silent (enableBuzz c now) /\
  silent (disableBuzz c now) /\
  silent (startCountdown c now) /\
  silent (stopCountdown c) /\
  silent (handleResetBuzz c) /\
  silent (awardCorrectAnswer c now) /\
  silent (awardWrongAnswer c now) /\
  silent (awardSuperAnswer c now) /\
  silent (awardPoints c amount now) /\
  silent (subtractPlayerPoints c amount now) /\
  silent (rejectAnswer c now).
Proof.
  intros Hnot.
  pose proof (guard_not_host c Hnot) as Hguard.
  pose proof (adjudicationTarget_not_host c Hnot) as Htarget.
  unfold setGameMode, enableBuzz, disableBuzz, enableBuzzWrites, disableBuzzWrites,
    startCountdown, stopCountdown, handleResetBuzz, awardCorrectAnswer,
    awardWrongAnswer, awardSuperAnswer, awardPoints, subtractPlayerPoints, rejectAnswer.
  rewrite Hguard, Htarget, Hnot.
  rewrite !orb_true_r.
  repeat split; try reflexivity.
Qed.

(** C9, witness: guest A of the scenario room. *)
Lemma host_only_functions_witness :
  isHost (Scenario.guestCtx "a" "A" (Some classicMode) Scenario.wonRoom) = false /\
  silent (awardCorrectAnswer
            (Scenario.guestCtx "a" "A" (Some classicMode) Scenario.wonRoom) 9) /\
  silent (startCountdown
            (Scenario.guestCtx "a" "A" (Some classicMode) Scenario.wonRoom) 9).
Proof.
  split; [reflexivity|].
  pose proof (host_only_functions
                (Scenario.guestCtx "a" "A" (Some classicMode) Scenario.wonRoom)
                turnBasedMode None 9 eq_refl) as H.
  split; [exact (proj1 (proj2 (proj2 (proj2 (proj2 (proj2 (proj2 H))))))) |].
  exact (proj1 (proj2 (proj2 (proj2 H)))).
Defined.

(** ** C10: what a reset forgets *)

(** C10.  The host resets the buzz under expert mode with a current song:
    whatever the service calls do, the room ends with the [songAttempts]
    of the host's snapshot minus the entry of the current song; on the
    room the snapshot was taken from, the entry of the current song is
    gone and the entry of every other song is what it was. *)
Theorem handleResetBuzz_forgets_current_song
    (services : ServiceCall -> RoomData -> RoomData)
    (c : Ctx) (r : RoomData) (m : GameMode.t) (song : string) :
  truthyS (roomCode c) = true ->
  isHost c = true ->
  roomData c = Some r ->
  currentGameMode c = Some m ->
  GameMode.type m = expert ->
  currentSong r = Some song ->
  truthyS (Some song) = true ->
  (forall s, songAttempts (run services (handleResetBuzz c) s) =
               delete song (songAttempts r)) /\
  songAttempts (run services (handleResetBuzz c) r) !! song = None /\
  (forall other, other <> song ->
     songAttempts (run services (handleResetBuzz c) r) !! other =
       songAttempts r !! other).
Proof.
  intros Hcode Hhost Hroom Hm Ht Hsong Htruthy.
  assert (Hall : forall s, songAttempts (run services (handleResetBuzz c) s) =
                             delete song (songAttempts r)).
  { intros s. unfold handleResetBuzz.
    rewrite Hcode, Hhost, Hm, Hroom, Ht, Hsong, Htruthy. reflexivity. }
  split; [exact Hall|]. rewrite Hall.
  split; [apply lookup_delete_eq|].
  intros other Hne. apply lookup_delete_ne. congruence.
Qed.

(** C10, witness: the expert room after guest A's buzz on the song
    "one", which also remembers an attempt on an earlier song. *)
Lemma handleResetBuzz_forgets_current_song_witness :
  isHost (Scenario.hostCtx (Some expertMode) Scenario.expertHistory) = true /\
  songAttempts Scenario.expertHistory !! "zero" = Some [ "b" ] /\
  songAttempts Scenario.expertHistory !! "one" = Some [ "a" ] /\
  songAttempts (run Scenario.services
                  (handleResetBuzz (Scenario.hostCtx (Some expertMode) Scenario.expertHistory))
                  Scenario.expertHistory) !! "one" = None /\
  songAttempts (run Scenario.services
                  (handleResetBuzz (Scenario.hostCtx (Some expertMode) Scenario.expertHistory))
                  Scenario.expertHistory) !! "zero" = Some [ "b" ].
Proof.
  split; [reflexivity|]. split; [reflexivity|]. split; [reflexivity|].
  destruct (handleResetBuzz_forgets_current_song Scenario.services
              (Scenario.hostCtx (Some expertMode) Scenario.expertHistory)
              Scenario.expertHistory expertMode "one"
              eq_refl eq_refl eq_refl eq_refl eq_refl eq_refl eq_refl)
    as (_ & Hgone & Hkept).
  split; [exact Hgone|].
  rewrite (Hkept "zero" ltac:(discriminate)). reflexivity.
Defined.

(** * Further properties of the room functions *)

(** ** handleBuzz: what a call can and cannot write *)

(** A call of [handleBuzz] issues nothing, or the winner writes, or the
    expert insertion followed by the winner writes. *)
Lemma handleBuzz_shape (c : Ctx) (inputPlayerId inputPlayerName : option string) (now : Z) :
  handleBuzz c inputPlayerId inputPlayerName now = [] \/
  (exists pid pname,
     handleBuzz c inputPlayerId inputPlayerName now = winnerWrites pid pname now) \/
  (exists m pid pname,
     handleBuzz c inputPlayerId inputPlayerName now =
       Store (UpdRoom [ FSongAttempts m ]) :: winnerWrites pid pname now).
Proof.
  unfold handleBuzz.
  destruct (roomData c) as [r|]; [|left; reflexivity].
  destruct (orS inputPlayerId (playerId c)) as [pid|]; [|left; reflexivity].
  destruct (orS inputPlayerName (playerName c)) as [pname|]; [|left; reflexivity].
  repeat match goal with
         | |- (if ?b then [] else _) = [] \/ _ => destruct b; [left; reflexivity|]
         end.
  destruct (expertSong c r) as [song|].
  - destruct (attemptedPlayersOf r song) as [attempted|]; [|left; reflexivity].
    destruct (includes pid attempted); [left; reflexivity|].
    destruct (validKey song); [|left; reflexivity].
    right. right. eauto.
  - right. left. eauto.
Qed.

(** X1.  Whatever the caller, the arguments and the room, a call of
    [handleBuzz] leaves the players (their points, streaks and counters),
    the game mode, the current song, the turn, the countdown and the team
    turn of the room as they are: it can only write the winner, the buzz
    flag, the song attempts and the background-music control. *)
Theorem handleBuzz_frame (services : ServiceCall -> RoomData -> RoomData)
    (c : Ctx) (inputPlayerId inputPlayerName : option string) (now : Z) (s : RoomData) :
  players (run services (handleBuzz c inputPlayerId inputPlayerName now) s) = players s /\
  gameMode (run services (handleBuzz c inputPlayerId inputPlayerName now) s) = gameMode s /\
  currentSong (run services (handleBuzz c inputPlayerId inputPlayerName now) s) =
    currentSong s /\
  currentTurn (run services (handleBuzz c inputPlayerId inputPlayerName now) s) =
    currentTurn s /\
  countdown (run services (handleBuzz c inputPlayerId inputPlayerName now) s) =
    countdown s /\
  currentTeamTurn (run services (handleBuzz c inputPlayerId inputPlayerName now) s) =
    currentTeamTurn s.
Proof.
  destruct (handleBuzz_shape c inputPlayerId inputPlayerName now)
    as [-> | [(pid & pname & ->) | (m & pid & pname & ->)]];
    repeat split.
Qed.

(** X2.  Who a call buzzes for.  Non-empty arguments replace the caller's
    own identity altogether: the call behaves as the call, without
    arguments, of a client whose [playerId] and [playerName] are the
    arguments, and the winner it records is the player named by the
    arguments.  Empty arguments fall back to the caller's identity. *)
Theorem handleBuzz_identity (services : ServiceCall -> RoomData -> RoomData)
    (c : Ctx) (id nm : string) (now : Z) (s : RoomData) :
  truthyS (Some id) = true ->
  truthyS (Some nm) = true ->
  handleBuzz c (Some id) (Some nm) now =
    handleBuzz (mkCtx (roomCode c) (Some id) (Some nm) (roomData c) (currentGameMode c))
      None None now /\
  handleBuzz c (Some EmptyString) (Some EmptyString) now = handleBuzz c None None now /\
  (accepted (handleBuzz c (Some id) (Some nm) now) = true ->
     winnerInfo (run services (handleBuzz c (Some id) (Some nm) now) s) =
       Some (WinnerInfo.mk id nm now None)).
Proof.
  intros Hid Hnm.
  assert (Hshape : handleBuzz c (Some id) (Some nm) now = [] \/
            handleBuzz c (Some id) (Some nm) now = winnerWrites id nm now \/
            exists m, handleBuzz c (Some id) (Some nm) now =
                        Store (UpdRoom [ FSongAttempts m ]) :: winnerWrites id nm now).
  { unfold handleBuzz, orS. rewrite Hid, Hnm.
    destruct (roomData c) as [r|]; [|left; reflexivity].
    repeat match goal with
           | |- (if ?b then [] else _) = [] \/ _ => destruct b; [left; reflexivity|]
           end.
    destruct (expertSong c r) as [song|].
    - destruct (attemptedPlayersOf r song) as [attempted|]; [|left; reflexivity].
      destruct (includes id attempted); [left; reflexivity|].
      destruct (validKey song); [|left; reflexivity].
      right. right. eauto.
    - right. left. reflexivity. }
  split; [|split].
  - unfold handleBuzz, orS, turnDenies, expertSong. rewrite Hid, Hnm. reflexivity.
  - reflexivity.
  - destruct Hshape as [-> | [-> | (m & ->)]]; [discriminate | reflexivity | reflexivity].
Qed.

(** X2, witness: the host's client buzzes for guest B. *)
Lemma handleBuzz_identity_witness :
  playerId (Scenario.hostCtx (Some classicMode) (Scenario.openRoom classicMode)) = Some "h" /\
  winnerInfo (run Scenario.services
                (handleBuzz (Scenario.hostCtx (Some classicMode)
                               (Scenario.openRoom classicMode)) (Some "b") (Some "B") 5)
                (Scenario.openRoom classicMode)) =
    Some (WinnerInfo.mk "b" "B" 5 None).
Proof.
  split; [reflexivity|].
  exact (proj2 (proj2 (handleBuzz_identity Scenario.services
                         (Scenario.hostCtx (Some classicMode) (Scenario.openRoom classicMode))
                         "b" "B" 5 (Scenario.openRoom classicMode) eq_refl eq_refl))
           eq_refl).
Defined.

(** ** Expert mode on the files of the audio player *)

Lemma lowerAscii_dot (a : ascii) : lowerAscii a = "."%char -> a = "."%char.
Proof.
  destruct a as [[] [] [] [] [] [] [] []]; vm_compute; intros H;
    first [reflexivity | discriminate H].
Qed.

(** A name the file filter lets in holds a dot. *)
Lemma hasAudioExtension_dot (file : string) :
  hasAudioExtension file = true -> In "."%char (String.list_ascii_of_string file).
Proof.
  unfold hasAudioExtension, extensionOf.
  set (l := String.list_ascii_of_string file).
  intros H. apply existsb_exists in H as (e & He & Hb).
  apply bool_decide_eq_true in Hb.
  assert (Hhead : exists rest, map lowerAscii (drop (length l - 4) l) = "."%char :: rest).
  { simpl in He. destruct He as [<-|[<-|[<-|[]]]]; rewrite Hb; eexists; reflexivity. }
  destruct Hhead as (rest & Hrest).
  destruct (drop (length l - 4) l) as [|a tail] eqn:Hd; [discriminate|].
  simpl in Hrest. injection Hrest as Ha _. apply lowerAscii_dot in Ha. subst a.
  rewrite <- (take_drop (length l - 4) l). apply in_or_app. right.
  rewrite Hd. left. reflexivity.
Qed.

(** Such a name is no key of the database. *)
Lemma hasAudioExtension_validKey (file : string) :
  hasAudioExtension file = true -> validKey file = false.
Proof.
  intros H. apply hasAudioExtension_dot in H.
  destruct (validKey file) eqn:Hv; [|reflexivity].
  unfold validKey in Hv. apply andb_true_iff in Hv as [_ Hall].
  rewrite forallb_forall in Hall. specialize (Hall _ H). discriminate Hall.
Qed.

Lemma hasAudioExtension_truthy (file : string) :
  hasAudioExtension file = true -> truthyS (Some file) = true.
Proof. destruct file; [discriminate | reflexivity]. Qed.

(** No name every object inherits is a file name of the player. *)
Lemma hasAudioExtension_own (file : string) :
  hasAudioExtension file = true -> inheritedKey file = false.
Proof.
  intros H. destruct (inheritedKey file) eqn:Hi; [|reflexivity].
  unfold inheritedKey in Hi. apply existsb_exists in Hi as (k & Hk & Heq).
  apply String.eqb_eq in Heq. subst k. simpl in Hk.
  repeat (destruct Hk as [<-|Hk]; [vm_compute in H; discriminate H|]).
  destruct Hk.
Qed.

(** The expert block on a song named as a file of the player: whatever
    the snapshot lists, the call issues nothing. *)
Lemma expert_file_denied (c : Ctx) (r : RoomData) (m : GameMode.t) (file : string)
    (inputPlayerId inputPlayerName : option string) (now : Z) :
  roomData c = Some r ->
  currentGameMode c = Some m ->
  GameMode.type m = expert ->
  oneAttemptPerSong (GameMode.settings m) = Some true ->
  currentSong r = Some file ->
  hasAudioExtension file = true ->
  handleBuzz c inputPlayerId inputPlayerName now = [].
Proof.
  intros Hroom Hm Ht Hone Hsong Hfile.
  unfold handleBuzz. rewrite Hroom.
  destruct (orS inputPlayerId (playerId c)) as [pid|]; [|reflexivity].
  destruct (orS inputPlayerName (playerName c)) as [pname|]; [|reflexivity].
  repeat match goal with
         | |- (if ?b then [] else _) = [] => destruct b; [reflexivity|]
         end.
  rewrite (expertSong_expert c r m file Hm Ht Hone Hsong
             (hasAudioExtension_truthy file Hfile)).
  rewrite (hasAudioExtension_validKey file Hfile).
  destruct (attemptedPlayersOf r file) as [attempted|]; [|reflexivity].
  destruct (includes pid attempted); reflexivity.
Qed.

(** X3.  Expert mode lets no buzz through on a song the audio player
    started.  The current song the [play] listener writes is the name of
    the file, and the files of the player are those named [*.mp3], [*.wav]
    or [*.ogg]: names with a dot, which the database does not take as
    keys.  Under expert mode with [oneAttemptPerSong] the attempt record
    of [handleBuzz] uses the current song as a key, so on such a song every
    call, whoever makes it and whatever the buzz flag and the winner are,
    issues nothing: no attempt is recorded and no winner. *)
Theorem expert_file_name_blocks_buzz (services : ServiceCall -> RoomData -> RoomData)
    (c : Ctx) (file : string) (now : Z) (s : RoomData) :
  truthyS (roomCode c) = true ->
  hasAudioExtension file = true ->
  validKey file = false /\
  currentSong (run services (onPlay c left file now) s) = Some file /\
  forall c2 r2 m in2 name2 now2,
    roomData c2 = Some r2 ->
    currentGameMode c2 = Some m ->
    GameMode.type m = expert ->
    oneAttemptPerSong (GameMode.settings m) = Some true ->
    currentSong r2 = Some file ->
    handleBuzz c2 in2 name2 now2 = [] /\
    accepted (handleBuzz c2 in2 name2 now2) = false.
Proof.
  intros Hcode Hfile.
  split; [exact (hasAudioExtension_validKey file Hfile)|].
  split.
  - unfold onPlay, advanceTurn, dispatchDisableBuzzForSong, dispatchEnableBuzzForSong,
      onDisableBuzzForSong, onEnableBuzzForSong, enableBuzzWrites, disableBuzzWrites.
    rewrite Hcode. cbn [andb negb orb app].
    destruct (isHost c); cbn [andb negb orb map app];
      repeat first
        [ reflexivity
        | match goal with
          | |- context [ match ?x with _ => _ end ] => destruct x; cbn [andb negb orb map app]
          end ].
  - intros c2 r2 m in2 name2 now2 Hroom2 Hm2 Ht2 Hone2 Hsong2.
    rewrite (expert_file_denied c2 r2 m file in2 name2 now2
               Hroom2 Hm2 Ht2 Hone2 Hsong2 Hfile).
    split; reflexivity.
Qed.

(** X3, witness: the host starts "one.mp3" on an open expert room; the
    buzz is open, nobody has won or tried, and guest A's buzz does
    nothing. *)
Lemma expert_file_name_blocks_buzz_witness :
  currentSong Scenario.expertFile = Some "one.mp3" /\
  buzzEnabled Scenario.expertFile = Some true /\
  winnerInfo Scenario.expertFile = None /\
  songAttempts Scenario.expertFile = ∅ /\
  handleBuzz (Scenario.guestCtx "a" "A" (Some expertMode) Scenario.expertFile)
    None None 60 = [].
Proof.
  destruct (expert_file_name_blocks_buzz Scenario.services
              (Scenario.hostCtx (Some expertMode) (Scenario.openRoom expertMode))
              "one.mp3" 50 (Scenario.openRoom expertMode) eq_refl eq_refl)
    as (_ & Hsong & Hdenied).
  split; [exact Hsong|]. split; [reflexivity|]. split; [reflexivity|].
  split; [reflexivity|].
  exact (proj1 (Hdenied (Scenario.guestCtx "a" "A" (Some expertMode) Scenario.expertFile)
                  Scenario.expertFile expertMode None None 60
                  eq_refl eq_refl eq_refl eq_refl Hsong)).
Defined.

(** ** Adjudication: the bonus path, the buzz afterwards, the missing target *)

Lemma awardSuperAnswer_player (services : ServiceCall -> RoomData -> RoomData)
    (c : Ctx) (r : RoomData) (w : WinnerInfo.t) (p : Player.t) (now : Z) :
  (forall s, players (services RejectPlayerAnswer s) = players s) ->
  truthyS (roomCode c) = true ->
  isHost c = true ->
  roomData c = Some r ->
  winnerInfo r = Some w ->
  lookupPlayer (WinnerInfo.playerId w) (players r) = Some p ->
  lookupPlayer (WinnerInfo.playerId w)
      (players (run services (awardSuperAnswer c now) r)) =
    Some (fold_left applyPlayerField (correctFields p 20 now) p).
Proof.
  intros Hsvc Hcode Hhost Hroom Hwin Hplayer.
  unfold awardSuperAnswer.
  rewrite (adjudicationTarget_host c r w Hcode Hhost Hroom Hwin),
    (playersGet_own _ _ _ Hplayer).
  change (run services (?a :: ?b :: ?l) r)
    with (run services l (services RejectPlayerAnswer (step services r a))).
  rewrite players_disableBuzz, Hsvc.
  exact (lookupPlayer_updatePlayer _ _ _ _ Hplayer).
Qed.

(** X4.  [awardSuperAnswer] gives the winner 20 points whatever the
    mode's [pointsCorrect] is, and counts as a correct answer: streak
    raised by one, best streak the maximum of the old best and the new
    streak, one more correct answer, wrong answers untouched. *)
Theorem awardSuperAnswer_scores (services : ServiceCall -> RoomData -> RoomData)
    (c : Ctx) (r : RoomData) (w : WinnerInfo.t) (p : Player.t) (now : Z) :
  (forall s, players (services RejectPlayerAnswer s) = players s) ->
  truthyS (roomCode c) = true ->
  isHost c = true ->
  roomData c = Some r ->
  winnerInfo r = Some w ->
  lookupPlayer (WinnerInfo.playerId w) (players r) = Some p ->
  exists ps,
    lookupPlayer (WinnerInfo.playerId w)
      (players (run services (awardSuperAnswer c now) r)) = Some ps /\
    Player.points ps = Some (orZ (Player.points p) 0 + 20) /\
    Player.currentStreak ps = Some (orZ (Player.currentStreak p) 0 + 1) /\
    Player.bestStreak ps =
      Some (Z.max (orZ (Player.bestStreak p) 0) (orZ (Player.currentStreak p) 0 + 1)) /\
    Player.correctAnswers ps = Some (orZ (Player.correctAnswers p) 0 + 1) /\
    Player.wrongAnswers ps = Player.wrongAnswers p /\
    Player.name ps = Player.name p /\
    Player.isHost ps = Player.isHost p.
Proof.
  intros Hsvc Hcode Hhost Hroom Hwin Hplayer.
  eexists. split.
  { exact (awardSuperAnswer_player services c r w p now
             Hsvc Hcode Hhost Hroom Hwin Hplayer). }
  split; [reflexivity|]. split; [reflexivity|].
  split; [simpl; f_equal; apply Z.max_comm|].
  repeat split.
Qed.

(** X4, witness: guest A's win on the classic room (10 per correct
    answer) judged excellent. *)
Lemma awardSuperAnswer_scores_witness :
  modePointsCorrect (Scenario.hostCtx (Some classicMode) Scenario.wonRoom) = Some 10 /\
  exists ps,
    lookupPlayer "a"
      (players (run Scenario.services
                  (awardSuperAnswer (Scenario.hostCtx (Some classicMode) Scenario.wonRoom) 9)
                  Scenario.wonRoom)) = Some ps /\
    Player.points ps = Some 20.
Proof.
  split; [reflexivity|].
  destruct (awardSuperAnswer_scores Scenario.services
              (Scenario.hostCtx (Some classicMode) Scenario.wonRoom) Scenario.wonRoom
              (WinnerInfo.mk "a" "A" 5 None) (Scenario.guest "A" 1) 9
              (fun s => eq_refl) eq_refl eq_refl eq_refl eq_refl eq_refl)
    as (ps & Hps & Hpoints & _).
  exists ps. split; [exact Hps | exact Hpoints].
Defined.

(** X5.  Every adjudication of the host ends with the buzz closed: after
    [awardCorrectAnswer], [awardWrongAnswer], [awardSuperAnswer],
    [awardPoints], [subtractPlayerPoints] or [rejectAnswer], whatever the
    service calls did, the room has [buzzEnabled] false, and every call of
    [handleBuzz] on that room is turned away until the buzz is reopened. *)
Theorem adjudication_closes_buzz (services : ServiceCall -> RoomData -> RoomData)
    (c : Ctx) (r : RoomData) (w : WinnerInfo.t) (p : Player.t)
    (amount : option Z) (now : Z) :
  truthyS (roomCode c) = true ->
  isHost c = true ->
  roomData c = Some r ->
  winnerInfo r = Some w ->
  lookupPlayer (WinnerInfo.playerId w) (players r) = Some p ->
  Forall (fun es =>
            forall s,
              buzzEnabled (run services es s) = Some false /\
              forall c2 in2 name2 now2,
                roomData c2 = Some (run services es s) ->
                handleBuzz c2 in2 name2 now2 = [])
         [ awardCorrectAnswer c now; awardWrongAnswer c now; awardSuperAnswer c now;
           awardPoints c amount now; subtractPlayerPoints c amount now;
           rejectAnswer c now ].
Proof.
  intros Hcode Hhost Hroom Hwin Hplayer.
  unfold awardCorrectAnswer, awardWrongAnswer, awardSuperAnswer, awardPoints,
    subtractPlayerPoints, rejectAnswer, disableBuzz.
  rewrite (adjudicationTarget_host c r w Hcode Hhost Hroom Hwin),
    (playersGet_own _ _ _ Hplayer).
  rewrite (host_disableBuzzWrites c now Hcode Hhost).
  repeat constructor;
    intros c2 in2 name2 now2 Hroom2;
    apply (handleBuzz_disabled c2 _ in2 name2 now2 Hroom2); reflexivity.
Qed.

(** X5, witness: guest A's win judged wrong; guest B's call on the room
    that results is turned away. *)
Lemma adjudication_closes_buzz_witness :
  winnerInfo Scenario.wonAgain = Some (WinnerInfo.mk "a" "A" 12 None) /\
  buzzEnabled Scenario.afterWrong = Some false /\
  handleBuzz (Scenario.guestCtx "b" "B" (Some classicMode) Scenario.afterWrong)
    None None 20 = [].
Proof.
  split; [reflexivity|].
  pose proof (adjudication_closes_buzz Scenario.services
                (Scenario.hostCtx (Some classicMode) Scenario.wonAgain) Scenario.wonAgain
                (WinnerInfo.mk "a" "A" 12 None)
                (Player.mk "A" false 1 (Some 10) (Some 1) (Some 1) (Some 1) None (Some 9))
                None 15 eq_refl eq_refl eq_refl eq_refl eq_refl) as H.
  apply Forall_cons_1 in H as [_ H]. apply Forall_cons_1 in H as [H _].
  destruct (H Scenario.wonAgain) as [Hclosed Hdenied].
  split; [exact Hclosed|].
  exact (Hdenied (Scenario.guestCtx "b" "B" (Some classicMode) Scenario.afterWrong)
           None None 20 eq_refl).
Defined.

(** The host's own record is in the room: the room has players. *)
Lemma host_room_not_empty (c : Ctx) (r : RoomData) :
  isHost c = true -> roomData c = Some r -> players r <> [].
Proof.
  intros Hhost Hroom. unfold isHost in Hhost. rewrite Hroom in Hhost.
  apply andb_true_iff in Hhost as [_ Hhost].
  destruct (playerId c) as [pid|]; [|discriminate].
  intros Hnil. rewrite Hnil in Hhost. discriminate.
Qed.

(** X6.  Adjudication without a target.  With no winner in the caller's
    snapshot none of the six adjudication functions issues anything.
    With a winner whose player record is no longer in the snapshot (the
    player left or was removed), [awardCorrectAnswer], [awardWrongAnswer]
    and [awardSuperAnswer] issue nothing either, so the winner stays and
    the buzz stays closed, while [rejectAnswer] of the host still clears
    the round.  The exception is a winner id that is a name every object
    inherits ([constructor], [toString], ...): the read of the record finds
    the inherited member, and the host's award goes on to write a player
    node under that id, counted from zero. *)
Theorem adjudication_without_target (c : Ctx) (r : RoomData) (amount : option Z) (now : Z) :
  roomData c = Some r ->
  (winnerInfo r = None ->
     silent (awardCorrectAnswer c now) /\ silent (awardWrongAnswer c now) /\
     silent (awardSuperAnswer c now) /\ silent (awardPoints c amount now) /\
     silent (subtractPlayerPoints c amount now) /\ silent (rejectAnswer c now)) /\
  (forall w,
     winnerInfo r = Some w ->
     lookupPlayer (WinnerInfo.playerId w) (players r) = None ->
     inheritedKey (WinnerInfo.playerId w) = false ->
     silent (awardCorrectAnswer c now) /\ silent (awardWrongAnswer c now) /\
     silent (awardSuperAnswer c now) /\
     (truthyS (roomCode c) = true -> isHost c = true ->
      rejectAnswer c now =
        [ Call RejectPlayerAnswer;
          Store (UpdRoom [ FBuzzEnabled false; FLastBuzzActivity now ]) ])) /\
  (forall w,
     winnerInfo r = Some w ->
     lookupPlayer (WinnerInfo.playerId w) (players r) = None ->
     inheritedKey (WinnerInfo.playerId w) = true ->
     truthyS (roomCode c) = true -> isHost c = true ->
     awardCorrectAnswer c now =
       [ Store (UpdPlayer (WinnerInfo.playerId w)
                  [ PPoints (0 + orZ (modePointsCorrect c) 10); PCurrentStreak 1;
                    PBestStreak 1; PCorrectAnswers 1; PLastAnswerTime now ]);
         Call RejectPlayerAnswer;
         Store (UpdRoom [ FBuzzEnabled false; FLastBuzzActivity now ]) ] /\
     awardWrongAnswer c now =
       [ Store (UpdPlayer (WinnerInfo.playerId w)
                  [ PPoints (Z.max 0 (0 - orZ (modePointsWrong c) 5)); PCurrentStreak 0;
                    PWrongAnswers 1; PLastAnswerTime now ]);
         Call RejectPlayerAnswer;
         Store (UpdRoom [ FBuzzEnabled false; FLastBuzzActivity now ]) ]).
Proof.
  intros Hroom. split; [|split].
  - intros Hwin.
    assert (Htarget : adjudicationTarget c = None).
    { unfold adjudicationTarget. rewrite Hroom, Hwin.
      destruct (negb (truthyS (roomCode c)) || negb (isHost c)); reflexivity. }
    unfold awardCorrectAnswer, awardWrongAnswer, awardSuperAnswer, awardPoints,
      subtractPlayerPoints, rejectAnswer.
    rewrite Htarget. repeat split.
  - intros w Hwin Hgone Hown.
    assert (Htarget : adjudicationTarget c = None \/ adjudicationTarget c = Some (r, w)).
    { unfold adjudicationTarget. rewrite Hroom, Hwin.
      destruct (negb (truthyS (roomCode c)) || negb (isHost c)); auto. }
    assert (Hget : playersGet (WinnerInfo.playerId w) (players r) = None).
    { unfold playersGet. rewrite Hgone, Hown. destruct (players r); reflexivity. }
    unfold awardCorrectAnswer, awardWrongAnswer, awardSuperAnswer, rejectAnswer.
    split; [|split; [|split]].
    1-3: destruct Htarget as [-> | ->]; [|rewrite Hget]; split; reflexivity.
    intros Hcode Hhost.
    rewrite (adjudicationTarget_host c r w Hcode Hhost Hroom Hwin).
    unfold disableBuzz. rewrite (host_disableBuzzWrites c now Hcode Hhost). reflexivity.
  - intros w Hwin Hgone Hinh Hcode Hhost.
    assert (Hget : playersGet (WinnerInfo.playerId w) (players r) = Some blankPlayer).
    { unfold playersGet. rewrite Hgone, Hinh.
      pose proof (host_room_not_empty c r Hhost Hroom) as Hne.
      destruct (players r); [contradiction | reflexivity]. }
    unfold awardCorrectAnswer, awardWrongAnswer, disableBuzz.
    rewrite (adjudicationTarget_host c r w Hcode Hhost Hroom Hwin), Hget.
    rewrite (host_disableBuzzWrites c now Hcode Hhost).
    split; reflexivity.
Qed.

(** X6, witness: the lobby, where nobody has buzzed; and the classic
    room after the host's client buzzed for an id that is not in the room,
    "ghost". *)
Lemma adjudication_without_target_witness :
  winnerInfo Scenario.lobby = None /\
  silent (awardCorrectAnswer (Scenario.hostCtx None Scenario.lobby) 3) /\
  silent (rejectAnswer (Scenario.hostCtx None Scenario.lobby) 3) /\
  winnerInfo Scenario.ghostWon = Some (WinnerInfo.mk "ghost" "Ghost" 5 None) /\
  lookupPlayer "ghost" (players Scenario.ghostWon) = None /\
  silent (awardCorrectAnswer (Scenario.hostCtx (Some classicMode) Scenario.ghostWon) 9).
Proof.
  split; [reflexivity|].
  destruct (adjudication_without_target (Scenario.hostCtx None Scenario.lobby)
              Scenario.lobby None 3 eq_refl) as [H _].
  destruct (H eq_refl) as (H1 & _ & _ & _ & _ & H6).
  split; [exact H1|]. split; [exact H6|].
  split; [reflexivity|]. split; [reflexivity|].
  destruct (adjudication_without_target
              (Scenario.hostCtx (Some classicMode) Scenario.ghostWon)
              Scenario.ghostWon None 9 eq_refl) as (_ & Hgone & _).
  exact (proj1 (Hgone (WinnerInfo.mk "ghost" "Ghost" 5 None) eq_refl eq_refl eq_refl)).
Defined.

(** ** stopCountdown *)

Lemma stopCountdown_host (c : Ctx) :
  truthyS (roomCode c) = true ->
  isHost c = true ->
  stopCountdown c = [ Store (UpdCountdown [ CIsActive false; CValue 0; CStartTime None ]) ].
Proof. intros Hcode Hhost. unfold stopCountdown. rewrite Hcode, Hhost. reflexivity. Qed.

(** Settles the comparisons of instants the hypotheses decide, and splits
    on the others. *)
Ltac settle_instants :=
  repeat match goal with
         | |- context [ ?a <=? ?b ] =>
             first [ rewrite (proj2 (Z.leb_le a b)) by lia
                   | rewrite (proj2 (Z.leb_gt a b)) by lia
                   | destruct (Z.leb_spec a b) ];
             cbn [insertTimed List.filter map fst snd]
         end.

Lemma sameFlag_eq (a b : option bool) : sameFlag a b = true <-> a = b.
Proof. destruct a as [[]|], b as [[]|]; simpl; split; congruence. Qed.

Lemma sameNumber_eq (a b : option Z) : sameNumber a b = true <-> a = b.
Proof.
  destruct a as [x|], b as [y|]; simpl; try (split; congruence).
  rewrite Z.eqb_eq. split; congruence.
Qed.

Lemma countdownChanged_same (a : option Countdown.t) : countdownChanged a a = false.
Proof.
  destruct a as [[ia va sa]|]; [|reflexivity]. unfold countdownChanged. simpl.
  rewrite (proj2 (sameFlag_eq ia ia) eq_refl), (proj2 (sameNumber_eq va va) eq_refl),
    (proj2 (sameNumber_eq sa sa) eq_refl). reflexivity.
Qed.

Lemma countdownChanged_diff (a b : option Countdown.t) :
  a <> b -> countdownChanged a b = true.
Proof.
  intros Hne. destruct a as [[ia va sa]|], b as [[ib vb sb]|];
    try reflexivity; [|contradiction].
  unfold countdownChanged. simpl. apply negb_true_iff.
  destruct (sameFlag ia ib) eqn:Hi; [|reflexivity].
  destruct (sameNumber va vb) eqn:Hv; [|reflexivity].
  destruct (sameNumber sa sb) eqn:Hs; [|reflexivity].
  apply sameFlag_eq in Hi. apply sameNumber_eq in Hv. apply sameNumber_eq in Hs.
  congruence.
Qed.

Lemma withCountdown_same (s : RoomData) (k : Countdown.t) :
  countdown s = Some k -> withCountdown s k = s.
Proof. destruct s; simpl; intros ->; reflexivity. Qed.

Lemma host_onCountdownValue_stopped (c : Ctx) (now : Z) (st : option Z) :
  truthyS (roomCode c) = true ->
  isHost c = true ->
  onCountdownValue c (Some (Countdown.mk (Some false) (Some 0) st)) now =
    [ UpdRoom [ FBuzzEnabled true; FLastBuzzActivity now ] ].
Proof.
  intros Hcode Hhost. unfold onCountdownValue, onEnableBuzzForSong.
  rewrite Hcode, Hhost, (host_enableBuzzWrites c now Hcode Hhost). reflexivity.
Qed.

(** X7.  [stopCountdown] of the host, on the host's client, where the
    audio player listens to the countdown node.  The call puts the node in
    the state [{isActive: false, value: 0}] without start time, whatever
    the node held, and leaves the winner, the players, the turn and the
    song attempts alone.  Unless the node was in that state already, the
    listener answers the change by opening the buzz: the room ends with
    [buzzEnabled] true.  On a node already stopped the call changes
    nothing, so a second call changes nothing more. *)
Theorem stopCountdown_opens_buzz (services : ServiceCall -> RoomData -> RoomData)
    (c : Ctx) (now now2 : Z) (s : RoomData) :
  truthyS (roomCode c) = true ->
  isHost c = true ->
  countdown (runHeard services c now (stopCountdown c) s) =
    Some (Countdown.mk (Some false) (Some 0) None) /\
  winnerInfo (runHeard services c now (stopCountdown c) s) = winnerInfo s /\
  players (runHeard services c now (stopCountdown c) s) = players s /\
  currentTurn (runHeard services c now (stopCountdown c) s) = currentTurn s /\
  songAttempts (runHeard services c now (stopCountdown c) s) = songAttempts s /\
  (countdown s <> Some (Countdown.mk (Some false) (Some 0) None) ->
     buzzEnabled (runHeard services c now (stopCountdown c) s) = Some true /\
     lastBuzzActivity (runHeard services c now (stopCountdown c) s) = Some now) /\
  (countdown s = Some (Countdown.mk (Some false) (Some 0) None) ->
     runHeard services c now (stopCountdown c) s = s) /\
  runHeard services c now2 (stopCountdown c) (runHeard services c now (stopCountdown c) s) =
    runHeard services c now (stopCountdown c) s.
Proof.
  intros Hcode Hhost. rewrite (stopCountdown_host c Hcode Hhost).
  assert (Hstop : forall t s0,
            runHeard services c t
              [ Store (UpdCountdown [ CIsActive false; CValue 0; CStartTime None ]) ] s0 =
            if countdownChanged (countdown s0)
                 (Some (Countdown.mk (Some false) (Some 0) None))
            then applyWrite (UpdRoom [ FBuzzEnabled true; FLastBuzzActivity t ])
                   (withCountdown s0 (Countdown.mk (Some false) (Some 0) None))
            else withCountdown s0 (Countdown.mk (Some false) (Some 0) None)).
  { intros t s0. unfold runHeard, hear. cbn [fold_left].
    assert (Hs1 : step services s0
                    (Store (UpdCountdown [ CIsActive false; CValue 0; CStartTime None ])) =
                  withCountdown s0 (Countdown.mk (Some false) (Some 0) None))
      by (cbn; destruct (countdown s0) as [[? ? ?]|]; reflexivity).
    rewrite Hs1. cbn [countdown withCountdown].
    rewrite (host_onCountdownValue_stopped c t None Hcode Hhost). reflexivity. }
  rewrite !Hstop.
  assert (Hk : countdown
                 (if countdownChanged (countdown s)
                       (Some (Countdown.mk (Some false) (Some 0) None))
                  then applyWrite (UpdRoom [ FBuzzEnabled true; FLastBuzzActivity now ])
                         (withCountdown s (Countdown.mk (Some false) (Some 0) None))
                  else withCountdown s (Countdown.mk (Some false) (Some 0) None)) =
               Some (Countdown.mk (Some false) (Some 0) None))
    by (destruct (countdownChanged _ _); reflexivity).
  split; [exact Hk|].
  split; [|split; [|split; [|split; [|split; [|split]]]]].
  1-4: destruct (countdownChanged _ _); reflexivity.
  - intros Hne. rewrite (countdownChanged_diff _ _ Hne). split; reflexivity.
  - intros Heq. rewrite Heq, countdownChanged_same. exact (withCountdown_same s _ Heq).
  - rewrite Hk, countdownChanged_same. apply withCountdown_same. exact Hk.
Qed.

(** X7, witness: the scenario room in the middle of a countdown, its buzz
    closed; the host stops the countdown and the buzz is open. *)
Lemma stopCountdown_opens_buzz_witness :
  countdownSeen Scenario.midCountdown = (Some true, Some 2) /\
  buzzEnabled Scenario.midCountdown = Some false /\
  countdown (runHeard Scenario.services
               (Scenario.hostCtx (Some classicMode) Scenario.midCountdown) 1500
               (stopCountdown (Scenario.hostCtx (Some classicMode) Scenario.midCountdown))
               Scenario.midCountdown) =
    Some (Countdown.mk (Some false) (Some 0) None) /\
  buzzEnabled (runHeard Scenario.services
                 (Scenario.hostCtx (Some classicMode) Scenario.midCountdown) 1500
                 (stopCountdown (Scenario.hostCtx (Some classicMode) Scenario.midCountdown))
                 Scenario.midCountdown) = Some true.
Proof.
  split; [reflexivity|]. split; [reflexivity|].
  destruct (stopCountdown_opens_buzz Scenario.services
              (Scenario.hostCtx (Some classicMode) Scenario.midCountdown) 1500 1600
              Scenario.midCountdown eq_refl eq_refl)
    as (Hnode & _ & _ & _ & _ & Hbuzz & _).
  split; [exact Hnode|].
  exact (proj1 (Hbuzz ltac:(discriminate))).
Defined.

(** What the room becomes under each effect of a countdown when the
    host's audio player listens. *)
Section Heard.

Variable services : ServiceCall -> RoomData -> RoomData.
Variable c : Ctx.
Hypothesis Hcode : truthyS (roomCode c) = true.
Hypothesis Hhost : isHost c = true.

Lemma hear_emit (t : Z) (s : RoomData) (ev : string) :
  hear services c t s (Emit ev) = s.
Proof. unfold hear. cbn [step]. rewrite countdownChanged_same. reflexivity. Qed.

Lemma hear_buzz (t : Z) (s : RoomData) (b : bool) (x : Z) :
  countdown (hear services c t s (Store (UpdRoom [ FBuzzEnabled b; FLastBuzzActivity x ]))) =
    countdown s /\
  buzzEnabled (hear services c t s (Store (UpdRoom [ FBuzzEnabled b; FLastBuzzActivity x ]))) =
    Some b.
Proof.
  unfold hear. cbn [step applyWrite fold_left applyRoomField countdown].
  rewrite countdownChanged_same. split; reflexivity.
Qed.

(** A write of value 3 on a room whose buzz is closed: the listener, if
    it runs, closes the buzz again. *)
Lemma hear_first_tick (t : Z) (s : RoomData) (st : option Z) :
  buzzEnabled s = Some false ->
  countdown (hear services c t s
               (Store (UpdCountdown [ CIsActive true; CValue 3; CStartTime st ]))) =
    Some (Countdown.mk (Some true) (Some 3) st) /\
  buzzEnabled (hear services c t s
                 (Store (UpdCountdown [ CIsActive true; CValue 3; CStartTime st ]))) =
    Some false.
Proof.
  intros Hb. unfold hear.
  assert (Hs1 : step services s
                  (Store (UpdCountdown [ CIsActive true; CValue 3; CStartTime st ])) =
                withCountdown s (Countdown.mk (Some true) (Some 3) st))
    by (cbn; destruct (countdown s) as [[? ? ?]|]; reflexivity).
  rewrite Hs1. cbn [countdown withCountdown].
  unfold onCountdownValue, onDisableBuzzForSong.
  rewrite Hcode, Hhost, (host_disableBuzzWrites c t Hcode Hhost).
  cbn [andb truthyB Countdown.isActive Countdown.value Z.eqb Pos.eqb].
  destruct (countdownChanged _ _); cbn; [split; reflexivity | split; [reflexivity | exact Hb]].
Qed.

(** A tick of value 2 or 1: the listener does nothing. *)
Lemma hear_tick (t : Z) (s : RoomData) (v : Z) (st : option Z) :
  v <> 3 ->
  countdown (hear services c t s
               (Store (UpdCountdown [ CIsActive true; CValue v; CStartTime st ]))) =
    Some (Countdown.mk (Some true) (Some v) st) /\
  buzzEnabled (hear services c t s
                 (Store (UpdCountdown [ CIsActive true; CValue v; CStartTime st ]))) =
    buzzEnabled s.
Proof.
  intros Hv. unfold hear.
  assert (Hs1 : step services s
                  (Store (UpdCountdown [ CIsActive true; CValue v; CStartTime st ])) =
                withCountdown s (Countdown.mk (Some true) (Some v) st))
    by (cbn; destruct (countdown s) as [[? ? ?]|]; reflexivity).
  rewrite Hs1. cbn [countdown withCountdown].
  unfold onCountdownValue. rewrite Hcode, Hhost.
  cbn [andb negb truthyB Countdown.isActive Countdown.value].
  rewrite (proj2 (Z.eqb_neq v 3) Hv).
  destruct (countdownChanged _ _); split; reflexivity.
Qed.

(** The write of [stopCountdown], or the last write of [startCountdown],
    on a room whose countdown is active: the listener opens the buzz. *)
Lemma hear_stop (t : Z) (s : RoomData) (v st : option Z) (fs : list CountdownField) :
  countdown s = Some (Countdown.mk (Some true) v st) ->
  fs = [ CIsActive false; CValue 0; CStartTime None ] \/ fs = [ CIsActive false; CValue 0 ] ->
  countdownSeen (hear services c t s (Store (UpdCountdown fs))) = (Some false, Some 0) /\
  buzzEnabled (hear services c t s (Store (UpdCountdown fs))) = Some true.
Proof.
  intros Hk Hfs. unfold hear.
  assert (Hs1 : exists st', step services s (Store (UpdCountdown fs)) =
                  withCountdown s (Countdown.mk (Some false) (Some 0) st')).
  { destruct Hfs as [-> | ->]; cbn [step applyWrite]; rewrite Hk; eexists; reflexivity. }
  destruct Hs1 as (st' & ->). cbn [countdown withCountdown].
  rewrite Hk, (host_onCountdownValue_stopped c t st' Hcode Hhost).
  split; reflexivity.
Qed.

End Heard.

(** Follows a room through the effects it hears, one effect at a time,
    keeping what is known of its countdown node and of its buzz flag. *)
Ltac heard_step Hcode Hhost :=
  let Hk := fresh "Hk" in
  let Hb := fresh "Hb" in
  match goal with
  | |- context [ hear ?sv ?c ?t ?S (Emit ?ev) ] =>
      is_var S; rewrite (hear_emit sv c t S ev)
  | |- context [ hear ?sv ?c ?t ?S
                   (Store (UpdRoom [ FBuzzEnabled ?b; FLastBuzzActivity ?x ])) ] =>
      is_var S;
      destruct (hear_buzz sv c t S b x) as [Hk Hb];
      generalize dependent
        (hear sv c t S (Store (UpdRoom [ FBuzzEnabled b; FLastBuzzActivity x ])));
      intros
  | Hb0 : buzzEnabled ?S = Some false
    |- context [ hear ?sv ?c ?t ?S
                   (Store (UpdCountdown [ CIsActive true; CValue 3; CStartTime ?st ])) ] =>
      destruct (hear_first_tick sv c Hcode Hhost t S st Hb0) as [Hk Hb];
      generalize dependent
        (hear sv c t S (Store (UpdCountdown [ CIsActive true; CValue 3; CStartTime st ])));
      intros
  | Hb0 : buzzEnabled ?S = _
    |- context [ hear ?sv ?c ?t ?S
                   (Store (UpdCountdown [ CIsActive true; CValue ?v; CStartTime ?st ])) ] =>
      destruct (hear_tick sv c Hcode Hhost t S v st ltac:(discriminate)) as [Hk Hb];
      rewrite Hb0 in Hb;
      generalize dependent
        (hear sv c t S (Store (UpdCountdown [ CIsActive true; CValue v; CStartTime st ])));
      intros
  | Hk0 : countdown ?S = Some (Countdown.mk (Some true) ?v ?st)
    |- context [ hear ?sv ?c ?t ?S (Store (UpdCountdown ?fs)) ] =>
      destruct (hear_stop sv c Hcode Hhost t S v st fs Hk0 ltac:(auto)) as [Hk Hb];
      generalize dependent (hear sv c t S (Store (UpdCountdown fs)));
      intros
  end.

(** X8.  [stopCountdown] does not end a countdown that is running, and
    opens the buzz in the middle of it.  The loop of [startCountdown] has
    no exit: when the host calls [stopCountdown] [d] milliseconds into a
    run, before the last tick ([0 < d < 2000]), the tick of value 1 puts
    the countdown back to active two seconds into the run, and the run
    finishes as usual at three seconds.  The listener of the audio player
    has answered the stop by opening the buzz, and no later tick closes
    it: between two and three seconds the room shows the countdown active
    with the buzz open, where a run that was not stopped has it closed. *)
Theorem stopCountdown_does_not_cancel (services : ServiceCall -> RoomData -> RoomData)
    (c : Ctx) (now d : Z) (s : RoomData) :
  truthyS (roomCode c) = true ->
  isHost c = true ->
  0 < d < 2000 ->
  (forall t, 2000 <= t < 3000 ->
     countdownSeen (roomAtHeard services c now t
                      [ (d, stopCountdown c); (0, startCountdown c now) ] s)
       = (Some true, Some 1) /\
     buzzEnabled (roomAtHeard services c now t
                    [ (d, stopCountdown c); (0, startCountdown c now) ] s)
       = Some true /\
     buzzEnabled (roomAtHeard services c now t [ (0, startCountdown c now) ] s)
       = Some false) /\
  (forall t, 3000 <= t ->
     countdownSeen (roomAtHeard services c now t
                      [ (d, stopCountdown c); (0, startCountdown c now) ] s)
       = (Some false, Some 0) /\
     buzzEnabled (roomAtHeard services c now t
                    [ (d, stopCountdown c); (0, startCountdown c now) ] s)
       = Some true).
Proof.
  intros Hcode Hhost Hd.
  rewrite (stopCountdown_host c Hcode Hhost), (startCountdown_host c now Hcode Hhost).
  unfold roomAtHeard, timelineOf.
  cbn [flat_map schedule fst snd app map fold_right].
  split; intros t Ht.
  - cbn [insertTimed fst snd]. settle_instants.
    all: cbn [fold_left fst snd].
    all: repeat heard_step Hcode Hhost.
    all: repeat split; try assumption.
    all: unfold countdownSeen in *;
         repeat match goal with
                | Hk : countdown ?r = _ |- context [ countdown ?r ] => rewrite Hk
                end;
         first [ reflexivity | assumption ].
  - cbn [insertTimed fst snd]. settle_instants.
    all: cbn [fold_left fst snd].
    all: repeat heard_step Hcode Hhost.
    all: repeat split; try assumption.
    all: unfold countdownSeen in *;
         repeat match goal with
                | Hk : countdown ?r = _ |- context [ countdown ?r ] => rewrite Hk
                end;
         first [ reflexivity | assumption ].
Qed.

(** X8, witness: the host stops half a second into the countdown; the
    room shows the countdown stopped and the buzz open at 0.7 seconds, and
    the countdown active again, with value 1 and the buzz still open, at
    2.5 seconds. *)
Lemma stopCountdown_does_not_cancel_witness :
  countdownSeen
    (roomAtHeard Scenario.services
       (Scenario.hostCtx (Some classicMode) (Scenario.openRoom classicMode)) 100 700
       [ (500, stopCountdown (Scenario.hostCtx (Some classicMode)
                                (Scenario.openRoom classicMode)));
         (0, startCountdown (Scenario.hostCtx (Some classicMode)
                               (Scenario.openRoom classicMode)) 100) ]
       (Scenario.openRoom classicMode)) = (Some false, Some 0) /\
  countdownSeen
    (roomAtHeard Scenario.services
       (Scenario.hostCtx (Some classicMode) (Scenario.openRoom classicMode)) 100 2500
       [ (500, stopCountdown (Scenario.hostCtx (Some classicMode)
                                (Scenario.openRoom classicMode)));
         (0, startCountdown (Scenario.hostCtx (Some classicMode)
                               (Scenario.openRoom classicMode)) 100) ]
       (Scenario.openRoom classicMode)) = (Some true, Some 1) /\
  buzzEnabled
    (roomAtHeard Scenario.services
       (Scenario.hostCtx (Some classicMode) (Scenario.openRoom classicMode)) 100 2500
       [ (500, stopCountdown (Scenario.hostCtx (Some classicMode)
                                (Scenario.openRoom classicMode)));
         (0, startCountdown (Scenario.hostCtx (Some classicMode)
                               (Scenario.openRoom classicMode)) 100) ]
       (Scenario.openRoom classicMode)) = Some true.
Proof.
  split; [reflexivity|].
  destruct (proj1 (stopCountdown_does_not_cancel Scenario.services
                     (Scenario.hostCtx (Some classicMode) (Scenario.openRoom classicMode))
                     100 500 (Scenario.openRoom classicMode)
                     eq_refl eq_refl ltac:(lia)) 2500 ltac:(lia)) as (Hseen & Hopen & _).
  split; [exact Hseen | exact Hopen].
Defined.

(** ** The play listener *)

Lemma host_dispatchDisable (c : Ctx) (now : Z) :
  truthyS (roomCode c) = true ->
  isHost c = true ->
  dispatchDisableBuzzForSong c now =
    [ Emit "disableBuzzForSong";
      Store (UpdRoom [ FBuzzEnabled false; FLastBuzzActivity now ]) ].
Proof.
  intros Hcode Hhost. unfold dispatchDisableBuzzForSong, onDisableBuzzForSong.
  rewrite (host_disableBuzzWrites c now Hcode Hhost), Hcode, Hhost. reflexivity.
Qed.

Lemma host_dispatchEnable (c : Ctx) (now : Z) :
  truthyS (roomCode c) = true ->
  isHost c = true ->
  dispatchEnableBuzzForSong c now =
    [ Emit "enableBuzzForSong";
      Store (UpdRoom [ FBuzzEnabled true; FLastBuzzActivity now ]) ].
Proof.
  intros Hcode Hhost. unfold dispatchEnableBuzzForSong, onEnableBuzzForSong.
  rewrite (host_enableBuzzWrites c now Hcode Hhost), Hcode, Hhost. reflexivity.
Qed.

(** X9.  A song started on the right player never opens the buzz and
    never becomes the current song: whatever the mode, at every instant
    from the start on, the host's room has [buzzEnabled] false, and its
    current song, turn, winner and song attempts are what they were. *)
Theorem onPlay_right_keeps_buzz_closed (services : ServiceCall -> RoomData -> RoomData)
    (c : Ctx) (file : string) (now t : Z) (s : RoomData) :
  truthyS (roomCode c) = true ->
  isHost c = true ->
  0 <= t ->
  buzzEnabled (roomAt services t (onPlay c right file now) s) = Some false /\
  currentSong (roomAt services t (onPlay c right file now) s) = currentSong s /\
  currentTurn (roomAt services t (onPlay c right file now) s) = currentTurn s /\
  winnerInfo (roomAt services t (onPlay c right file now) s) = winnerInfo s /\
  songAttempts (roomAt services t (onPlay c right file now) s) = songAttempts s.
Proof.
  intros Hcode Hhost Ht. unfold onPlay.
  rewrite andb_false_r. cbn [app].
  rewrite (host_dispatchDisable c now Hcode Hhost).
  unfold roomAt, timeline. cbn [schedule fold_right insertTimed fst snd].
  settle_instants. repeat split.
Qed.

(** X9, witness: the host of the open classic room starts a jingle on
    the right player. *)
Lemma onPlay_right_keeps_buzz_closed_witness :
  buzzEnabled (Scenario.openRoom classicMode) = Some true /\
  buzzEnabled (roomAt Scenario.services 60000
                 (onPlay (Scenario.hostCtx (Some classicMode) (Scenario.openRoom classicMode))
                    right "jingle.mp3" 50)
                 (Scenario.openRoom classicMode)) = Some false.
Proof.
  split; [reflexivity|].
  exact (proj1 (onPlay_right_keeps_buzz_closed Scenario.services
                  (Scenario.hostCtx (Some classicMode) (Scenario.openRoom classicMode))
                  "jingle.mp3" 50 60000 (Scenario.openRoom classicMode)
                  eq_refl eq_refl ltac:(lia))).
Defined.

(** X10.  Easy mode: a song started on the left player closes the buzz
    at once and opens it [buzzDelaySeconds] seconds later, not before;
    the song becomes the current song at once. *)
Theorem onPlay_easy_delay (services : ServiceCall -> RoomData -> RoomData)
    (c : Ctx) (m : GameMode.t) (delaySeconds : Z) (file : string) (now : Z) (s : RoomData) :
  truthyS (roomCode c) = true ->
  isHost c = true ->
  currentGameMode c = Some m ->
  GameMode.type m = easy ->
  buzzDelaySeconds (GameMode.settings m) = Some delaySeconds ->
  0 < delaySeconds ->
  (forall t, 0 <= t < delaySeconds * 1000 ->
     buzzEnabled (roomAt services t (onPlay c left file now) s) = Some false /\
     currentSong (roomAt services t (onPlay c left file now) s) = Some file) /\
  (forall t, delaySeconds * 1000 <= t ->
     buzzEnabled (roomAt services t (onPlay c left file now) s) = Some true /\
     lastBuzzActivity (roomAt services t (onPlay c left file now) s) =
       Some (now + delaySeconds * 1000)).
Proof.
  intros Hcode Hhost Hm Ht Hdelay Hpos.
  assert (Hd : orZ (Some delaySeconds) 0 = delaySeconds).
  { unfold orZ. destruct (Z.eqb_spec delaySeconds 0); [lia | reflexivity]. }
  assert (Hnz : (delaySeconds =? 0) = false) by (apply Z.eqb_neq; lia).
  unfold onPlay. rewrite Hcode, Hm, Ht, Hdelay, Hd, Hnz. cbn [GameModeType_eqb andb negb app].
  rewrite (host_dispatchDisable c now Hcode Hhost).
  unfold onEnableBuzzForSong. rewrite Hhost, Hcode. cbn [andb].
  rewrite (host_enableBuzzWrites c _ Hcode Hhost).
  unfold roomAt, timeline. cbn [schedule fold_right map app fst snd].
  split; intros t Hrange.
  - cbn [insertTimed fst snd]. settle_instants. split; reflexivity.
  - cbn [insertTimed fst snd]. settle_instants. split; reflexivity.
Qed.

(** X10, witness: the predefined easy mode (10 seconds). *)
Lemma onPlay_easy_delay_witness :
  buzzDelaySeconds (GameMode.settings easyMode) = Some 10 /\
  buzzEnabled (roomAt Scenario.services 9999
                 (onPlay (Scenario.hostCtx (Some easyMode) (Scenario.openRoom easyMode))
                    left "one.mp3" 50) (Scenario.openRoom easyMode)) = Some false /\
  buzzEnabled (roomAt Scenario.services 10000
                 (onPlay (Scenario.hostCtx (Some easyMode) (Scenario.openRoom easyMode))
                    left "one.mp3" 50) (Scenario.openRoom easyMode)) = Some true.
Proof.
  split; [reflexivity|].
  destruct (onPlay_easy_delay Scenario.services
              (Scenario.hostCtx (Some easyMode) (Scenario.openRoom easyMode))
              easyMode 10 "one.mp3" 50 (Scenario.openRoom easyMode)
              eq_refl eq_refl eq_refl eq_refl eq_refl ltac:(lia)) as [Hbefore Hafter].
  split.
  - exact (proj1 (Hbefore 9999 ltac:(lia))).
  - exact (proj1 (Hafter 10000 ltac:(lia))).
Defined.

(** ** The turn rotation *)

(** The effects of a song start on the left player under the turn-based
    mode, when the rotation finds its player. *)
Lemma onPlay_turnBased_host (c : Ctx) (m : GameMode.t) (file : string) (now : Z)
    (id : string) (p : Player.t) :
  truthyS (roomCode c) = true ->
  isHost c = true ->
  currentGameMode c = Some m ->
  GameMode.type m = turnBased ->
  turnBasedEnabled (GameMode.settings m) = Some true ->
  0 <= turnNumberOf c ->
  nonHostPlayers c
    !! Z.to_nat (Z.rem (turnNumberOf c) (Z.of_nat (length (nonHostPlayers c)))) =
    Some (id, p) ->
  onPlay c left file now =
    [ Emit "mainPlayerPlay";
      Store (UpdRoom [ FCurrentSong file ]);
      Emit "disableBuzzForSong";
      Store (UpdRoom [ FBuzzEnabled false; FLastBuzzActivity now ]);
      Store (UpdTurn [ TPlayerId id; TPlayerName (Player.name p);
                       TTurnNumber
                         (Z.rem (turnNumberOf c) (Z.of_nat (length (nonHostPlayers c))) + 1);
                       TStartTime (Some now); TAdvantagePhase true ]);
      Emit "enableBuzzForSong";
      Store (UpdRoom [ FBuzzEnabled true; FLastBuzzActivity now ]);
      After 15000 [ UpdTurn [ TAdvantagePhase false ] ] ].
Proof.
  intros Hcode Hhost Hm Ht Hen Hk Hlook.
  assert (Hlen : 0 < Z.of_nat (length (nonHostPlayers c))).
  { destruct (nonHostPlayers c); [rewrite lookup_nil in Hlook; discriminate | simpl; lia]. }
  unfold onPlay, advanceTurn.
  rewrite Hcode, Hm, Ht, Hen, Hlook. cbn [GameModeType_eqb andb truthyB app].
  rewrite (host_dispatchDisable c now Hcode Hhost),
    (host_dispatchEnable c now Hcode Hhost).
  rewrite (proj2 (Z.ltb_lt _ _) Hlen).
  rewrite (proj2 (Z.ltb_ge _ _)); [reflexivity|].
  apply Z.rem_nonneg; lia.
Qed.

(** A caller other than the holder of a running advantage phase is turned
    away. *)
Lemma turn_denied (c : Ctx) (r : RoomData) (m : GameMode.t) (turn : Turn.t) (pid : string)
    (inputPlayerId inputPlayerName : option string) (now : Z) :
  roomData c = Some r ->
  orS inputPlayerId (playerId c) = Some pid ->
  currentGameMode c = Some m ->
  GameMode.type m = turnBased ->
  turnBasedEnabled (GameMode.settings m) = Some true ->
  currentTurn r = Some turn ->
  Turn.advantagePhase turn = true ->
  Turn.playerId turn <> pid ->
  handleBuzz c inputPlayerId inputPlayerName now = [].
Proof.
  intros Hroom Hid Hm Ht Hen Hturn Hadv Hne.
  unfold handleBuzz. rewrite Hroom, Hid.
  destruct (orS inputPlayerName (playerName c)) as [pname|]; [|reflexivity].
  assert (Hdeny : turnDenies c r pid = true).
  { unfold turnDenies. rewrite Hm, Ht, Hen, Hturn, Hadv.
    destruct (String.eqb_spec (Turn.playerId turn) pid); [contradiction | reflexivity]. }
  rewrite Hdeny.
  repeat match goal with
         | |- (if ?b then [] else _) = [] => destruct b; try reflexivity
         end.
Qed.

(** X11.  The advantage phase of a turn lasts 15 seconds, whatever the
    mode's [turnAdvantageSeconds].  When the host starts a song on the
    left player under the turn-based mode and the rotation finds its
    player: during the 15 seconds that follow the room names that player
    as holder of the turn with [advantagePhase] true, the buzz is open, and
    every call of [handleBuzz] for anybody else is turned away; from 15
    seconds on [advantagePhase] is false, with the same holder. *)
Theorem advantage_window (services : ServiceCall -> RoomData -> RoomData)
    (c : Ctx) (m : GameMode.t) (file : string) (now : Z) (id : string) (p : Player.t)
    (s : RoomData) :
  truthyS (roomCode c) = true ->
  isHost c = true ->
  currentGameMode c = Some m ->
  GameMode.type m = turnBased ->
  turnBasedEnabled (GameMode.settings m) = Some true ->
  0 <= turnNumberOf c ->
  nonHostPlayers c
    !! Z.to_nat (Z.rem (turnNumberOf c) (Z.of_nat (length (nonHostPlayers c)))) =
    Some (id, p) ->
  (forall t, 0 <= t < 15000 ->
     (Turn.playerId <$> currentTurn (roomAt services t (onPlay c left file now) s)) =
       Some id /\
     (Turn.advantagePhase <$> currentTurn (roomAt services t (onPlay c left file now) s)) =
       Some true /\
     (Turn.startTime <$> currentTurn (roomAt services t (onPlay c left file now) s)) =
       Some (Some now) /\
     buzzEnabled (roomAt services t (onPlay c left file now) s) = Some true /\
     forall c2 in2 name2 now2 pid2,
       roomData c2 = Some (roomAt services t (onPlay c left file now) s) ->
       currentGameMode c2 = Some m ->
       orS in2 (playerId c2) = Some pid2 ->
       pid2 <> id ->
       handleBuzz c2 in2 name2 now2 = []) /\
  (forall t, 15000 <= t ->
     (Turn.playerId <$> currentTurn (roomAt services t (onPlay c left file now) s)) =
       Some id /\
     (Turn.advantagePhase <$> currentTurn (roomAt services t (onPlay c left file now) s)) =
       Some false).
Proof.
  intros Hcode Hhost Hm Ht Hen Hk Hlook.
  rewrite (onPlay_turnBased_host c m file now id p Hcode Hhost Hm Ht Hen Hk Hlook).
  unfold roomAt, timeline. cbn [schedule fold_right map app fst snd].
  split; intros t Hrange.
  - cbn [insertTimed fst snd]. settle_instants.
    split; [reflexivity|]. split; [reflexivity|]. split; [reflexivity|].
    split; [reflexivity|].
    intros c2 in2 name2 now2 pid2 Hroom2 Hm2 Hid2 Hne.
    eapply (turn_denied c2 _ m _ pid2 in2 name2 now2 Hroom2 Hid2 Hm2 Ht Hen).
    + reflexivity.
    + reflexivity.
    + cbn. congruence.
  - cbn [insertTimed fst snd]. settle_instants. split; reflexivity.
Qed.

(** X11, witness: the first song of the scenario, whose mode says 10
    seconds; 14.999 seconds in, the turn is guest B's and guest C is
    turned away. *)
Lemma advantage_window_witness :
  turnAdvantageSeconds (GameMode.settings turnBasedMode) = Some 10 /\
  (Turn.playerId <$> currentTurn (Scenario.duringFirstSong 14999)) = Some "b" /\
  handleBuzz (Scenario.guestCtx "c" "C" (Some turnBasedMode)
                (Scenario.duringFirstSong 14999)) None None 16000 = [].
Proof.
  split; [reflexivity|].
  destruct (advantage_window Scenario.services
              (Scenario.hostCtx (Some turnBasedMode) Scenario.turnRoom) turnBasedMode
              "one.mp3" 1000 "b" (Scenario.guest "B" 2) Scenario.turnRoom
              eq_refl eq_refl eq_refl eq_refl eq_refl ltac:(cbn; lia) eq_refl)
    as [Hduring _].
  destruct (Hduring 14999 ltac:(lia)) as (Hholder & _ & _ & _ & Hdenied).
  split; [exact Hholder|].
  exact (Hdenied (Scenario.guestCtx "c" "C" (Some turnBasedMode)
                    (Scenario.duringFirstSong 14999)) None None 16000 "c"
           eq_refl eq_refl eq_refl ltac:(discriminate)).
Defined.

(** X12.  Turn-based mode without guests: when no player of the
    snapshot is a non-host, a song started on the left player writes no
    turn and leaves the buzz closed, at every later instant; nothing opens
    it again. *)
Theorem onPlay_turnBased_no_guest (services : ServiceCall -> RoomData -> RoomData)
    (c : Ctx) (m : GameMode.t) (file : string) (now t : Z) (s : RoomData) :
  truthyS (roomCode c) = true ->
  isHost c = true ->
  currentGameMode c = Some m ->
  GameMode.type m = turnBased ->
  turnBasedEnabled (GameMode.settings m) = Some true ->
  nonHostPlayers c = [] ->
  0 <= t ->
  buzzEnabled (roomAt services t (onPlay c left file now) s) = Some false /\
  currentTurn (roomAt services t (onPlay c left file now) s) = currentTurn s /\
  currentSong (roomAt services t (onPlay c left file now) s) = Some file.
Proof.
  intros Hcode Hhost Hm Ht Hen Hnone Hrange.
  unfold onPlay, advanceTurn.
  rewrite Hcode, Hm, Ht, Hen, Hnone. cbn [GameModeType_eqb andb truthyB app length].
  change (0 <? Z.of_nat 0) with false. cbv iota.
  rewrite (host_dispatchDisable c now Hcode Hhost).
  unfold roomAt, timeline. cbn [schedule fold_right map app fst snd].
  cbn [insertTimed fst snd]. settle_instants. repeat split.
Qed.

(** X12, witness: a room whose only player is the host. *)
Lemma onPlay_turnBased_no_guest_witness :
  nonHostPlayers (mkCtx (Some "ROOM") (Some "h") (Some "Host")
                    (Some (mkRoom None [ ("h", Scenario.host) ] (Some turnBasedMode) None
                             (Some true) ∅ None None None None None))
                    (Some turnBasedMode)) = [] /\
  buzzEnabled
    (roomAt Scenario.services 60000
       (onPlay (mkCtx (Some "ROOM") (Some "h") (Some "Host")
                  (Some (mkRoom None [ ("h", Scenario.host) ] (Some turnBasedMode) None
                           (Some true) ∅ None None None None None))
                  (Some turnBasedMode)) left "one.mp3" 50)
       (mkRoom None [ ("h", Scenario.host) ] (Some turnBasedMode) None
          (Some true) ∅ None None None None None)) = Some false.
Proof.
  split; [reflexivity|].
  exact (proj1 (onPlay_turnBased_no_guest Scenario.services
                  (mkCtx (Some "ROOM") (Some "h") (Some "Host")
                     (Some (mkRoom None [ ("h", Scenario.host) ] (Some turnBasedMode) None
                              (Some true) ∅ None None None None None))
                     (Some turnBasedMode))
                  turnBasedMode "one.mp3" 50 60000
                  (mkRoom None [ ("h", Scenario.host) ] (Some turnBasedMode) None
                     (Some true) ∅ None None None None None)
                  eq_refl eq_refl eq_refl eq_refl eq_refl eq_refl ltac:(lia))).
Defined.

Section Rotation.

Variable services : ServiceCall -> RoomData -> RoomData.
Variables (code pid name : string) (m : GameMode.t).
Hypothesis Hcode : truthyS (Some code) = true.
Hypothesis Htype : GameMode.type m = turnBased.
Hypothesis Hen : turnBasedEnabled (GameMode.settings m) = Some true.

Lemma viewOf_players (s s' : RoomData) :
  players s' = players s ->
  isHost (viewOf code pid name (Some m) s') = isHost (viewOf code pid name (Some m) s) /\
  nonHostPlayers (viewOf code pid name (Some m) s') =
    nonHostPlayers (viewOf code pid name (Some m) s).
Proof.
  intros Hp. unfold isHost, nonHostPlayers, playersOf, viewOf. simpl.
  rewrite Hp. split; reflexivity.
Qed.

(** One song start: the players are untouched, the turn goes to the
    non-host player at index [turnNumber mod n]. *)
Lemma songStart_step (s : RoomData) (file : string) (now : Z) :
  isHost (viewOf code pid name (Some m) s) = true ->
  0 <= turnNumberOf (viewOf code pid name (Some m) s) ->
  nonHostPlayers (viewOf code pid name (Some m) s) <> [] ->
  players (run services (onPlay (viewOf code pid name (Some m) s) left file now) s) =
    players s /\
  (Turn.playerId <$>
     currentTurn (run services (onPlay (viewOf code pid name (Some m) s) left file now) s)) =
    fst <$> (nonHostPlayers (viewOf code pid name (Some m) s)
               !! Z.to_nat (turnNumberOf (viewOf code pid name (Some m) s)
                            mod Z.of_nat (length (nonHostPlayers
                                                    (viewOf code pid name (Some m) s))))) /\
  (Turn.turnNumber <$>
     currentTurn (run services (onPlay (viewOf code pid name (Some m) s) left file now) s)) =
    Some (turnNumberOf (viewOf code pid name (Some m) s)
          mod Z.of_nat (length (nonHostPlayers (viewOf code pid name (Some m) s))) + 1) /\
  is_Some (nonHostPlayers (viewOf code pid name (Some m) s)
             !! Z.to_nat (turnNumberOf (viewOf code pid name (Some m) s)
                          mod Z.of_nat (length (nonHostPlayers
                                                  (viewOf code pid name (Some m) s))))).
Proof.
  intros Hhost Hk Hne.
  set (c := viewOf code pid name (Some m) s) in *.
  set (l := nonHostPlayers c) in *.
  assert (Hlen : 0 < Z.of_nat (length l)) by (destruct l; [congruence | simpl; lia]).
  assert (Hrem : Z.rem (turnNumberOf c) (Z.of_nat (length l)) =
                 turnNumberOf c mod Z.of_nat (length l))
    by (apply Z.rem_mod_nonneg; lia).
  pose proof (Z.mod_pos_bound (turnNumberOf c) (Z.of_nat (length l)) Hlen) as Hbound.
  destruct (lookup_lt_is_Some_2 l (Z.to_nat (turnNumberOf c mod Z.of_nat (length l))))
    as [[id p] Hlook]; [lia|].
  assert (Hlook' : l !! Z.to_nat (Z.rem (turnNumberOf c) (Z.of_nat (length l))) =
                   Some (id, p)) by (rewrite Hrem; exact Hlook).
  subst l.
  rewrite (onPlay_turnBased_host c m file now id p Hcode Hhost eq_refl Htype Hen Hk Hlook').
  rewrite Hlook, Hrem. repeat split. eauto.
Qed.

(** After a non-empty series of song starts the turn is held by the
    non-host player at index [(k + j - 1) mod n], for [k] the turn number
    before the series, [j] the number of starts and [n] the number of
    non-host players. *)
Lemma songStarts_holder (starts : list (string * Z)) (s : RoomData) :
  starts <> [] ->
  isHost (viewOf code pid name (Some m) s) = true ->
  0 <= turnNumberOf (viewOf code pid name (Some m) s) ->
  nonHostPlayers (viewOf code pid name (Some m) s) <> [] ->
  players (songStarts services (viewOf code pid name (Some m)) starts s) = players s /\
  (Turn.playerId <$>
     currentTurn (songStarts services (viewOf code pid name (Some m)) starts s)) =
    fst <$> (nonHostPlayers (viewOf code pid name (Some m) s)
               !! Z.to_nat ((turnNumberOf (viewOf code pid name (Some m) s)
                             + Z.of_nat (length starts) - 1)
                            mod Z.of_nat (length (nonHostPlayers
                                                    (viewOf code pid name (Some m) s))))) /\
  (Turn.turnNumber <$>
     currentTurn (songStarts services (viewOf code pid name (Some m)) starts s)) =
    Some ((turnNumberOf (viewOf code pid name (Some m) s)
           + Z.of_nat (length starts) - 1)
          mod Z.of_nat (length (nonHostPlayers (viewOf code pid name (Some m) s))) + 1).
Proof.
  revert s. induction starts as [|[file now] rest IH]; intros s Hne Hhost Hk Hl;
    [congruence|].
  destruct (songStart_step s file now Hhost Hk Hl) as (Hp & Hid & Hnum & _).
  set (s' := run services (onPlay (viewOf code pid name (Some m) s) left file now) s) in *.
  destruct (viewOf_players s s' Hp) as [Hhost' Hl'].
  destruct rest as [|next rest'].
  - cbn [songStarts length]. fold s'.
    replace (turnNumberOf (viewOf code pid name (Some m) s) + Z.of_nat 1 - 1)
      with (turnNumberOf (viewOf code pid name (Some m) s)) by lia.
    repeat split; assumption.
  - assert (Hlen : 0 < Z.of_nat (length (nonHostPlayers (viewOf code pid name (Some m) s)))).
    { destruct (nonHostPlayers (viewOf code pid name (Some m) s));
        [congruence | simpl; lia]. }
    assert (Hk' : turnNumberOf (viewOf code pid name (Some m) s') =
                  turnNumberOf (viewOf code pid name (Some m) s)
                  mod Z.of_nat (length (nonHostPlayers (viewOf code pid name (Some m) s)))
                  + 1).
    { destruct (currentTurn s') as [t'|] eqn:Hturn; cbn in Hnum; [|discriminate].
      injection Hnum as Hn.
      unfold turnNumberOf at 1, viewOf at 1. cbn [roomData]. rewrite Hturn. exact Hn. }
    pose proof (Z.mod_pos_bound (turnNumberOf (viewOf code pid name (Some m) s)) _ Hlen)
      as Hbound.
    destruct (IH s' ltac:(discriminate)) as (Hp2 & Hid2 & Hnum2).
    + rewrite Hhost'. exact Hhost.
    + rewrite Hk'. lia.
    + rewrite Hl'. exact Hl.
    + change (songStarts services (viewOf code pid name (Some m))
                ((file, now) :: next :: rest') s)
        with (songStarts services (viewOf code pid name (Some m)) (next :: rest') s').
      rewrite Hl', Hk' in Hid2, Hnum2.
      assert (Hidx : (turnNumberOf (viewOf code pid name (Some m) s)
                      mod Z.of_nat (length (nonHostPlayers
                                              (viewOf code pid name (Some m) s)))
                      + 1 + Z.of_nat (length (next :: rest')) - 1)
                     mod Z.of_nat (length (nonHostPlayers
                                             (viewOf code pid name (Some m) s))) =
                     (turnNumberOf (viewOf code pid name (Some m) s)
                      + Z.of_nat (length ((file, now) :: next :: rest')) - 1)
                     mod Z.of_nat (length (nonHostPlayers
                                             (viewOf code pid name (Some m) s)))).
      { replace (turnNumberOf (viewOf code pid name (Some m) s)
                 mod Z.of_nat (length (nonHostPlayers (viewOf code pid name (Some m) s)))
                 + 1 + Z.of_nat (length (next :: rest')) - 1)
          with (turnNumberOf (viewOf code pid name (Some m) s)
                mod Z.of_nat (length (nonHostPlayers (viewOf code pid name (Some m) s)))
                + Z.of_nat (length (next :: rest'))) by lia.
        rewrite Z.add_mod_idemp_l by lia. f_equal.
        change (length ((file, now) :: next :: rest')) with (S (length (next :: rest'))).
        lia. }
      rewrite Hidx in Hid2, Hnum2.
      split; [congruence|]. split; assumption.
Qed.

End Rotation.

(** X13.  The rotation.  The host starts songs on the left player under
    the turn-based mode, each start on the room as the one before left it.
    With [n] non-host players, listed in the order in which the room
    enumerates them, and [k >= 0] the turn number before the first start:
    after [j >= 1] starts the turn is held by the non-host player at index
    [(k + j - 1) mod n] and the turn number is that index plus one; the
    players are untouched; and [n] more starts bring the turn back to the
    same player. *)
Theorem turn_rotation (services : ServiceCall -> RoomData -> RoomData)
    (code pid name : string) (m : GameMode.t) (starts : list (string * Z)) (s : RoomData) :
  truthyS (Some code) = true ->
  GameMode.type m = turnBased ->
  turnBasedEnabled (GameMode.settings m) = Some true ->
  starts <> [] ->
  isHost (viewOf code pid name (Some m) s) = true ->
  0 <= turnNumberOf (viewOf code pid name (Some m) s) ->
  nonHostPlayers (viewOf code pid name (Some m) s) <> [] ->
  players (songStarts services (viewOf code pid name (Some m)) starts s) = players s /\
  (Turn.playerId <$>
     currentTurn (songStarts services (viewOf code pid name (Some m)) starts s)) =
    fst <$> (nonHostPlayers (viewOf code pid name (Some m) s)
               !! Z.to_nat ((turnNumberOf (viewOf code pid name (Some m) s)
                             + Z.of_nat (length starts) - 1)
                            mod Z.of_nat (length (nonHostPlayers
                                                    (viewOf code pid name (Some m) s))))) /\
  (Turn.turnNumber <$>
     currentTurn (songStarts services (viewOf code pid name (Some m)) starts s)) =
    Some ((turnNumberOf (viewOf code pid name (Some m) s)
           + Z.of_nat (length starts) - 1)
          mod Z.of_nat (length (nonHostPlayers (viewOf code pid name (Some m) s))) + 1) /\
  (forall more,
     length more = length (nonHostPlayers (viewOf code pid name (Some m) s)) ->
     (Turn.playerId <$>
        currentTurn (songStarts services (viewOf code pid name (Some m)) (starts ++ more) s)) =
     (Turn.playerId <$>
        currentTurn (songStarts services (viewOf code pid name (Some m)) starts s))).
Proof.
  intros Hcode Htype Hen Hne Hhost Hk Hl.
  destruct (songStarts_holder services code pid name m Hcode Htype Hen starts s
              Hne Hhost Hk Hl) as (Hp & Hid & Hnum).
  split; [exact Hp|]. split; [exact Hid|]. split; [exact Hnum|].
  intros more Hmore.
  assert (Hne' : starts ++ more <> []) by (destruct starts; [congruence | discriminate]).
  destruct (songStarts_holder services code pid name m Hcode Htype Hen (starts ++ more) s
              Hne' Hhost Hk Hl) as (_ & Hid' & _).
  rewrite Hid', Hid, length_app, Hmore. do 3 f_equal.
  replace (turnNumberOf (viewOf code pid name (Some m) s)
           + Z.of_nat (length starts
                       + length (nonHostPlayers (viewOf code pid name (Some m) s))) - 1)
    with (turnNumberOf (viewOf code pid name (Some m) s) + Z.of_nat (length starts) - 1
          + 1 * Z.of_nat (length (nonHostPlayers (viewOf code pid name (Some m) s))))
    by lia.
  apply Z_mod_plus_full.
Qed.

(** X13, witness: the three song starts of the scenario (turn number 1
    after [setGameMode], three guests) end on guest A, at index 0. *)
Lemma turn_rotation_witness :
  turnNumberOf (viewOf "ROOM" "h" "Host" (Some turnBasedMode) Scenario.turnRoom) = 1 /\
  map fst (nonHostPlayers (viewOf "ROOM" "h" "Host" (Some turnBasedMode) Scenario.turnRoom)) =
    [ "a"; "b"; "c" ] /\
  (Turn.playerId <$>
     currentTurn (songStarts Scenario.services (viewOf "ROOM" "h" "Host" (Some turnBasedMode))
                    [ ("one.mp3", 1000); ("two.mp3", 60000); ("three.mp3", 120000) ]
                    Scenario.turnRoom)) = Some "a".
Proof.
  split; [reflexivity|]. split; [reflexivity|].
  destruct (turn_rotation Scenario.services "ROOM" "h" "Host" turnBasedMode
              [ ("one.mp3", 1000); ("two.mp3", 60000); ("three.mp3", 120000) ]
              Scenario.turnRoom eq_refl eq_refl eq_refl
              ltac:(discriminate) eq_refl ltac:(cbn; lia) ltac:(discriminate))
    as (_ & Hholder & _).
  rewrite Hholder. reflexivity.
Defined.

(** ** What the turn display shows as next player *)

Lemma turnFields_keep_order (fs : list TurnField) (t : Turn.t) :
  Turn.turnOrder (fold_left applyTurnField fs t) = Turn.turnOrder t /\
  Turn.nextPlayerIndex (fold_left applyTurnField fs t) = Turn.nextPlayerIndex t.
Proof.
  revert t. induction fs as [|f fs IH]; intros t; [split; reflexivity|].
  simpl. destruct (IH (applyTurnField t f)) as [-> ->].
  destruct f; split; reflexivity.
Qed.

Lemma roomFields_keep_turn (fs : list RoomField) (s : RoomData) :
  existsb isCurrentTurnField fs = false ->
  currentTurn (fold_left applyRoomField fs s) = currentTurn s.
Proof.
  revert s. induction fs as [|f fs IH]; intros s Hk; [reflexivity|].
  simpl in Hk. apply orb_false_iff in Hk as [Hf Hfs].
  simpl. rewrite (IH _ Hfs). destruct f; try discriminate; reflexivity.
Qed.

Lemma keepsTurnOrder_step (services : ServiceCall -> RoomData -> RoomData)
    (e : Effect) (s : RoomData) :
  keepsTurnOrder e = true ->
  turnOrderOf (step services s e) = turnOrderOf s /\
  nextPlayerIndexOf (step services s e) = nextPlayerIndexOf s.
Proof.
  destruct e as [w|k|ms|ms ws|ev]; try discriminate; try (intros _; split; reflexivity).
  destruct w as [fs|pid' fs|fs|fs|a ts]; try (intros _; split; reflexivity).
  - intros Hk. simpl in Hk. apply negb_true_iff in Hk.
    unfold turnOrderOf, nextPlayerIndexOf, step, applyWrite.
    rewrite (roomFields_keep_turn fs s Hk). split; reflexivity.
  - intros _. unfold turnOrderOf, nextPlayerIndexOf, step, applyWrite.
    cbn [applyRoomField currentTurn].
    destruct (turnFields_keep_order fs (default Turn.empty (currentTurn s))) as [-> ->].
    destruct (currentTurn s); split; reflexivity.
Qed.

Lemma keepsTurnOrder_run (services : ServiceCall -> RoomData -> RoomData)
    (es : list Effect) (s : RoomData) :
  forallb keepsTurnOrder es = true ->
  turnOrderOf (run services es s) = turnOrderOf s /\
  nextPlayerIndexOf (run services es s) = nextPlayerIndexOf s.
Proof.
  revert s. induction es as [|e es IH]; intros s Hall; [split; reflexivity|].
  simpl in Hall. apply andb_true_iff in Hall as [He Hes].
  change (run services (e :: es) s) with (run services es (step services s e)).
  destruct (IH (step services s e) Hes) as [-> ->].
  exact (keepsTurnOrder_step services e s He).
Qed.

(** No song start, on either player, under any mode and for any client,
    issues an effect that can change the turn order. *)
Lemma onPlay_keepsTurnOrder (c : Ctx) (column : Column) (file : string) (now : Z) :
  forallb keepsTurnOrder (onPlay c column file now) = true.
Proof.
  unfold onPlay, advanceTurn, dispatchDisableBuzzForSong, dispatchEnableBuzzForSong,
    onDisableBuzzForSong, onEnableBuzzForSong, disableBuzzWrites, enableBuzzWrites.
  destruct column, (currentGameMode c) as [m|];
    repeat match goal with
           | |- context [ if ?b then _ else _ ] => destruct b
           | |- context [ match ?o with Some _ => _ | None => _ end ] => destruct o
           | |- context [ let (_, _) := ?x in _ ] => destruct x
           end;
    reflexivity.
Qed.

Lemma songStarts_keep_order (services : ServiceCall -> RoomData -> RoomData)
    (view : RoomData -> Ctx) (starts : list (string * Z)) (s : RoomData) :
  turnOrderOf (songStarts services view starts s) = turnOrderOf s /\
  nextPlayerIndexOf (songStarts services view starts s) = nextPlayerIndexOf s.
Proof.
  revert s. induction starts as [|[file now] rest IH]; intros s; [split; reflexivity|].
  cbn [songStarts]. destruct (IH (run services (onPlay (view s) left file now) s)) as [-> ->].
  exact (keepsTurnOrder_run services _ s (onPlay_keepsTurnOrder (view s) left file now)).
Qed.

Lemma host_in_room (c : Ctx) :
  isHost c = true -> exists first rest, playerIdsOf c = first :: rest.
Proof.
  unfold isHost, playerIdsOf. intros H. apply andb_true_iff in H as [_ H].
  destruct (playerId c) as [pid|]; [|discriminate].
  destruct (roomData c) as [r|]; [|discriminate].
  destruct (lookupPlayer pid (players r)) as [p|] eqn:Hp; [|discriminate].
  pose proof (lookupPlayer_In pid (players r) p Hp) as Hin.
  destruct (map fst (players r)) as [|first rest]; [destruct Hin | eauto].
Qed.

(** The write of [setGameMode] for the turn-based mode. *)
Lemma setGameMode_turnBased_host (c : Ctx) (mode : GameMode.t) (now : Z)
    (first : string) (rest : list string) :
  truthyS (roomCode c) = true ->
  isHost c = true ->
  GameMode.type mode = turnBased ->
  playerIdsOf c = first :: rest ->
  setGameMode c mode now =
    [ Store (UpdRoom [ FGameMode mode;
                       FCurrentTurn
                         (Turn.mk first (nameOrUnknown (playersOf c) first) 1 (Some now) true
                            (map (fun id => (id, nameOrUnknown (playersOf c) id))
                               (first :: rest))
                            (Some 1)) ]) ].
Proof.
  intros Hcode Hhost Htype Hids.
  assert (Hid : truthyS (playerId c) = true).
  { unfold isHost in Hhost. apply andb_true_iff in Hhost as [H _]. exact H. }
  unfold setGameMode, initialTurn. rewrite Hcode, Hid, Hhost, Htype, Hids. reflexivity.
Qed.

(** X14.  The next player the turn display names never moves.
    [setGameMode] writes the turn order with [nextPlayerIndex: 1], and no
    song start, whoever's client it runs on, writes either again: after
    the host has set the turn-based mode, and after any number of song
    starts, the display's next player is the second player of the room's
    enumeration (none when the host is alone), and the order is the one
    [setGameMode] wrote. *)
Theorem next_player_display_fixed (services : ServiceCall -> RoomData -> RoomData)
    (c : Ctx) (mode : GameMode.t) (now : Z) (view : RoomData -> Ctx)
    (starts : list (string * Z)) (s : RoomData) :
  truthyS (roomCode c) = true ->
  isHost c = true ->
  GameMode.type mode = turnBased ->
  turnOrderOf (songStarts services view starts (run services (setGameMode c mode now) s)) =
    map (fun id => (id, nameOrUnknown (playersOf c) id)) (playerIdsOf c) /\
  nextTurnPlayer (songStarts services view starts (run services (setGameMode c mode now) s)) =
    (fun id => (id, nameOrUnknown (playersOf c) id)) <$> (playerIdsOf c !! 1%nat).
Proof.
  intros Hcode Hhost Htype.
  destruct (host_in_room c Hhost) as (first & rest & Hids).
  destruct (songStarts_keep_order services view starts
              (run services (setGameMode c mode now) s)) as [Horder Hnext].
  unfold nextTurnPlayer. rewrite Horder, Hnext.
  rewrite (setGameMode_turnBased_host c mode now first rest Hcode Hhost Htype Hids).
  rewrite Hids. split; [reflexivity|].
  unfold turnOrderOf, nextPlayerIndexOf. cbn -[nameOrUnknown Z.of_nat].
  destruct rest; reflexivity.
Qed.

(** X14, witness: after the three song starts of the scenario the display
    still names guest A as next player. *)
Lemma next_player_display_fixed_witness :
  playerIdsOf (Scenario.hostCtx None Scenario.lobby) !! 1%nat = Some "a" /\
  nextTurnPlayer
    (songStarts Scenario.services (Scenario.hostCtx (Some turnBasedMode))
       [ ("one.mp3", 1000); ("two.mp3", 60000); ("three.mp3", 120000) ]
       (run Scenario.services
          (setGameMode (Scenario.hostCtx None Scenario.lobby) turnBasedMode 7)
          Scenario.lobby)) = Some ("a", "A").
Proof.
  split; [reflexivity|].
  rewrite (proj2 (next_player_display_fixed Scenario.services
                    (Scenario.hostCtx None Scenario.lobby) turnBasedMode 7
                    (Scenario.hostCtx (Some turnBasedMode))
                    [ ("one.mp3", 1000); ("two.mp3", 60000); ("three.mp3", 120000) ]
                    Scenario.lobby eq_refl eq_refl eq_refl)).
  reflexivity.
Defined.

(** ** setGameMode, startNewTurn and nextTurn *)

(** X15.  [setGameMode] of the host records the mode and resets nothing
    of the round in progress: the winner, the buzz flag, the players with
    their scores, the song attempts, the countdown and the current song are
    what they were.  Only the teams mode sets the team turn (to A), and
    only the turn-based mode writes the turn: leaving the turn-based mode
    keeps the old turn in the room. *)
Theorem setGameMode_frame (services : ServiceCall -> RoomData -> RoomData)
    (c : Ctx) (mode : GameMode.t) (now : Z) (s : RoomData) :
  truthyS (roomCode c) = true ->
  isHost c = true ->
  gameMode (run services (setGameMode c mode now) s) = Some mode /\
  winnerInfo (run services (setGameMode c mode now) s) = winnerInfo s /\
  buzzEnabled (run services (setGameMode c mode now) s) = buzzEnabled s /\
  players (run services (setGameMode c mode now) s) = players s /\
  songAttempts (run services (setGameMode c mode now) s) = songAttempts s /\
  countdown (run services (setGameMode c mode now) s) = countdown s /\
  currentSong (run services (setGameMode c mode now) s) = currentSong s /\
  (GameMode.type mode <> turnBased ->
     currentTurn (run services (setGameMode c mode now) s) = currentTurn s) /\
  (GameMode.type mode = teams ->
     currentTeamTurn (run services (setGameMode c mode now) s) = Some "A") /\
  (GameMode.type mode <> teams ->
     currentTeamTurn (run services (setGameMode c mode now) s) = currentTeamTurn s).
Proof.
  intros Hcode Hhost.
  destruct (host_in_room c Hhost) as (first & rest & Hids).
  assert (Hid : truthyS (playerId c) = true).
  { unfold isHost in Hhost. apply andb_true_iff in Hhost as [H _]. exact H. }
  unfold setGameMode, initialTurn. rewrite Hcode, Hid, Hhost, Hids.
  destruct (GameMode.type mode); cbn; repeat split; congruence.
Qed.

(** X15, witness: the host switches the expert room, where guest A's win
    stands, to the classic mode. *)
Lemma setGameMode_frame_witness :
  winnerInfo (run Scenario.services
                (setGameMode (Scenario.hostCtx (Some expertMode) Scenario.expertWon)
                   classicMode 8) Scenario.expertWon) =
    Some (WinnerInfo.mk "a" "A" 5 None) /\
  songAttempts (run Scenario.services
                  (setGameMode (Scenario.hostCtx (Some expertMode) Scenario.expertWon)
                     classicMode 8) Scenario.expertWon) !! "one" = Some [ "a" ].
Proof.
  destruct (setGameMode_frame Scenario.services
              (Scenario.hostCtx (Some expertMode) Scenario.expertWon) classicMode 8
              Scenario.expertWon eq_refl eq_refl) as (_ & Hwin & _ & _ & Hatt & _).
  rewrite Hwin, Hatt. split; reflexivity.
Defined.

(** X16.  The advantage phase [setGameMode] opens has no timer.  After
    the host has set the turn-based mode, at every later instant and until
    a song starts, the room names the first player of its enumeration as
    holder of the turn with [advantagePhase] true, and every call of
    [handleBuzz] for any other player is turned away. *)
Theorem setGameMode_opens_untimed_advantage
    (services : ServiceCall -> RoomData -> RoomData)
    (c : Ctx) (mode : GameMode.t) (now t : Z) (first : string) (rest : list string)
    (s : RoomData) :
  truthyS (roomCode c) = true ->
  isHost c = true ->
  GameMode.type mode = turnBased ->
  turnBasedEnabled (GameMode.settings mode) = Some true ->
  playerIdsOf c = first :: rest ->
  0 <= t ->
  (Turn.playerId <$> currentTurn (roomAt services t (setGameMode c mode now) s)) =
    Some first /\
  (Turn.advantagePhase <$> currentTurn (roomAt services t (setGameMode c mode now) s)) =
    Some true /\
  forall c2 in2 name2 now2 pid2,
    roomData c2 = Some (roomAt services t (setGameMode c mode now) s) ->
    currentGameMode c2 = Some mode ->
    orS in2 (playerId c2) = Some pid2 ->
    pid2 <> first ->
    handleBuzz c2 in2 name2 now2 = [].
Proof.
  intros Hcode Hhost Htype Hen Hids Ht.
  rewrite (setGameMode_turnBased_host c mode now first rest Hcode Hhost Htype Hids).
  unfold roomAt, timeline. cbn [schedule fold_right insertTimed List.filter fst snd].
  settle_instants.
  split; [reflexivity|]. split; [reflexivity|].
  intros c2 in2 name2 now2 pid2 Hroom2 Hm2 Hid2 Hne.
  eapply (turn_denied c2 _ mode _ pid2 in2 name2 now2 Hroom2 Hid2 Hm2 Htype Hen).
  - reflexivity.
  - reflexivity.
  - cbn. congruence.
Qed.

(** X16, witness: an hour after the host set the turn-based mode in the
    lobby and opened the buzz, the turn is the host's own and guest A is
    turned away. *)
Lemma setGameMode_opens_untimed_advantage_witness :
  (Turn.playerId <$>
     currentTurn (roomAt Scenario.services 3600000
                    (setGameMode (Scenario.hostCtx None (Scenario.openRoom classicMode))
                       turnBasedMode 7) (Scenario.openRoom classicMode))) = Some "h" /\
  buzzEnabled (roomAt Scenario.services 3600000
                 (setGameMode (Scenario.hostCtx None (Scenario.openRoom classicMode))
                    turnBasedMode 7) (Scenario.openRoom classicMode)) = Some true /\
  handleBuzz (Scenario.guestCtx "a" "A" (Some turnBasedMode)
                (roomAt Scenario.services 3600000
                   (setGameMode (Scenario.hostCtx None (Scenario.openRoom classicMode))
                      turnBasedMode 7) (Scenario.openRoom classicMode)))
    None None 3600100 = [].
Proof.
  destruct (setGameMode_opens_untimed_advantage Scenario.services
              (Scenario.hostCtx None (Scenario.openRoom classicMode)) turnBasedMode
              7 3600000 "h" [ "a"; "b"; "c" ] (Scenario.openRoom classicMode)
              eq_refl eq_refl eq_refl eq_refl eq_refl ltac:(lia))
    as (Hholder & _ & Hdenied).
  split; [exact Hholder|]. split; [reflexivity|].
  exact (Hdenied (Scenario.guestCtx "a" "A" (Some turnBasedMode)
                    (roomAt Scenario.services 3600000
                       (setGameMode (Scenario.hostCtx None (Scenario.openRoom classicMode))
                          turnBasedMode 7) (Scenario.openRoom classicMode)))
           None None 3600100 "a" eq_refl eq_refl eq_refl ltac:(discriminate)).
Defined.

Lemma startNewTurn_host (c : Ctx) (now : Z) :
  truthyS (roomCode c) = true ->
  isHost c = true ->
  startNewTurn c now =
    [ Emit "disableBuzzForSong";
      Store (UpdRoom [ FBuzzEnabled false; FLastBuzzActivity now ]);
      Store (UpdTurn [ TPlayerId EmptyString; TPlayerName EmptyString;
                       TTurnNumber (turnNumberOf c + 1);
                       TStartTime (Some now); TAdvantagePhase false ]);
      Emit "enableBuzzForSong";
      Store (UpdRoom [ FBuzzEnabled true; FLastBuzzActivity now ]) ].
Proof.
  intros Hcode Hhost. unfold startNewTurn.
  rewrite (host_dispatchDisable c now Hcode Hhost),
    (host_dispatchEnable c now Hcode Hhost), Hcode, Hhost.
  reflexivity.
Qed.

(** X17.  [startNewTurn] of the host leaves a turn without holder and
    without advantage phase, raises the turn number by one and opens the
    buzz: the turn-based block of [handleBuzz] turns nobody away.  Since
    the rotation takes its index from the turn number, the song start
    that follows gives the turn to the non-host player at index
    [(k + 1) mod n], where a song start without [startNewTurn] before it
    gives the turn to the player at index [k mod n]: one player is
    skipped. *)
Theorem startNewTurn_skips_a_player (services : ServiceCall -> RoomData -> RoomData)
    (code pid name : string) (m : GameMode.t) (now now2 : Z) (file : string) (s : RoomData) :
  truthyS (Some code) = true ->
  GameMode.type m = turnBased ->
  turnBasedEnabled (GameMode.settings m) = Some true ->
  isHost (viewOf code pid name (Some m) s) = true ->
  0 <= turnNumberOf (viewOf code pid name (Some m) s) ->
  nonHostPlayers (viewOf code pid name (Some m) s) <> [] ->
  buzzEnabled (run services (startNewTurn (viewOf code pid name (Some m) s) now) s) =
    Some true /\
  (Turn.playerId <$>
     currentTurn (run services (startNewTurn (viewOf code pid name (Some m) s) now) s)) =
    Some EmptyString /\
  (Turn.advantagePhase <$>
     currentTurn (run services (startNewTurn (viewOf code pid name (Some m) s) now) s)) =
    Some false /\
  (forall c2 pid2,
     turnDenies c2 (run services (startNewTurn (viewOf code pid name (Some m) s) now) s)
       pid2 = false) /\
  (Turn.playerId <$>
     currentTurn (run services (onPlay (viewOf code pid name (Some m) s) left file now2) s)) =
    fst <$> (nonHostPlayers (viewOf code pid name (Some m) s)
               !! Z.to_nat (turnNumberOf (viewOf code pid name (Some m) s)
                            mod Z.of_nat (length (nonHostPlayers
                                                    (viewOf code pid name (Some m) s))))) /\
  (Turn.playerId <$>
     currentTurn
       (run services
          (onPlay (viewOf code pid name (Some m)
                     (run services (startNewTurn (viewOf code pid name (Some m) s) now) s))
             left file now2)
          (run services (startNewTurn (viewOf code pid name (Some m) s) now) s))) =
    fst <$> (nonHostPlayers (viewOf code pid name (Some m) s)
               !! Z.to_nat ((turnNumberOf (viewOf code pid name (Some m) s) + 1)
                            mod Z.of_nat (length (nonHostPlayers
                                                    (viewOf code pid name (Some m) s))))).
Proof.
  intros Hcode Htype Hen Hhost Hk Hl.
  rewrite (startNewTurn_host (viewOf code pid name (Some m) s) now Hcode Hhost).
  set (s1 := run services _ s).
  assert (Hp : players s1 = players s) by reflexivity.
  assert (Hk1 : turnNumberOf (viewOf code pid name (Some m) s1) =
                turnNumberOf (viewOf code pid name (Some m) s) + 1) by reflexivity.
  destruct (viewOf_players code pid name m s s1 Hp) as [Hhost1 Hl1].
  split; [reflexivity|]. split; [reflexivity|]. split; [reflexivity|].
  split.
  { intros c2 pid2. unfold turnDenies.
    destruct (currentGameMode c2) as [m2|]; [|reflexivity].
    change (currentTurn s1) with
      (Some (fold_left applyTurnField
               [ TPlayerId EmptyString; TPlayerName EmptyString;
                 TTurnNumber (turnNumberOf (viewOf code pid name (Some m) s) + 1);
                 TStartTime (Some now); TAdvantagePhase false ]
               (default Turn.empty (currentTurn s)))).
    cbn [fold_left applyTurnField Turn.advantagePhase andb].
    rewrite !andb_false_r. reflexivity. }
  split.
  - exact (proj1 (proj2 (songStart_step services code pid name m Hcode Htype Hen
                           s file now2 Hhost Hk Hl))).
  - destruct (songStart_step services code pid name m Hcode Htype Hen s1 file now2)
      as (_ & Hid & _).
    + rewrite Hhost1. exact Hhost.
    + rewrite Hk1. lia.
    + rewrite Hl1. exact Hl.
    + rewrite Hid, Hl1, Hk1. reflexivity.
Qed.

(** X17, witness: on the scenario room (turn number 1, guests a, b, c) a
    song start gives the turn to b; after [startNewTurn] it goes to c. *)
Lemma startNewTurn_skips_a_player_witness :
  (Turn.playerId <$>
     currentTurn
       (run Scenario.services
          (onPlay (viewOf "ROOM" "h" "Host" (Some turnBasedMode) Scenario.turnRoom)
             left "one.mp3" 1000) Scenario.turnRoom)) = Some "b" /\
  (Turn.playerId <$>
     currentTurn
       (run Scenario.services
          (onPlay (viewOf "ROOM" "h" "Host" (Some turnBasedMode)
                     (run Scenario.services
                        (startNewTurn (viewOf "ROOM" "h" "Host" (Some turnBasedMode)
                                         Scenario.turnRoom) 500) Scenario.turnRoom))
             left "one.mp3" 1000)
          (run Scenario.services
             (startNewTurn (viewOf "ROOM" "h" "Host" (Some turnBasedMode)
                              Scenario.turnRoom) 500) Scenario.turnRoom))) = Some "c".
Proof.
  destruct (startNewTurn_skips_a_player Scenario.services "ROOM" "h" "Host" turnBasedMode
              500 1000 "one.mp3" Scenario.turnRoom eq_refl eq_refl eq_refl eq_refl
              ltac:(cbn; lia) ltac:(discriminate))
    as (_ & _ & _ & _ & Hplain & Hskipped).
  rewrite Hplain, Hskipped. split; reflexivity.
Defined.

(** X18.  [nextTurn] of the host changes nothing of the turn in the room:
    the advantage phase it sets exists in the caller's local copy only, and
    the other clients keep seeing the turn as it was.  What reaches the
    room is the buzz, closed and reopened: it ends open. *)
Theorem nextTurn_leaves_turn (services : ServiceCall -> RoomData -> RoomData)
    (c : Ctx) (now : Z) (s : RoomData) :
  truthyS (roomCode c) = true ->
  isHost c = true ->
  currentTurn (run services (nextTurn c now) s) = currentTurn s /\
  buzzEnabled (run services (nextTurn c now) s) = Some true /\
  winnerInfo (run services (nextTurn c now) s) = winnerInfo s /\
  players (run services (nextTurn c now) s) = players s /\
  songAttempts (run services (nextTurn c now) s) = songAttempts s.
Proof.
  intros Hcode Hhost. unfold nextTurn.
  rewrite (host_dispatchDisable c now Hcode Hhost),
    (host_dispatchEnable c now Hcode Hhost), Hcode, Hhost.
  repeat split.
Qed.

(** X18, witness: the scenario room 20 seconds into the first song, when
    the advantage phase is over. *)
Lemma nextTurn_leaves_turn_witness :
  (Turn.advantagePhase <$> currentTurn (Scenario.duringFirstSong 20000)) = Some false /\
  (Turn.advantagePhase <$>
     currentTurn (run Scenario.services
                    (nextTurn (Scenario.hostCtx (Some turnBasedMode)
                                 (Scenario.duringFirstSong 20000)) 21000)
                    (Scenario.duringFirstSong 20000))) = Some false.
Proof.
  split; [reflexivity|].
  rewrite (proj1 (nextTurn_leaves_turn Scenario.services
                    (Scenario.hostCtx (Some turnBasedMode) (Scenario.duringFirstSong 20000))
                    21000 (Scenario.duringFirstSong 20000) eq_refl eq_refl)).
  reflexivity.
Defined.

(** ** The buzz button against handleBuzz *)

Lemma advantage_left_positive (a d : Z) :
  negb (Qle_bool (Qmax 0%Q (Qminus (inject_Z a) (Qdiv (inject_Z d) (inject_Z 1000)))) 0%Q) =
    (d <? a * 1000).
Proof.
  set (x := Qminus (inject_Z a) (Qdiv (inject_Z d) (inject_Z 1000))).
  assert (Hx : (x <= 0)%Q <-> a * 1000 <= d).
  { unfold x, Qle, Qminus, Qplus, Qopp, Qdiv, Qmult, Qinv, inject_Z. simpl. lia. }
  destruct (Z.ltb_spec d (a * 1000)) as [Hlt|Hge].
  - apply negb_true_iff. apply not_true_is_false. intros Hle.
    apply Qle_bool_iff in Hle. apply Q.max_lub_iff in Hle as [_ Hle].
    apply Hx in Hle. lia.
  - apply negb_false_iff. apply Qle_bool_iff. apply Q.max_lub_iff.
    split; [apply Qle_refl | apply Hx; exact Hge].
Qed.

Lemma hasAlreadyAttempted_expertDenies (c : Ctx) (r : RoomData) (pid : string) :
  roomData c = Some r ->
  playerId c = Some pid ->
  truthyS (Some pid) = true ->
  hasAlreadyAttempted c = expertDenies c r pid.
Proof.
  intros Hroom Hid Hpid. unfold hasAlreadyAttempted, expertDenies, expertSong.
  rewrite Hroom, Hid, Hpid.
  destruct (currentGameMode c) as [m|]; [|reflexivity].
  destruct (GameModeType_eqb (GameMode.type m) expert); [|reflexivity].
  destruct (truthyB (oneAttemptPerSong (GameMode.settings m))); [|reflexivity].
  destruct (currentSong r) as [song|]; [|reflexivity].
  destruct (truthyS (Some song)); reflexivity.
Qed.

(** X19.  Outside the turn-based mode the button and [handleBuzz] agree,
    but for expert mode on a file of the player.  For an identified
    client in a room without winner, under any mode but the turn-based
    one: when the expert block, if entered, meets a song whose name the
    database takes as a key, the button is enabled exactly when a press is
    accepted, that is, when [onBuzz] gets to the winner update.  Under
    expert mode on a song named as a file of the player no press is ever
    accepted, while the button of an idle client who is not on record for
    the song is enabled whenever the buzz is open. *)
Theorem button_agrees_with_handleBuzz (b : ButtonState) (c : Ctx) (r : RoomData)
    (pid pname : string) (now now2 : Z) :
  truthyS (roomCode c) = true ->
  roomData c = Some r ->
  playerId c = Some pid ->
  playerName c = Some pname ->
  truthyS (Some pid) = true ->
  truthyS (Some pname) = true ->
  isTurnBased c = false ->
  winnerInfo r = None ->
  ((forall song, expertSong c r = Some song ->
      validKey song = true /\ inheritedKey song = false) ->
   buttonDisabled b c now = negb (accepted (onBuzz b c now2))) /\
  (forall song,
     expertSong c r = Some song ->
     hasAudioExtension song = true ->
     onBuzz b c now2 = [] /\
     (disabledProp b = false -> isBuzzing b = false ->
      buzzEnabled r = Some true -> songAttempts r !! song = None ->
      buttonDisabled b c now = false)).
Proof.
  intros Hcode Hroom Hid Hname Hpid Hpname Hturn Hwin.
  assert (Hen : isBuzzEnabled c = truthyB (buzzEnabled r))
    by (unfold isBuzzEnabled; rewrite Hroom; reflexivity).
  assert (Horid : orS None (playerId c) = Some pid) by (unfold orS; simpl; exact Hid).
  assert (Horname : orS None (playerName c) = Some pname)
    by (unfold orS; simpl; exact Hname).
  assert (Hno : turnDenies c r pid = false).
  { unfold turnDenies. unfold isTurnBased in Hturn.
    destruct (currentGameMode c) as [m|]; [|reflexivity]. rewrite Hturn. reflexivity. }
  split.
  - intros Hkey.
    unfold buttonDisabled, onBuzz. rewrite Hturn. cbn [negb andb].
    rewrite andb_true_r, orb_false_r.
    destruct (disabledProp b); [reflexivity|].
    destruct (isBuzzing b); [reflexivity|].
    cbn [orb]. rewrite Hen.
    destruct (truthyB (buzzEnabled r)) eqn:Hb; [|reflexivity].
    cbn [negb orb].
    rewrite (hasAlreadyAttempted_expertDenies c r pid Hroom Hid Hpid).
    rewrite (handleBuzz_storable c r pid pname None None now2
               Hcode Hroom Horid Horname Hpid Hpname Hkey).
    rewrite Hb, Hwin. cbn [negb truthyO].
    rewrite Hno. unfold expertDenies.
    destruct (expertSong c r) as [song|]; [|reflexivity].
    destruct (includes pid (default [] (songAttempts r !! song))); reflexivity.
  - intros song Hsong Hfile.
    assert (Hpress : handleBuzz c None None now2 = []).
    { rewrite (handleBuzz_identified c r pid pname None None now2
                 Hcode Hroom Horid Horname Hpid Hpname).
      rewrite Hsong, (hasAudioExtension_validKey song Hfile).
      repeat match goal with
             | |- (if ?x then [] else _) = [] => destruct x; [reflexivity|]
             end.
      destruct (attemptedPlayersOf r song) as [attempted|]; [|reflexivity].
      destruct (includes pid attempted); reflexivity. }
    split.
    + unfold onBuzz. rewrite Hpress.
      destruct (disabledProp b || isBuzzing b || negb (isBuzzEnabled c)
                || hasAlreadyAttempted c); reflexivity.
    + intros Hprop Hbusy Hopen Hnone.
      unfold buttonDisabled. rewrite Hprop, Hbusy, Hturn, Hen, Hopen.
      rewrite (hasAlreadyAttempted_expertDenies c r pid Hroom Hid Hpid).
      unfold expertDenies. rewrite Hsong, Hnone. reflexivity.
Qed.

(** X19, witness: guest A, already on record for the song "one" in the
    expert room reopened for the next guest: button disabled, press
    rejected; guest A on the expert room where the host started the file
    "one.mp3": button enabled, press without effect. *)
Lemma button_agrees_with_handleBuzz_witness :
  buttonDisabled (mkButton false false)
    (Scenario.guestCtx "a" "A" (Some expertMode)
       (mkRoom None Scenario.roster (Some expertMode) (Some "one") (Some true)
          (songAttempts Scenario.expertWon) None None None None None)) 50 = true /\
  accepted (onBuzz (mkButton false false)
              (Scenario.guestCtx "a" "A" (Some expertMode)
                 (mkRoom None Scenario.roster (Some expertMode) (Some "one") (Some true)
                    (songAttempts Scenario.expertWon) None None None None None)) 60) = false /\
  buttonDisabled (mkButton false false)
    (Scenario.guestCtx "a" "A" (Some expertMode) Scenario.expertFile) 50 = false /\
  onBuzz (mkButton false false)
    (Scenario.guestCtx "a" "A" (Some expertMode) Scenario.expertFile) 60 = [].
Proof.
  split; [reflexivity|].
  split.
  { apply negb_true_iff.
    rewrite <- (proj1 (button_agrees_with_handleBuzz (mkButton false false)
                  (Scenario.guestCtx "a" "A" (Some expertMode)
                     (mkRoom None Scenario.roster (Some expertMode) (Some "one") (Some true)
                        (songAttempts Scenario.expertWon) None None None None None))
                  _ "a" "A" 50 60 eq_refl eq_refl eq_refl eq_refl eq_refl eq_refl
                  eq_refl eq_refl)).
    - reflexivity.
    - intros song [= <-]. split; reflexivity. }
  destruct (proj2 (button_agrees_with_handleBuzz (mkButton false false)
                     (Scenario.guestCtx "a" "A" (Some expertMode) Scenario.expertFile)
                     Scenario.expertFile "a" "A" 50 60
                     eq_refl eq_refl eq_refl eq_refl eq_refl eq_refl eq_refl eq_refl)
                  "one.mp3" eq_refl eq_refl) as [Hpress Hbutton].
  split; [exact (Hbutton eq_refl eq_refl eq_refl eq_refl) | exact Hpress].
Defined.

(** X20.  Under the turn-based mode the button and [handleBuzz] part.
    While the snapshot shows another player's advantage phase, the button
    of an idle, identified client is disabled only as long as the time
    left, computed from the mode's [turnAdvantageSeconds] and the turn's
    start time, is positive, that is for [turnAdvantageSeconds] seconds;
    [onBuzz] is turned away as long as the snapshot shows the phase.  From
    [turnAdvantageSeconds] seconds on the button is enabled and a press
    does nothing. *)
Theorem button_enabled_but_rejected (c : Ctx) (r : RoomData) (m : GameMode.t)
    (turn : Turn.t) (pid pname : string) (a st now now2 : Z) :
  truthyS (roomCode c) = true ->
  roomData c = Some r ->
  playerId c = Some pid ->
  playerName c = Some pname ->
  truthyS (Some pid) = true ->
  truthyS (Some pname) = true ->
  currentGameMode c = Some m ->
  GameMode.type m = turnBased ->
  turnBasedEnabled (GameMode.settings m) = Some true ->
  turnAdvantageSeconds (GameMode.settings m) = Some a ->
  0 < a ->
  currentTurn r = Some turn ->
  Turn.advantagePhase turn = true ->
  Turn.playerId turn <> pid ->
  Turn.startTime turn = Some st ->
  buzzEnabled r = Some true ->
  winnerInfo r = None ->
  buttonDisabled (mkButton false false) c now = (now - st <? a * 1000) /\
  onBuzz (mkButton false false) c now2 = [].
Proof.
  intros Hcode Hroom Hid Hname Hpid Hpname Hm Htype Hen Hadv Hpos Hturn Hphase Hne Hst
    Hbuzz Hwin.
  split.
  - unfold buttonDisabled, isAdvantagePhase, isTurnBased, isBuzzEnabled, hasAlreadyAttempted,
      isCurrentPlayerTurn, turnAdvantageTimeLeft.
    rewrite Hroom, Hm, Htype, Hid, Hturn, Hphase, Hbuzz, Hadv, Hst.
    cbn [disabledProp isBuzzing GameModeType_eqb truthyB negb andb orb].
    assert (Ha : orZ (Some a) 0 = a)
      by (unfold orZ; destruct (Z.eqb_spec a 0); [lia | reflexivity]).
    rewrite Ha, orZ_Some_0.
    rewrite (proj2 (Z.eqb_neq a 0)) by lia.
    rewrite advantage_left_positive.
    destruct (String.eqb_spec (Turn.playerId turn) pid) as [Heq|_]; [contradiction|].
    cbn [negb]. rewrite andb_true_r. reflexivity.
  - unfold onBuzz, isBuzzEnabled, hasAlreadyAttempted.
    rewrite Hroom, Hm, Htype, Hid, Hbuzz.
    cbn [disabledProp isBuzzing GameModeType_eqb truthyB negb andb orb].
    apply (turn_denied c r m turn pid None None now2 Hroom); assumption.
Qed.

(** X20, witness: the first song of the scenario, 12 seconds into guest
    B's turn (mode: 10 seconds): guest C's button is enabled, the press
    is rejected. *)
Lemma button_enabled_but_rejected_witness :
  (Turn.advantagePhase <$> currentTurn (Scenario.duringFirstSong 12000)) = Some true /\
  buttonDisabled (mkButton false false)
    (Scenario.guestCtx "c" "C" (Some turnBasedMode) (Scenario.duringFirstSong 12000))
    13000 = false /\
  onBuzz (mkButton false false)
    (Scenario.guestCtx "c" "C" (Some turnBasedMode) (Scenario.duringFirstSong 12000))
    13000 = [].
Proof.
  split; [reflexivity|].
  destruct (button_enabled_but_rejected
              (Scenario.guestCtx "c" "C" (Some turnBasedMode) (Scenario.duringFirstSong 12000))
              (Scenario.duringFirstSong 12000) turnBasedMode
              (Turn.mk "b" "B" 2 (Some 1000) true
                 [ ("h", "Host"); ("a", "A"); ("b", "B"); ("c", "C") ] (Some 1))
              "c" "C" 10 1000 13000 13000
              eq_refl eq_refl eq_refl eq_refl eq_refl eq_refl eq_refl eq_refl eq_refl
              eq_refl ltac:(lia) eq_refl eq_refl ltac:(discriminate) eq_refl eq_refl eq_refl)
    as [Hbutton Hpress].
  split; [rewrite Hbutton; reflexivity | exact Hpress].
Defined.
